(** * Agent-based spread models (Mesa laboratories): a shallow embedding

    The repository holds three classroom models built on the Mesa
    framework:

    - [Homework]: [homework/agents.py], [homework/model.py], the
      infectious-disease model;
    - [Laboratory2]: [laboratory_2/agents.py], [laboratory_2/model.py], the
      trend model with interaction counters;
    - [Laboratory1]: [laboratory1/agents.py], [laboratory1/model.py], the
      first trend model, on Mesa's older [MultiGrid].

    Python objects are records; the population is a list addressed by
    registration index; the per-cell property dictionaries are a finite map
    keyed by coordinate.  Methods that mutate the model are state-passing
    computations that either return or raise, and a raise carries the state
    the model had at that moment, because Python keeps every mutation made
    before an exception.  Probabilities are rationals: every constant of the
    sources (0.25, 0.5, 0.75) is exact in binary floating point, and a
    comparison of a draw [k/2^53] with the float nearest to 0.2 agrees with
    the comparison with 1/5.  Logging is not modelled. *)

From Stdlib Require Import ZArith QArith Qround Lia String.
From stdpp Require Import base option list gmap.

Local Open Scope Z_scope.

(** ** Coordinates, exceptions, results *)

Definition Coord : Type := Z * Z.

Inductive Exception : Type :=
| ValueError (msg : string)
| IndexError (msg : string)
| TypeError (msg : string)
| ZeroDivisionError (msg : string).

(** The error of the three [check_grid_initialization] methods:
    [ValueError(f'The grid has not been initialized: {error_msg}')]. *)
Definition grid_not_initialized (error_msg : string) : Exception :=
  ValueError ("The grid has not been initialized: " ++ error_msg).

(** The outcome of a call on a state of type [S]: a value and the new state,
    or an exception and the state reached when it was raised. *)
Inductive Result (S A : Type) : Type :=
| Ok (a : A) (s : S)
| Raise (e : Exception) (s : S).
Arguments Ok {S A} a s.
Arguments Raise {S A} e s.

Definition state_of {S A} (r : Result S A) : S :=
  match r with Ok _ s => s | Raise _ s => s end.

Definition raised {S A} (r : Result S A) : option Exception :=
  match r with Ok _ _ => None | Raise e _ => Some e end.

Definition M (S A : Type) : Type := S -> Result S A.

Definition ret {S A} (a : A) : M S A := fun s => Ok a s.

Definition raise {S A} (e : Exception) : M S A := fun s => Raise e s.

Definition bind {S A B} (c : M S A) (k : A -> M S B) : M S B :=
  fun s => match c s with
           | Ok a s' => k a s'
           | Raise e s' => Raise e s'
           end.

Definition get {S} : M S S := fun s => Ok s s.

Definition modify {S} (f : S -> S) : M S unit := fun s => Ok tt (f s).

Declare Scope py_scope.
Delimit Scope py_scope with py.
Notation "'let*' x ':=' c 'in' k" := (bind c (fun x => k))
  (at level 10, x name, c at level 100, k at level 200) : py_scope.
Notation "c ';;' k" := (bind c (fun _ => k))
  (at level 100, k at level 200, right associativity) : py_scope.
Local Open Scope py_scope.

(** [for x in l: body(x)], also [AgentSet.do]. *)
Fixpoint forM_ {S A} (l : list A) (body : A -> M S unit) : M S unit :=
  match l with
  | [] => ret tt
  | x :: l' => body x ;; forM_ l' body
  end.

(** Every outcome of [c], returned or raised, leaves a state related by
    [R] to the state the call started from. *)
Definition respects {S A} (R : relation S) (c : M S A) : Prop :=
  forall s, R s (state_of (c s)).

(** Every exception that [c] can raise satisfies [P]. *)
Definition raises_only {S A} (P : Exception -> Prop) (c : M S A) : Prop :=
  forall s e s', c s = Raise e s' -> P e.

(** An exception other than the error of [check_grid_initialization]. *)
Definition not_grid_error (e : Exception) : Prop :=
  forall error_msg, e <> grid_not_initialized error_msg.

(** The outcome [r] is not the error of [check_grid_initialization]. *)
Definition no_grid_error {S A} (r : Result S A) : Prop :=
  forall error_msg, raised r <> Some (grid_not_initialized error_msg).

(** The guard-then-step discipline of a decorated [step], for a model with
    a [running] flag, [waiting m] agents not yet informed or infected, the
    undecorated step [body] and [stop m] the state [m] with the flag
    cleared:
    - a tick that starts with nobody waiting clears the flag and does
      nothing else;
    - a tick that starts with somebody waiting is the undecorated step and
      leaves the flag as it was, so that when it brings the number waiting
      to zero the flag is unchanged by it and cleared by the next tick;
    - a cleared flag stays cleared;
    - after [n] ticks from a running model the flag is cleared exactly when
      one of these ticks started with nobody waiting. *)
Definition guard_then_step {S} (running : S -> bool) (stop : S -> S)
    (waiting : S -> nat) (body step : M S unit) (ticks : nat -> M S unit)
  : Prop :=
  forall m,
    (waiting m = 0%nat -> step m = Ok tt (stop m)) /\
    (waiting m <> 0%nat ->
       step m = body m /\ running (state_of (step m)) = running m) /\
    (forall m1, waiting m <> 0%nat -> step m = Ok tt m1 -> waiting m1 = 0%nat ->
       running m1 = running m /\ step m1 = Ok tt (stop m1)) /\
    (forall n, running m = false -> running (state_of (ticks n m)) = false) /\
    (forall n, running m = true ->
       (running (state_of (ticks n m)) = false <->
        exists k mk, (k < n)%nat /\ ticks k m = Ok tt mk /\ waiting mk = 0%nat)).

(** From every state that satisfies [P] the call [c] returns, with a value
    and a state that satisfy [Q]: it raises nothing. *)
Definition returns {S A} (P : S -> Prop) (c : M S A) (Q : A -> S -> Prop)
  : Prop :=
  forall s, P s -> exists a s', c s = Ok a s' /\ Q a s'.

(** The call [c] keeps the invariant [I], whether it returns or raises. *)
Definition keeps {S A} (I : S -> Prop) (c : M S A) : Prop :=
  forall s, I s -> I (state_of (c s)).

(** [respects R c], for the calls made from a state that satisfies [P]. *)
Definition respects_from {S A} (P : S -> Prop) (R : relation S) (c : M S A)
  : Prop :=
  forall s, P s -> R s (state_of (c s)).

(** ** The random sources

    A generator is a tape of uniform draws in [0, 1) and a cursor.  Every
    primitive consumes one draw: [random()] returns it, and the integer
    primitives scale it ([floor (u * n)]). *)

Record Random : Type := { tape : nat -> Q; cursor : nat }.

Definition advance (r : Random) : Random :=
  {| tape := tape r; cursor := S (cursor r) |}.

Definition peek (r : Random) : Q := tape r (cursor r).

Definition randbelow (n : Z) (u : Q) : Z := Qfloor (u * inject_Z n) mod n.

Definition Qltb (x y : Q) : bool := negb (Qle_bool y x).

(** [numpy.random.Generator.integers(0, high, size=n)]: [n] draws below
    [high], in order. *)
Fixpoint integers (high : Z) (n : nat) (r : Random) : list Z * Random :=
  match n with
  | O => ([], r)
  | S n' =>
      let x := randbelow high (peek r) in
      let '(xs, r') := integers high n' (advance r) in
      (x :: xs, r')
  end.

(** ** Mesa's orthogonal von Neumann grid on a torus

    [OrthogonalVonNeumannGrid((width, height), True)]: a cell is connected
    to the four cells one step away along an axis, indices wrapping around.
    On a grid at least 3 wide and 3 high these four cells are distinct and
    none is the cell itself, and [neighborhood] is [cell.neighborhood], as
    it is the list of [MultiGrid.get_neighborhood]; on a narrower torus
    Mesa's collections differ from it (they keep the first of two equal
    connections, and [cell.neighborhood] can hold the cell itself), so the
    statements that depend on the cell selected assume such a grid. *)
Module Grid.

Definition connections (width height : Z) (c : Coord) : list Coord :=
  [ ((c.1 - 1) mod width, c.2);
    (c.1, (c.2 - 1) mod height);
    (c.1, (c.2 + 1) mod height);
    ((c.1 + 1) mod width, c.2) ].

Definition neighborhood (width height : Z) (c : Coord) : list Coord :=
  filter (fun d => d ≠ c) (remove_dups (connections width height c)).

(** [t] is one step away from [c] along an axis, on the torus. *)
Definition adjacent (width height : Z) (c t : Coord) : Prop :=
  t ∈ connections width height c /\ t ≠ c.

(** [CellCollection.select_random_cell]: [random.choice(cells)]. *)
Definition choice {A} (l : list A) (u : Q) : option A :=
  l !! Z.to_nat (randbelow (Z.of_nat (length l)) u).

Definition in_grid (width height : Z) (c : Coord) : Prop :=
  0 <= c.1 < width /\ 0 <= c.2 < height.

Definition all_cells (width height : Z) : list Coord :=
  x ← seqZ 0 width; y ← seqZ 0 height; [(x, y)].

End Grid.

(** ** The infectious-disease model ([homework/]) *)
Module Homework.

(** [homework/agents.py], class [PersonAgent].  [cell] is the cell
    reference of Mesa's [CellAgent] ([None] until the agent is placed);
    [unique_id] is the identifier Mesa hands out at registration. *)
Record PersonAgent : Type := {
  unique_id : Z;
  _is_infected : bool;
  _has_comorbidities : bool;
  _moving_probability : Q;
  cell : option Coord }.

Definition is_infected (self : PersonAgent) : bool := _is_infected self.

Definition has_comorbidities (self : PersonAgent) : bool :=
  _has_comorbidities self.

(** [cell.properties], with the two keys that
    [initialize_infected_property_layer] gives every cell. *)
Record Properties : Type := {
  prop_is_infected : bool;
  prop_virus_persistence : Z }.

#[global] Instance Properties_inhabited : Inhabited Properties :=
  populate {| prop_is_infected := false; prop_virus_persistence := 0 |}.

(** [homework/model.py], class [InfectiousDiseaseSpreadModel].  [random] is
    Python's generator ([self.random]), [rng] NumPy's ([self.rng]);
    [datacollector] lists the collected rows, newest first. *)
Record Model : Type := {
  population_size : Z;
  infected_population_size : Z;
  comorbidities_population_size : Z;
  moving_probability : Q;
  direct_infections : Z;
  location_infections : Z;
  grid_width : Z;
  grid_height : Z;
  grid : gmap Coord Properties;
  infected_property_layer : gmap Coord bool;
  agents : list PersonAgent;
  random : Random;
  rng : Random;
  datacollector : list (Z * Z);
  running : bool }.

Definition set_direct_infections (v : Z) (m : Model) : Model :=
  {| population_size := population_size m;
     infected_population_size := infected_population_size m;
     comorbidities_population_size := comorbidities_population_size m;
     moving_probability := moving_probability m;
     direct_infections := v;
     location_infections := location_infections m;
     grid_width := grid_width m; grid_height := grid_height m;
     grid := grid m;
     infected_property_layer := infected_property_layer m;
     agents := agents m; random := random m; rng := rng m;
     datacollector := datacollector m; running := running m |}.

Definition set_location_infections (v : Z) (m : Model) : Model :=
  {| population_size := population_size m;
     infected_population_size := infected_population_size m;
     comorbidities_population_size := comorbidities_population_size m;
     moving_probability := moving_probability m;
     direct_infections := direct_infections m;
     location_infections := v;
     grid_width := grid_width m; grid_height := grid_height m;
     grid := grid m;
     infected_property_layer := infected_property_layer m;
     agents := agents m; random := random m; rng := rng m;
     datacollector := datacollector m; running := running m |}.

Definition set_grid (v : gmap Coord Properties) (m : Model) : Model :=
  {| population_size := population_size m;
     infected_population_size := infected_population_size m;
     comorbidities_population_size := comorbidities_population_size m;
     moving_probability := moving_probability m;
     direct_infections := direct_infections m;
     location_infections := location_infections m;
     grid_width := grid_width m; grid_height := grid_height m;
     grid := v;
     infected_property_layer := infected_property_layer m;
     agents := agents m; random := random m; rng := rng m;
     datacollector := datacollector m; running := running m |}.

Definition set_infected_property_layer (v : gmap Coord bool) (m : Model)
  : Model :=
  {| population_size := population_size m;
     infected_population_size := infected_population_size m;
     comorbidities_population_size := comorbidities_population_size m;
     moving_probability := moving_probability m;
     direct_infections := direct_infections m;
     location_infections := location_infections m;
     grid_width := grid_width m; grid_height := grid_height m;
     grid := grid m;
     infected_property_layer := v;
     agents := agents m; random := random m; rng := rng m;
     datacollector := datacollector m; running := running m |}.

Definition set_agents (v : list PersonAgent) (m : Model) : Model :=
  {| population_size := population_size m;
     infected_population_size := infected_population_size m;
     comorbidities_population_size := comorbidities_population_size m;
     moving_probability := moving_probability m;
     direct_infections := direct_infections m;
     location_infections := location_infections m;
     grid_width := grid_width m; grid_height := grid_height m;
     grid := grid m;
     infected_property_layer := infected_property_layer m;
     agents := v; random := random m; rng := rng m;
     datacollector := datacollector m; running := running m |}.

Definition set_random (v : Random) (m : Model) : Model :=
  {| population_size := population_size m;
     infected_population_size := infected_population_size m;
     comorbidities_population_size := comorbidities_population_size m;
     moving_probability := moving_probability m;
     direct_infections := direct_infections m;
     location_infections := location_infections m;
     grid_width := grid_width m; grid_height := grid_height m;
     grid := grid m;
     infected_property_layer := infected_property_layer m;
     agents := agents m; random := v; rng := rng m;
     datacollector := datacollector m; running := running m |}.

Definition set_rng (v : Random) (m : Model) : Model :=
  {| population_size := population_size m;
     infected_population_size := infected_population_size m;
     comorbidities_population_size := comorbidities_population_size m;
     moving_probability := moving_probability m;
     direct_infections := direct_infections m;
     location_infections := location_infections m;
     grid_width := grid_width m; grid_height := grid_height m;
     grid := grid m;
     infected_property_layer := infected_property_layer m;
     agents := agents m; random := random m; rng := v;
     datacollector := datacollector m; running := running m |}.

Definition set_datacollector (v : list (Z * Z)) (m : Model) : Model :=
  {| population_size := population_size m;
     infected_population_size := infected_population_size m;
     comorbidities_population_size := comorbidities_population_size m;
     moving_probability := moving_probability m;
     direct_infections := direct_infections m;
     location_infections := location_infections m;
     grid_width := grid_width m; grid_height := grid_height m;
     grid := grid m;
     infected_property_layer := infected_property_layer m;
     agents := agents m; random := random m; rng := rng m;
     datacollector := v; running := running m |}.

Definition set_running (v : bool) (m : Model) : Model :=
  {| population_size := population_size m;
     infected_population_size := infected_population_size m;
     comorbidities_population_size := comorbidities_population_size m;
     moving_probability := moving_probability m;
     direct_infections := direct_infections m;
     location_infections := location_infections m;
     grid_width := grid_width m; grid_height := grid_height m;
     grid := grid m;
     infected_property_layer := infected_property_layer m;
     agents := agents m; random := random m; rng := rng m;
     datacollector := datacollector m; running := v |}.

(** *** Access to the shared objects *)

(** [self.random.random()] *)
Definition random_random : M Model Q :=
  fun m => Ok (peek (random m)) (set_random (advance (random m)) m).

(** [cells.select_random_cell()], that is [self.random.choice(cells)]. *)
Definition select_random_cell (cells : list Coord) : M Model Coord :=
  fun m =>
    match Grid.choice cells (peek (random m)) with
    | Some c => Ok c (set_random (advance (random m)) m)
    | None => Raise (IndexError "Cannot choose from an empty sequence") m
    end.

(** A method called on the agent registered at index [i]; an index that
    names no agent denotes no call. *)
Definition on_agent (i : nat) (method : PersonAgent -> M Model unit)
  : M Model unit :=
  fun m => match agents m !! i with
           | Some self => method self m
           | None => Ok tt m
           end.

(** [cell.agents]: the agents standing on [c], each with its registration
    index.  They are listed in registration order; Mesa lists them in the
    order in which they came to the cell, and the statements about them go
    by membership, not by order. *)
Definition cell_agents (ags : list PersonAgent) (c : Coord)
  : list (nat * PersonAgent) :=
  filter (fun ja => cell ja.2 = Some c) (imap pair ags).

(** [self.cell.neighborhood] *)
Definition neighborhood (m : Model) (c : Coord) : list Coord :=
  Grid.neighborhood (grid_width m) (grid_height m) c.

Definition set_agent_cell (c : Coord) (a : PersonAgent) : PersonAgent :=
  {| unique_id := unique_id a; _is_infected := _is_infected a;
     _has_comorbidities := _has_comorbidities a;
     _moving_probability := _moving_probability a; cell := Some c |}.

Definition set_agent_infected (a : PersonAgent) : PersonAgent :=
  {| unique_id := unique_id a; _is_infected := true;
     _has_comorbidities := _has_comorbidities a;
     _moving_probability := _moving_probability a; cell := cell a |}.

(** [agent.cell = cell] *)
Definition assign_cell (i : nat) (c : Coord) : M Model unit :=
  modify (fun m => set_agents (alter (set_agent_cell c) i (agents m)) m).

(** [self.move_to(cell)] of [Grid2DMovingAgent]: [self.cell = cell]. *)
Definition move_to (i : nat) (c : Coord) : M Model unit := assign_cell i c.

(** *** [homework/agents.py] *)

(** [PersonAgent.check_grid_initialization]; returns the cell it found, the
    one the caller's later reads of [self.cell] see. *)
Definition check_grid_initialization (self : PersonAgent) (error_msg : string)
  : M Model Coord :=
  match cell self with
  | None => raise (grid_not_initialized error_msg)
  | Some c => ret c
  end.

(** [PersonAgent._get_infected] *)
Definition _get_infected (i : nat) (is_direct : bool) : M Model unit :=
  modify (fun m => set_agents (alter set_agent_infected i (agents m)) m) ;;
  if is_direct
  then modify (fun m => set_direct_infections (direct_infections m + 1) m)
  else modify (fun m => set_location_infections (location_infections m + 1) m).

(** [PersonAgent._in_neighbourhood_of_infection] *)
Definition _in_neighbourhood_of_infection (self : PersonAgent) : M Model bool :=
  let* c := check_grid_initialization self
              "The agent cannot check if neighbouring cells are infected" in
  let* m := get in
  ret (existsb (fun d => prop_is_infected (grid m !!! d)) (neighborhood m c)).

(** [PersonAgent._get_infection_probabilty] *)
Definition _get_infection_probabilty (self : PersonAgent) : M Model Q :=
  let* c := check_grid_initialization self
              "The agent cannot get infection probability" in
  let infection_probability : Q :=
    if has_comorbidities self then (1 # 4)%Q else 0%Q in
  let* m := get in
  if prop_is_infected (grid m !!! c)
  then ret (infection_probability + (1 # 2))%Q
  else
    let* near := _in_neighbourhood_of_infection self in
    if near then ret (infection_probability + (1 # 4))%Q else ret 0%Q.

(** [PersonAgent.get_infected_from_cell] *)
Definition get_infected_from_cell (i : nat) : M Model unit :=
  on_agent i (fun self =>
    check_grid_initialization self
      "The agent cannot get infected from the cell." ;;
    if is_infected self then ret tt
    else
      let* u := random_random in
      let* p := _get_infection_probabilty self in
      if Qltb u p then _get_infected i false else ret tt).

(** [PersonAgent.move_around] *)
Definition move_around (i : nat) : M Model unit :=
  on_agent i (fun self =>
    let* c := check_grid_initialization self
                "The agent cannot move around the grid." in
    let* u := random_random in
    if Qltb u (_moving_probability self)
    then
      let* m := get in
      let* target := select_random_cell (neighborhood m c) in
      move_to i target
    else ret tt).

(** The body of the loop of [spread_virus] over [encountered_agents]. *)
Definition infect_encountered (j : nat) : M Model unit :=
  on_agent j (fun agent =>
    let infection_probability : Q :=
      if has_comorbidities agent then (3 # 4)%Q else (1 # 2)%Q in
    if is_infected agent then ret tt
    else
      let* u := random_random in
      if Qltb u infection_probability then _get_infected j true else ret tt).

Definition contaminate (p : Properties) : Properties :=
  {| prop_is_infected := true;
     prop_virus_persistence := prop_virus_persistence p |}.

(** [PersonAgent.spread_virus] *)
Definition spread_virus (i : nat) : M Model unit :=
  on_agent i (fun self =>
    let* c := check_grid_initialization self
                "The agent cannot spread the virus." in
    if is_infected self
    then
      let* m := get in
      (if prop_is_infected (grid m !!! c) then ret tt
       else modify (set_grid (<[c := contaminate (grid m !!! c)]> (grid m)))) ;;
      let encountered_agents :=
        filter (fun ja => ja.1 ≠ i) (cell_agents (agents m) c) in
      forM_ encountered_agents.*1 infect_encountered
    else ret tt).

(** *** [homework/model.py] *)

(** [PersonAgent.create_agents(model, n, ...)]: [n] new agents, registered
    after the existing ones ([range(n)] is empty for a negative [n]). *)
Definition create_agents (n : Z) (is_infected has_comorbidities : bool)
    (moving_probability : Q) : M Model unit :=
  modify (fun m =>
    let first := Z.of_nat (length (agents m)) + 1 in
    set_agents
      (agents m ++
       ((fun k => {| unique_id := first + Z.of_nat k;
                        _is_infected := is_infected;
                        _has_comorbidities := has_comorbidities;
                        _moving_probability := moving_probability;
                        cell := None |})
        <$> seq 0 (Z.to_nat n)))
      m).

(** [self.rng.integers(0, high, size=n)] *)
Definition rng_integers (high n : Z) : M Model (list Z) :=
  fun m =>
    if high <=? 0 then Raise (ValueError "low >= high") m
    else if n <? 0
    then Raise (ValueError "negative dimensions are not allowed") m
    else
      let '(xs, r) := integers high (Z.to_nat n) (rng m) in
      Ok xs (set_rng r m).

(** [InfectiousDiseaseSpreadModel.place_agents_on_grid].  With no agent
    registered, reading [self._agents_by_type[PersonAgent]] raises a
    [KeyError] in Python; the statements about the constructor that say it
    returns assume that an agent is registered. *)
Definition place_agents_on_grid : M Model unit :=
  let* m := get in
  let* x_range := rng_integers (grid_width m) (population_size m) in
  let* y_range := rng_integers (grid_height m) (population_size m) in
  forM_ (zip (seq 0 (length (agents m))) (zip x_range y_range))
        (fun ixy => assign_cell ixy.1 ixy.2).

(** [InfectiousDiseaseSpreadModel.generate_person_agents] *)
Definition generate_person_agents : M Model unit :=
  let* m := get in
  create_agents (infected_population_size m) true false
                (moving_probability m) ;;
  create_agents (comorbidities_population_size m) false true
                (moving_probability m) ;;
  create_agents (population_size m - infected_population_size m
                 - comorbidities_population_size m) false false
                (moving_probability m) ;;
  place_agents_on_grid.

(** [InfectiousDiseaseSpreadModel.initialize_infected_property_layer] *)
Definition initialize_infected_property_layer : M Model unit :=
  modify (fun m =>
    let cells := Grid.all_cells (grid_width m) (grid_height m) in
    set_infected_property_layer
      (list_to_map (map (fun c => (c, false)) cells))
      (set_grid
         (list_to_map
            (map (fun c => (c, {| prop_is_infected := false;
                                  prop_virus_persistence := 0 |})) cells))
         m)).

(** [self.datacollector.collect(self)]: one row of the two model
    reporters. *)
Definition collect : M Model unit :=
  modify (fun m =>
    set_datacollector
      ((direct_infections m, location_infections m) :: datacollector m) m).

Definition initialize_data_collector : M Model unit := collect.

(** [InfectiousDiseaseSpreadModel.__init__].  [random] and [rng] are the
    generators that [Model.__init__] derives from [seed] (fresh entropy when
    [seed] is [None]); Mesa refuses a grid whose dimensions are not
    positive. *)
Definition __init__ (population_size infected_population_size
    comorbidities_population_size : Z) (moving_probability : Q)
    (grid_width grid_height : Z) (random rng : Random) : Result Model unit :=
  let m0 :=
    {| population_size := population_size;
       infected_population_size := infected_population_size;
       comorbidities_population_size := comorbidities_population_size;
       moving_probability := moving_probability;
       direct_infections := 0; location_infections := 0;
       grid_width := grid_width; grid_height := grid_height;
       grid := ∅; infected_property_layer := ∅;
       agents := []; random := random; rng := rng;
       datacollector := []; running := true |} in
  ((if (0 <? grid_width) && (0 <? grid_height) then ret tt
    else raise (ValueError "Dimensions must be a list of positive integers.")) ;;
   generate_person_agents ;;
   initialize_infected_property_layer ;;
   initialize_data_collector) m0.

(** [AgentSet.do(method)] on [self._agents_by_type[PersonAgent]]: every
    registered agent, in registration order. *)
Definition do (method : nat -> M Model unit) : M Model unit :=
  let* m := get in forM_ (seq 0 (length (agents m))) method.

(** The number the guard of [_stop_condition] compares with zero:
    [len(agents.select(lambda agent: not agent.is_infected))]. *)
Definition not_infected_count (m : Model) : nat :=
  length (filter (fun a => is_infected a = false) (agents m)).

(** [InfectiousDiseaseSpreadModel._stop_condition], the decorator. *)
Definition _stop_condition (step : M Model unit) : M Model unit :=
  let* m := get in
  if decide (not_infected_count m = 0%nat)
  then modify (set_running false)
  else step.

(** One turn of the loop over [self.grid.all_cells.cells] that ends [step]. *)
Definition decay_cell (c : Coord) (m : Model) : Model :=
  let p := grid m !!! c in
  if prop_is_infected p then
    let m1 :=
      set_infected_property_layer (<[c := true]> (infected_property_layer m)) m in
    let persistence :=
      if existsb (fun ja => is_infected ja.2) (cell_agents (agents m1) c)
      then 0
      else prop_virus_persistence p + 1 in
    let m2 :=
      set_grid (<[c := {| prop_is_infected := true;
                          prop_virus_persistence := persistence |}]> (grid m1))
               m1 in
    if 2 <? persistence
    then
      set_infected_property_layer (<[c := false]> (infected_property_layer m2))
        (set_grid (<[c := {| prop_is_infected := false;
                             prop_virus_persistence := 0 |}]> (grid m2)) m2)
    else m2
  else m.

Definition decay : M Model unit :=
  let* m := get in
  forM_ (map_to_list (grid m)).*1 (fun c => modify (decay_cell c)).

(** The undecorated [InfectiousDiseaseSpreadModel.step]. *)
Definition step_body : M Model unit :=
  collect ;;
  do move_around ;;
  do spread_virus ;;
  do get_infected_from_cell ;;
  decay.

(** [InfectiousDiseaseSpreadModel.step], as decorated. *)
Definition step : M Model unit := _stop_condition step_body.

(** [n] calls of [step] in a row, stopping at the first that raises. *)
Fixpoint ticks (n : nat) : M Model unit :=
  match n with
  | O => ret tt
  | S n' => step ;; ticks n'
  end.

(** *** Vocabulary of the statements *)

(** The infection flag of the agent registered at index [j]. *)
Definition infected_at (m : Model) (j : nat) : bool :=
  match agents m !! j with
  | Some a => is_infected a
  | None => false
  end.

(** [any(agent.is_infected for agent in cell.agents)] *)
Definition occupied_by_infected (m : Model) (c : Coord) : bool :=
  existsb (fun ja => is_infected ja.2) (cell_agents (agents m) c).

(** What a call may do to an agent: identity and traits stay, an infection
    stays. *)
Definition agent_evolves (a a' : PersonAgent) : Prop :=
  unique_id a' = unique_id a /\
  _has_comorbidities a' = _has_comorbidities a /\
  _moving_probability a' = _moving_probability a /\
  (_is_infected a = true -> _is_infected a' = true).

(** What a call may do to the population: it keeps its agents, in place. *)
Definition population_evolves (m m' : Model) : Prop :=
  Forall2 agent_evolves (agents m) (agents m').

(** The same, and the running flag is not touched. *)
Definition evolves (m m' : Model) : Prop :=
  running m' = running m /\ population_evolves m m'.

(** The operations of the model and of its agents. *)
Inductive Operation : Type :=
| MoveAround (i : nat)
| SpreadVirus (i : nat)
| GetInfectedFromCell (i : nat)
| GetInfected (i : nat) (is_direct : bool)
| Decay
| Step
| Ticks (n : nat).

Definition call (o : Operation) : M Model unit :=
  match o with
  | MoveAround i => move_around i
  | SpreadVirus i => spread_virus i
  | GetInfectedFromCell i => get_infected_from_cell i
  | GetInfected i is_direct => _get_infected i is_direct
  | Decay => decay
  | Step => step
  | Ticks n => ticks n
  end.

(** The decay of one cell in the words of the specification, for a
    persistence [threshold]: a contaminated cell's counter is reset when an
    infected agent stands on it and incremented otherwise, and the cell is
    cleared when the counter exceeds the threshold. *)
Definition decay_with_threshold (threshold : Z) (occupied : bool)
    (p : Properties) : Properties :=
  if prop_is_infected p then
    let persistence := if occupied then 0 else prop_virus_persistence p + 1 in
    if threshold <? persistence
    then {| prop_is_infected := false; prop_virus_persistence := 0 |}
    else {| prop_is_infected := true; prop_virus_persistence := persistence |}
  else p.

(** The traits that put an agent in a bucket of [generate_person_agents]. *)
Definition bucket (a : PersonAgent) : bool * bool :=
  (_is_infected a, _has_comorbidities a).

(** The population has the same agents with the same traits, in place. *)
Definition same_buckets (m m' : Model) : Prop :=
  bucket <$> agents m' = bucket <$> agents m.

(** *** The reporters, and the vocabulary of the model's invariants *)

(** [InfectiousDiseaseSpreadModel.get_direct_infections] *)
Definition get_direct_infections (m : Model) : Z := direct_infections m.

(** [InfectiousDiseaseSpreadModel.get_location_infections] *)
Definition get_location_infections (m : Model) : Z := location_infections m.

(** The number of infected agents. *)
Definition infected_count (m : Model) : nat :=
  length (filter (fun a => is_infected a = true) (agents m)).

(** From [m] to [m'] neither counter went down, and the agents that became
    infected are as many as the two counters went up. *)
Definition infections_accounted (m m' : Model) : Prop :=
  direct_infections m <= direct_infections m' /\
  location_infections m <= location_infections m' /\
  Z.of_nat (infected_count m') - Z.of_nat (infected_count m) =
  (direct_infections m' - direct_infections m)
  + (location_infections m' - location_infections m).

(** The agent stands on a cell of the grid of [m]. *)
Definition placed (m : Model) (a : PersonAgent) : Prop :=
  exists c, cell a = Some c /\ Grid.in_grid (grid_width m) (grid_height m) c.

(** The cells that carry the two properties are the cells of the grid. *)
Definition cells_initialized (m : Model) : Prop :=
  forall c, is_Some (grid m !! c)
            <-> Grid.in_grid (grid_width m) (grid_height m) c.

(** A model that can run: a grid of at least 3 x 3 initialized cells, and
    at least one agent, every agent on a cell of the grid. *)
Definition well_placed (m : Model) : Prop :=
  3 <= grid_width m /\ 3 <= grid_height m /\
  cells_initialized m /\ agents m <> [] /\ Forall (placed m) (agents m).

(** The agents registered before index [k] stand on the grid, the others
    have no cell. *)
Definition placed_before (k : nat) (m : Model) : Prop :=
  forall i a, agents m !! i = Some a ->
    ((i < k)%nat -> placed m a) /\ ((k <= i)%nat -> cell a = None).

(** What a call may do to the cells: it leaves the property layer alone, and
    a cell's properties too unless it marks the cell contaminated. *)
Definition contaminates_only (m m' : Model) : Prop :=
  infected_property_layer m' = infected_property_layer m /\
  forall c, grid m' !! c = grid m !! c \/
            grid m' !! c = Some (contaminate (grid m !!! c)).

(** The property layer holds [False] for every cell that is not
    contaminated. *)
Definition clean_cells_unmarked (m : Model) : Prop :=
  forall c p, grid m !! c = Some p -> prop_is_infected p = false ->
              infected_property_layer m !! c = Some false.

(** The property layer holds, for every cell, the cell's [is_infected]
    property. *)
Definition layer_mirrors_grid (m : Model) : Prop :=
  forall c p, grid m !! c = Some p ->
              infected_property_layer m !! c = Some (prop_is_infected p).

(** Every persistence counter is 0, 1 or 2, and 0 on a cell that is not
    contaminated. *)
Definition persistence_bounded (m : Model) : Prop :=
  forall c p, grid m !! c = Some p ->
    0 <= prop_virus_persistence p <= 2 /\
    (prop_is_infected p = false -> prop_virus_persistence p = 0).

(** The rows of the data collector are those of [m], untouched. *)
Definition same_rows (m m' : Model) : Prop :=
  datacollector m' = datacollector m.

(** Nobody is infected, no cell of the grid is contaminated, and no draw of
    [self.random] is negative, as no draw of [random()] is. *)
Definition healthy (m : Model) : Prop :=
  infected_count m = 0%nat /\
  (forall c p, grid m !! c = Some p -> prop_is_infected p = false) /\
  (forall k, (0 <= tape (random m) k)%Q).

End Homework.

(** ** The trend model with interaction counters ([laboratory_2/]) *)
Module Laboratory2.

(** [laboratory_2/agents.py], class [PersonAgent]. *)
Record PersonAgent : Type := {
  unique_id : Z;
  sport_enthusiast : bool;
  trend_gossip_counter : Z;
  _gossip_prob : Q;
  _knows_about_trend : bool;
  _skepticism_prob : Q;
  cell : option Coord }.

(** [laboratory_2/agents.py], class [InfluencerAgent]: no cell, it does not
    stand on the grid. *)
Record InfluencerAgent : Type := {
  influencer_unique_id : Z;
  reached_followers_counter : Z }.

(** [model.agents] holds both classes; the tag is what [isinstance] and
    [_agents_by_type] look at. *)
Inductive Agent : Type :=
| RegularPerson (p : PersonAgent)
| SportInfluencer (f : InfluencerAgent).

Definition knows_about_trend (self : PersonAgent) : bool :=
  _knows_about_trend self.

(** [laboratory_2/model.py], class [TrendSpreadModel]. *)
Record Model : Type := {
  population_size : Z;
  influencer_group_size : Z;
  direct_interactions_count : Z;
  indirect_interactions_count : Z;
  successful_direct_interactions_count : Z;
  successful_indirect_interactions_count : Z;
  grid_width : Z;
  grid_height : Z;
  agents : list Agent;
  random : Random;
  rng : Random;
  running : bool }.

Definition set_population_size (v : Z) (m : Model) : Model :=
  {| population_size := v;
     influencer_group_size := influencer_group_size m;
     direct_interactions_count := direct_interactions_count m;
     indirect_interactions_count := indirect_interactions_count m;
     successful_direct_interactions_count :=
       successful_direct_interactions_count m;
     successful_indirect_interactions_count :=
       successful_indirect_interactions_count m;
     grid_width := grid_width m; grid_height := grid_height m;
     agents := agents m; random := random m; rng := rng m;
     running := running m |}.

Definition set_direct_interactions_count (v : Z) (m : Model) : Model :=
  {| population_size := population_size m;
     influencer_group_size := influencer_group_size m;
     direct_interactions_count := v;
     indirect_interactions_count := indirect_interactions_count m;
     successful_direct_interactions_count :=
       successful_direct_interactions_count m;
     successful_indirect_interactions_count :=
       successful_indirect_interactions_count m;
     grid_width := grid_width m; grid_height := grid_height m;
     agents := agents m; random := random m; rng := rng m;
     running := running m |}.

Definition set_indirect_interactions_count (v : Z) (m : Model) : Model :=
  {| population_size := population_size m;
     influencer_group_size := influencer_group_size m;
     direct_interactions_count := direct_interactions_count m;
     indirect_interactions_count := v;
     successful_direct_interactions_count :=
       successful_direct_interactions_count m;
     successful_indirect_interactions_count :=
       successful_indirect_interactions_count m;
     grid_width := grid_width m; grid_height := grid_height m;
     agents := agents m; random := random m; rng := rng m;
     running := running m |}.

Definition set_successful_direct_interactions_count (v : Z) (m : Model)
  : Model :=
  {| population_size := population_size m;
     influencer_group_size := influencer_group_size m;
     direct_interactions_count := direct_interactions_count m;
     indirect_interactions_count := indirect_interactions_count m;
     successful_direct_interactions_count := v;
     successful_indirect_interactions_count :=
       successful_indirect_interactions_count m;
     grid_width := grid_width m; grid_height := grid_height m;
     agents := agents m; random := random m; rng := rng m;
     running := running m |}.

Definition set_successful_indirect_interactions_count (v : Z) (m : Model)
  : Model :=
  {| population_size := population_size m;
     influencer_group_size := influencer_group_size m;
     direct_interactions_count := direct_interactions_count m;
     indirect_interactions_count := indirect_interactions_count m;
     successful_direct_interactions_count :=
       successful_direct_interactions_count m;
     successful_indirect_interactions_count := v;
     grid_width := grid_width m; grid_height := grid_height m;
     agents := agents m; random := random m; rng := rng m;
     running := running m |}.

Definition set_agents (v : list Agent) (m : Model) : Model :=
  {| population_size := population_size m;
     influencer_group_size := influencer_group_size m;
     direct_interactions_count := direct_interactions_count m;
     indirect_interactions_count := indirect_interactions_count m;
     successful_direct_interactions_count :=
       successful_direct_interactions_count m;
     successful_indirect_interactions_count :=
       successful_indirect_interactions_count m;
     grid_width := grid_width m; grid_height := grid_height m;
     agents := v; random := random m; rng := rng m;
     running := running m |}.

Definition set_random (v : Random) (m : Model) : Model :=
  {| population_size := population_size m;
     influencer_group_size := influencer_group_size m;
     direct_interactions_count := direct_interactions_count m;
     indirect_interactions_count := indirect_interactions_count m;
     successful_direct_interactions_count :=
       successful_direct_interactions_count m;
     successful_indirect_interactions_count :=
       successful_indirect_interactions_count m;
     grid_width := grid_width m; grid_height := grid_height m;
     agents := agents m; random := v; rng := rng m;
     running := running m |}.

Definition set_rng (v : Random) (m : Model) : Model :=
  {| population_size := population_size m;
     influencer_group_size := influencer_group_size m;
     direct_interactions_count := direct_interactions_count m;
     indirect_interactions_count := indirect_interactions_count m;
     successful_direct_interactions_count :=
       successful_direct_interactions_count m;
     successful_indirect_interactions_count :=
       successful_indirect_interactions_count m;
     grid_width := grid_width m; grid_height := grid_height m;
     agents := agents m; random := random m; rng := v;
     running := running m |}.

Definition set_running (v : bool) (m : Model) : Model :=
  {| population_size := population_size m;
     influencer_group_size := influencer_group_size m;
     direct_interactions_count := direct_interactions_count m;
     indirect_interactions_count := indirect_interactions_count m;
     successful_direct_interactions_count :=
       successful_direct_interactions_count m;
     successful_indirect_interactions_count :=
       successful_indirect_interactions_count m;
     grid_width := grid_width m; grid_height := grid_height m;
     agents := agents m; random := random m; rng := rng m;
     running := v |}.

(** *** Access to the shared objects *)

Definition random_random : M Model Q :=
  fun m => Ok (peek (random m)) (set_random (advance (random m)) m).

Definition select_random_cell (cells : list Coord) : M Model Coord :=
  fun m =>
    match Grid.choice cells (peek (random m)) with
    | Some c => Ok c (set_random (advance (random m)) m)
    | None => Raise (IndexError "Cannot choose from an empty sequence") m
    end.

(** [self.random.randint(a, b)] *)
Definition random_randint (a b : Z) : M Model Z :=
  fun m =>
    if b <? a then Raise (ValueError "empty range for randrange()") m
    else Ok (a + randbelow (b - a + 1) (peek (random m)))
            (set_random (advance (random m)) m).

(** A [PersonAgent] method called on the agent registered at index [i]; an
    index that names no person denotes no call. *)
Definition on_person (i : nat) (method : PersonAgent -> M Model unit)
  : M Model unit :=
  fun m => match agents m !! i with
           | Some (RegularPerson self) => method self m
           | _ => Ok tt m
           end.

Definition alter_person (f : PersonAgent -> PersonAgent) (a : Agent) : Agent :=
  match a with
  | RegularPerson p => RegularPerson (f p)
  | SportInfluencer _ => a
  end.

Definition alter_influencer (f : InfluencerAgent -> InfluencerAgent)
    (a : Agent) : Agent :=
  match a with
  | RegularPerson _ => a
  | SportInfluencer g => SportInfluencer (f g)
  end.

Definition update_person (i : nat) (f : PersonAgent -> PersonAgent)
  : M Model unit :=
  modify (fun m => set_agents (alter (alter_person f) i (agents m)) m).

Definition update_influencer (i : nat)
    (f : InfluencerAgent -> InfluencerAgent) : M Model unit :=
  modify (fun m => set_agents (alter (alter_influencer f) i (agents m)) m).

(** The persons of [model.agents], each with its registration index. *)
Definition persons (ags : list Agent) : list (nat * PersonAgent) :=
  omap (fun ia => match ia.2 with
                  | RegularPerson p => Some (ia.1, p)
                  | SportInfluencer _ => None
                  end) (imap pair ags).

Definition influencers (ags : list Agent) : list nat :=
  omap (fun ia => match ia.2 with
                  | RegularPerson _ => None
                  | SportInfluencer _ => Some ia.1
                  end) (imap pair ags).

(** [cell.agents]: the persons standing on [c].  They are listed in
    registration order; Mesa lists them in the order in which they came to
    the cell, and the statements about them go by membership, not by
    order. *)
Definition cell_agents (ags : list Agent) (c : Coord)
  : list (nat * PersonAgent) :=
  filter (fun ip => cell ip.2 = Some c) (persons ags).

Definition neighborhood (m : Model) (c : Coord) : list Coord :=
  Grid.neighborhood (grid_width m) (grid_height m) c.

Definition set_person_cell (c : Coord) (a : PersonAgent) : PersonAgent :=
  {| unique_id := unique_id a; sport_enthusiast := sport_enthusiast a;
     trend_gossip_counter := trend_gossip_counter a;
     _gossip_prob := _gossip_prob a;
     _knows_about_trend := _knows_about_trend a;
     _skepticism_prob := _skepticism_prob a; cell := Some c |}.

Definition hear_gossip (a : PersonAgent) : PersonAgent :=
  {| unique_id := unique_id a; sport_enthusiast := sport_enthusiast a;
     trend_gossip_counter := trend_gossip_counter a + 1;
     _gossip_prob := _gossip_prob a;
     _knows_about_trend := _knows_about_trend a;
     _skepticism_prob := _skepticism_prob a; cell := cell a |}.

Definition set_knows_about_trend (a : PersonAgent) : PersonAgent :=
  {| unique_id := unique_id a; sport_enthusiast := sport_enthusiast a;
     trend_gossip_counter := trend_gossip_counter a;
     _gossip_prob := _gossip_prob a;
     _knows_about_trend := true;
     _skepticism_prob := _skepticism_prob a; cell := cell a |}.

Definition reach_follower (f : InfluencerAgent) : InfluencerAgent :=
  {| influencer_unique_id := influencer_unique_id f;
     reached_followers_counter := reached_followers_counter f + 1 |}.

Definition assign_cell (i : nat) (c : Coord) : M Model unit :=
  update_person i (set_person_cell c).

Definition move_to (i : nat) (c : Coord) : M Model unit := assign_cell i c.

(** *** [laboratory_2/agents.py] *)

(** [TrendSpreadingAgent.check_grid_initialization] *)
Definition check_grid_initialization (self : PersonAgent) (error_msg : string)
  : M Model Coord :=
  match cell self with
  | None => raise (grid_not_initialized error_msg)
  | Some c => ret c
  end.

(** [PersonAgent.learn_about_trend] *)
Definition learn_about_trend (i : nat) (is_direct : bool) : M Model unit :=
  on_person i (fun _ =>
    update_person i hear_gossip ;;
    let skepticism_prob : Q := (1 # 5)%Q in
    let* u := random_random in
    if Qltb skepticism_prob u
    then
      update_person i set_knows_about_trend ;;
      if is_direct
      then modify (fun m => set_successful_direct_interactions_count
                              (successful_direct_interactions_count m + 1) m)
      else modify (fun m => set_successful_indirect_interactions_count
                              (successful_indirect_interactions_count m + 1) m)
    else ret tt).

(** [PersonAgent.move_around] *)
Definition move_around (i : nat) : M Model unit :=
  on_person i (fun self =>
    let* c := check_grid_initialization self
                "The agent cannot move around the grid." in
    let* m := get in
    let* target := select_random_cell (neighborhood m c) in
    move_to i target).

(** The body of the loop of [spread_news] over [encountered_agents];
    [gossip_prob] is the spreader's. *)
Definition gossip_to (gossip_prob : Q) (j : nat) : M Model unit :=
  on_person j (fun agent =>
    if knows_about_trend agent then ret tt
    else
      let* willing :=
        (if sport_enthusiast agent then ret true
         else let* u := random_random in ret (Qltb u gossip_prob)) in
      if willing : bool
      then
        modify (fun m => set_direct_interactions_count
                           (direct_interactions_count m + 1) m) ;;
        learn_about_trend j true
      else ret tt).

(** [PersonAgent.spread_news] *)
Definition spread_news (i : nat) : M Model unit :=
  on_person i (fun self =>
    let* c := check_grid_initialization self
                "The agent cannot spread the news." in
    if knows_about_trend self
    then
      let* m := get in
      let encountered_agents :=
        filter (fun ip => ip.1 ≠ i) (cell_agents (agents m) c) in
      forM_ encountered_agents.*1 (gossip_to (_gossip_prob self))
    else ret tt).

(** [InfluencerAgent.spread_news_among_random_followers], called on the
    influencer registered at index [f]. *)
Definition spread_news_among_random_followers (followers : list nat)
    (f : nat) : M Model unit :=
  forM_ followers (fun j =>
    let* u := random_random in
    if Qltb u (1 # 2)%Q
    then
      update_influencer f reach_follower ;;
      modify (fun m => set_indirect_interactions_count
                         (indirect_interactions_count m + 1) m) ;;
      learn_about_trend j false
    else ret tt).

(** *** [laboratory_2/model.py] *)

(** [PersonAgent.create_agents(model, n, ...)] *)
Definition create_agents (n : Z) (sport_enthusiast knows_about_trend : bool)
    (gossip_prob skepticism_prob : Q) : M Model unit :=
  modify (fun m =>
    let first := Z.of_nat (length (agents m)) + 1 in
    set_agents
      (agents m ++
       ((fun k => RegularPerson
                       {| unique_id := first + Z.of_nat k;
                          sport_enthusiast := sport_enthusiast;
                          trend_gossip_counter := 0;
                          _gossip_prob := gossip_prob;
                          _knows_about_trend := knows_about_trend;
                          _skepticism_prob := skepticism_prob;
                          cell := None |})
        <$> seq 0 (Z.to_nat n)))
      m).

(** [InfluencerAgent.create_agents(model, n)] *)
Definition create_influencers (n : Z) : M Model unit :=
  modify (fun m =>
    let first := Z.of_nat (length (agents m)) + 1 in
    set_agents
      (agents m ++
       ((fun k => SportInfluencer
                       {| influencer_unique_id := first + Z.of_nat k;
                          reached_followers_counter := 0 |})
        <$> seq 0 (Z.to_nat n)))
      m).

Definition rng_integers (high n : Z) : M Model (list Z) :=
  fun m =>
    if high <=? 0 then Raise (ValueError "low >= high") m
    else if n <? 0
    then Raise (ValueError "negative dimensions are not allowed") m
    else
      let '(xs, r) := integers high (Z.to_nat n) (rng m) in
      Ok xs (set_rng r m).

(** [TrendSpreadModel.place_agents_on_grid] *)
Definition place_agents_on_grid : M Model unit :=
  let* m := get in
  let* x_range := rng_integers (grid_width m) (population_size m) in
  let* y_range := rng_integers (grid_height m) (population_size m) in
  forM_ (zip (persons (agents m)).*1 (zip x_range y_range))
        (fun ixy => assign_cell ixy.1 ixy.2).

(** [TrendSpreadModel.generate_person_agents]; the defaults of
    [PersonAgent.__init__] are [gossip_prob=0.5], [skepticism_prob=0.7]. *)
Definition generate_person_agents : M Model unit :=
  let* m := get in
  let* sport_enthusiasts := random_randint 1 (population_size m) in
  let non_sport_enthusiasts := population_size m - sport_enthusiasts in
  create_agents sport_enthusiasts true false (1 # 2)%Q (1 # 2)%Q ;;
  create_agents non_sport_enthusiasts false false (1 # 2)%Q (7 # 10)%Q ;;
  create_agents 1 true true (1 # 2)%Q (7 # 10)%Q ;;
  modify (fun m => set_population_size (population_size m + 1) m) ;;
  place_agents_on_grid.

(** [TrendSpreadModel.generate_influencer_agents] *)
Definition generate_influencer_agents : M Model unit :=
  let* m := get in create_influencers (influencer_group_size m).

(** [TrendSpreadModel.__init__]; [sport_facility_number] is accepted and
    unused, the two calls that would read it are commented out. *)
Definition __init__ (population_size influencer_group_size
    sport_facility_number grid_width grid_height : Z) (random rng : Random)
  : Result Model unit :=
  let m0 :=
    {| population_size := population_size;
       influencer_group_size := influencer_group_size;
       direct_interactions_count := 0;
       indirect_interactions_count := 0;
       successful_direct_interactions_count := 0;
       successful_indirect_interactions_count := 0;
       grid_width := grid_width; grid_height := grid_height;
       agents := []; random := random; rng := rng; running := true |} in
  ((if (0 <? grid_width) && (0 <? grid_height) then ret tt
    else raise (ValueError "Dimensions must be a list of positive integers.")) ;;
   generate_person_agents ;;
   generate_influencer_agents) m0.

(** [TrendSpreadModel.count_agents_knowing_trend] *)
Definition count_agents_knowing_trend (m : Model) : nat :=
  length (filter (fun ip => knows_about_trend ip.2 = true) (persons (agents m))).

(** [TrendSpreadModel.count_all_interactions] *)
Definition count_all_interactions (m : Model) : Z :=
  direct_interactions_count m + indirect_interactions_count m.

(** Python's [a / b] on integers, as the exact quotient: the rounding of
    the quotient to a float is not modelled. *)
Definition truediv (a b : Z) : M Model Q :=
  if b =? 0 then raise (ZeroDivisionError "division by zero")
  else ret (inject_Z a / inject_Z b)%Q.

(** [TrendSpreadModel.direct_interaction_success_ration] *)
Definition direct_interaction_success_ration : M Model Q :=
  let* m := get in
  if direct_interactions_count m =? 0 then ret 0%Q
  else truediv (successful_direct_interactions_count m)
               (direct_interactions_count m).

(** [TrendSpreadModel.indirect_interaction_success_ration] *)
Definition indirect_interaction_success_ration : M Model Q :=
  let* m := get in
  if indirect_interactions_count m =? 0 then ret 0%Q
  else truediv (successful_indirect_interactions_count m)
               (indirect_interactions_count m).

(** [AgentSet.do(method)] on [self._agents_by_type[PersonAgent]]. *)
Definition do (method : nat -> M Model unit) : M Model unit :=
  let* m := get in forM_ (persons (agents m)).*1 method.

(** [len(persons.select(lambda agent: not agent.knows_about_trend))] *)
Definition not_knowing_count (m : Model) : nat :=
  length (filter (fun ip => knows_about_trend ip.2 = false)
                 (persons (agents m))).

(** [TrendSpreadModel._stop_condition], the decorator. *)
Definition _stop_condition (step : M Model unit) : M Model unit :=
  let* m := get in
  if decide (not_knowing_count m = 0%nat)
  then modify (set_running false)
  else step.

(** [AgentSet.groupby('sport_enthusiast')]: one group per value, in the
    order in which the values first occur. *)
Definition groupby (l : list (nat * PersonAgent)) : list (bool * list nat) :=
  match l with
  | [] => []
  | ip :: _ =>
      let b := sport_enthusiast ip.2 in
      let same := filter (fun jp => sport_enthusiast jp.2 = b) l in
      let other := filter (fun jp => sport_enthusiast jp.2 ≠ b) l in
      (b, same.*1) ::
      (match other with [] => [] | _ => [(negb b, other.*1)] end)
  end.

(** [TrendSpreadModel.influencer_agents_step] *)
Definition influencer_agents_step : M Model unit :=
  let* m := get in
  let regular_agents :=
    filter (fun ip => knows_about_trend ip.2 = false) (persons (agents m)) in
  let influencer_agents := influencers (agents m) in
  let grouped_regular_agents := groupby regular_agents in
  forM_ grouped_regular_agents (fun g =>
    if g.1 : bool
    then forM_ influencer_agents (spread_news_among_random_followers g.2)
    else forM_ g.2 move_around).

(** The undecorated [TrendSpreadModel.step]. *)
Definition step_body : M Model unit :=
  do move_around ;;
  do spread_news ;;
  influencer_agents_step.

(** [TrendSpreadModel.step], as decorated. *)
Definition step : M Model unit := _stop_condition step_body.

Fixpoint ticks (n : nat) : M Model unit :=
  match n with
  | O => ret tt
  | S n' => step ;; ticks n'
  end.

(** *** Vocabulary of the statements *)

(** The person registered at index [j], if there is one. *)
Definition person_at (m : Model) (j : nat) : option PersonAgent :=
  match agents m !! j with
  | Some (RegularPerson p) => Some p
  | _ => None
  end.

Definition knows_at (m : Model) (j : nat) : bool :=
  match person_at m j with
  | Some p => knows_about_trend p
  | None => false
  end.

Definition person_evolves (p p' : PersonAgent) : Prop :=
  unique_id p' = unique_id p /\
  sport_enthusiast p' = sport_enthusiast p /\
  _gossip_prob p' = _gossip_prob p /\
  _skepticism_prob p' = _skepticism_prob p /\
  (_knows_about_trend p = true -> _knows_about_trend p' = true).

Definition agent_evolves (a a' : Agent) : Prop :=
  match a, a' with
  | RegularPerson p, RegularPerson p' => person_evolves p p'
  | SportInfluencer f, SportInfluencer f' =>
      influencer_unique_id f' = influencer_unique_id f
  | _, _ => False
  end.

Definition population_evolves (m m' : Model) : Prop :=
  Forall2 agent_evolves (agents m) (agents m').

Definition evolves (m m' : Model) : Prop :=
  running m' = running m /\ population_evolves m m'.

Inductive Operation : Type :=
| MoveAround (i : nat)
| SpreadNews (i : nat)
| LearnAboutTrend (i : nat) (is_direct : bool)
| SpreadNewsAmongRandomFollowers (followers : list nat) (f : nat)
| InfluencerAgentsStep
| Step
| Ticks (n : nat).

Definition call (o : Operation) : M Model unit :=
  match o with
  | MoveAround i => move_around i
  | SpreadNews i => spread_news i
  | LearnAboutTrend i is_direct => learn_about_trend i is_direct
  | SpreadNewsAmongRandomFollowers followers f =>
      spread_news_among_random_followers followers f
  | InfluencerAgentsStep => influencer_agents_step
  | Step => step
  | Ticks n => ticks n
  end.


(** The same model whose person at index [i] was built with
    [skepticism_prob = q]. *)
Definition set_skepticism_prob (q : Q) (a : PersonAgent) : PersonAgent :=
  {| unique_id := unique_id a; sport_enthusiast := sport_enthusiast a;
     trend_gossip_counter := trend_gossip_counter a;
     _gossip_prob := _gossip_prob a;
     _knows_about_trend := _knows_about_trend a;
     _skepticism_prob := q; cell := cell a |}.

Definition with_skepticism_prob (q : Q) (i : nat) (m : Model) : Model :=
  set_agents (alter (alter_person (set_skepticism_prob q)) i (agents m)) m.

(** The traits that put an agent in a bucket of [generate_person_agents]. *)
Definition bucket (a : Agent) : option (bool * bool) :=
  match a with
  | RegularPerson p => Some (sport_enthusiast p, _knows_about_trend p)
  | SportInfluencer _ => None
  end.

(** The population has the same agents with the same traits, in place, and
    the number of influencers asked for is the same. *)
Definition same_buckets (m m' : Model) : Prop :=
  influencer_group_size m' = influencer_group_size m /\
  bucket <$> agents m' = bucket <$> agents m.

(** *** The vocabulary of the model's invariants *)

(** The person stands on a cell of the grid of [m]. *)
Definition placed (m : Model) (p : PersonAgent) : Prop :=
  exists c, cell p = Some c /\ Grid.in_grid (grid_width m) (grid_height m) c.

(** A model that can run: a grid of at least 3 x 3 cells, and at least one
    person, every person on a cell of the grid. *)
Definition well_placed (m : Model) : Prop :=
  3 <= grid_width m /\ 3 <= grid_height m /\
  persons (agents m) <> [] /\
  forall i p, person_at m i = Some p -> placed m p.

(** Where an agent stands: the cell of a person, if it has one; an
    influencer does not operate on the grid. *)
Definition standing (a : Agent) : option (option Coord) :=
  match a with
  | RegularPerson p => Some (cell p)
  | SportInfluencer _ => None
  end.

(** From [m] to [m'] the grid kept its dimensions and nobody moved. *)
Definition same_places (m m' : Model) : Prop :=
  grid_width m' = grid_width m /\ grid_height m' = grid_height m /\
  standing <$> agents m' = standing <$> agents m.

(** The class of an agent, as [isinstance(agent, PersonAgent)] sees it. *)
Definition is_person (a : Agent) : bool :=
  match a with RegularPerson _ => true | SportInfluencer _ => false end.

(** The agent is a person who knows about the trend. *)
Definition informed (a : Agent) : bool :=
  match a with
  | RegularPerson p => knows_about_trend p
  | SportInfluencer _ => false
  end.

(** What the agent reporters of [initialize_data_collector] read: the
    ["Trend_Encounters"] of a person and the ["Followers_Influenced"] of an
    influencer. *)
Definition trend_encounters_of (a : Agent) : Z :=
  match a with
  | RegularPerson p => trend_gossip_counter p
  | SportInfluencer _ => 0
  end.

Definition followers_influenced_of (a : Agent) : Z :=
  match a with
  | RegularPerson _ => 0
  | SportInfluencer f => reached_followers_counter f
  end.

(** Their sums over the population. *)
Definition trend_encounters (m : Model) : Z :=
  foldr Z.add 0 (trend_encounters_of <$> agents m).

Definition followers_influenced (m : Model) : Z :=
  foldr Z.add 0 (followers_influenced_of <$> agents m).

(** From [m] to [m'] no counter of the model went down, and each success
    counter went up by no more than its interaction counter. *)
Definition interactions_accounted (m m' : Model) : Prop :=
  direct_interactions_count m <= direct_interactions_count m' /\
  indirect_interactions_count m <= indirect_interactions_count m' /\
  successful_direct_interactions_count m
    <= successful_direct_interactions_count m' /\
  successful_indirect_interactions_count m
    <= successful_indirect_interactions_count m' /\
  successful_direct_interactions_count m'
    - successful_direct_interactions_count m
    <= direct_interactions_count m' - direct_interactions_count m /\
  successful_indirect_interactions_count m'
    - successful_indirect_interactions_count m
    <= indirect_interactions_count m' - indirect_interactions_count m.

(** From [m] to [m'] the agents kept their classes, the persons heard the
    trend as many times as the two interaction counters went up together,
    and the influencers reached as many followers as the indirect counter
    went up. *)
Definition encounters_accounted (m m' : Model) : Prop :=
  is_person <$> agents m' = is_person <$> agents m /\
  trend_encounters m' - trend_encounters m =
    count_all_interactions m' - count_all_interactions m /\
  followers_influenced m' - followers_influenced m =
    indirect_interactions_count m' - indirect_interactions_count m.

(** From [m] to [m'] the persons who know the trend did not become fewer,
    and became more by no more than the two success counters went up
    together. *)
Definition knowledge_accounted (m m' : Model) : Prop :=
  (count_agents_knowing_trend m <= count_agents_knowing_trend m')%nat /\
  Z.of_nat (count_agents_knowing_trend m')
    - Z.of_nat (count_agents_knowing_trend m)
  <= (successful_direct_interactions_count m'
      - successful_direct_interactions_count m)
     + (successful_indirect_interactions_count m'
        - successful_indirect_interactions_count m).

(** The agents of [m] have the classes listed in [classes]. *)
Definition has_classes (classes : list bool) (m : Model) : Prop :=
  is_person <$> agents m = classes.

(** From [m] to [m'] the two direct counters are as they were and every
    person is still registered in place; a person outside [hearers] has
    heard and learnt nothing, a person outside [movers] stands where it
    stood, and a person outside both is as it was; when [hearers] is empty
    the two indirect counters are as they were too. *)
Definition reaches_only (hearers movers : nat -> Prop) (m m' : Model)
  : Prop :=
  direct_interactions_count m' = direct_interactions_count m /\
  successful_direct_interactions_count m'
  = successful_direct_interactions_count m /\
  ((forall j, ~ hearers j) ->
   indirect_interactions_count m' = indirect_interactions_count m /\
   successful_indirect_interactions_count m'
   = successful_indirect_interactions_count m) /\
  forall j p, person_at m j = Some p ->
    exists p', person_at m' j = Some p' /\
      (~ hearers j ->
       knows_about_trend p' = knows_about_trend p /\
       trend_gossip_counter p' = trend_gossip_counter p) /\
      (~ movers j -> cell p' = cell p) /\
      (~ hearers j -> ~ movers j -> p' = p).

(** The followers of the influencers in [m]: the sport enthusiasts who do
    not know about the trend, when there is an influencer to tell them. *)
Definition follower (m : Model) (j : nat) : Prop :=
  influencers (agents m) <> [] /\
  exists p, person_at m j = Some p /\
    knows_about_trend p = false /\ sport_enthusiast p = true.

(** The persons that [influencer_agents_step] moves again: those who do
    not know about the trend and are no sport enthusiasts. *)
Definition bystander (m : Model) (j : nat) : Prop :=
  exists p, person_at m j = Some p /\
    knows_about_trend p = false /\ sport_enthusiast p = false.

End Laboratory2.

(** ** The first trend model ([laboratory1/]) *)
Module Laboratory1.

(** Mesa's [MultiGrid(width, height, True)]: only its dimensions matter
    here, the agents on a position are read off the agents' [pos]. *)
Record MultiGrid : Type := { width : Z; height : Z }.

(** [laboratory1/agents.py], class [PersonAgent], with the [grid] attribute
    of its base class [TrendSpreadingAgent] and the [pos] attribute that
    Mesa's [Agent] carries ([None] until [place_agent]). *)
Record PersonAgent : Type := {
  unique_id : Z;
  grid : option MultiGrid;
  pos : option Coord;
  sport_enthusiast : bool;
  _gossip_prob : Q;
  _knows_about_trend : bool;
  _skepticism_prob : Q }.

(** [laboratory1/agents.py], class [InfluencerAgent]. *)
Record InfluencerAgent : Type := {
  influencer_unique_id : Z;
  influencer_grid : option MultiGrid }.

Inductive Agent : Type :=
| RegularPerson (p : PersonAgent)
| SportInfluencer (f : InfluencerAgent).

Definition knows_about_trend (self : PersonAgent) : bool :=
  _knows_about_trend self.

(** [laboratory1/model.py], class [TrendSpreadModel]. *)
Record Model : Type := {
  population_size : Z;
  influencer_group_size : Z;
  model_grid : MultiGrid;
  agents : list Agent;
  random : Random;
  rng : Random;
  running : bool }.

Definition set_population_size (v : Z) (m : Model) : Model :=
  {| population_size := v;
     influencer_group_size := influencer_group_size m;
     model_grid := model_grid m; agents := agents m;
     random := random m; rng := rng m; running := running m |}.

Definition set_agents (v : list Agent) (m : Model) : Model :=
  {| population_size := population_size m;
     influencer_group_size := influencer_group_size m;
     model_grid := model_grid m; agents := v;
     random := random m; rng := rng m; running := running m |}.

Definition set_random (v : Random) (m : Model) : Model :=
  {| population_size := population_size m;
     influencer_group_size := influencer_group_size m;
     model_grid := model_grid m; agents := agents m;
     random := v; rng := rng m; running := running m |}.

Definition set_rng (v : Random) (m : Model) : Model :=
  {| population_size := population_size m;
     influencer_group_size := influencer_group_size m;
     model_grid := model_grid m; agents := agents m;
     random := random m; rng := v; running := running m |}.

Definition set_running (v : bool) (m : Model) : Model :=
  {| population_size := population_size m;
     influencer_group_size := influencer_group_size m;
     model_grid := model_grid m; agents := agents m;
     random := random m; rng := rng m; running := v |}.

(** *** Access to the shared objects *)

Definition random_random : M Model Q :=
  fun m => Ok (peek (random m)) (set_random (advance (random m)) m).

Definition random_randint (a b : Z) : M Model Z :=
  fun m =>
    if b <? a then Raise (ValueError "empty range for randrange()") m
    else Ok (a + randbelow (b - a + 1) (peek (random m)))
            (set_random (advance (random m)) m).

Definition on_person (i : nat) (method : PersonAgent -> M Model unit)
  : M Model unit :=
  fun m => match agents m !! i with
           | Some (RegularPerson self) => method self m
           | _ => Ok tt m
           end.

Definition alter_person (f : PersonAgent -> PersonAgent) (a : Agent) : Agent :=
  match a with
  | RegularPerson p => RegularPerson (f p)
  | SportInfluencer _ => a
  end.

Definition update_person (i : nat) (f : PersonAgent -> PersonAgent)
  : M Model unit :=
  modify (fun m => set_agents (alter (alter_person f) i (agents m)) m).

Definition persons (ags : list Agent) : list (nat * PersonAgent) :=
  omap (fun ia => match ia.2 with
                  | RegularPerson p => Some (ia.1, p)
                  | SportInfluencer _ => None
                  end) (imap pair ags).

Definition influencers (ags : list Agent) : list nat :=
  omap (fun ia => match ia.2 with
                  | RegularPerson _ => None
                  | SportInfluencer _ => Some ia.1
                  end) (imap pair ags).

Definition set_person_pos (c : Coord) (a : PersonAgent) : PersonAgent :=
  {| unique_id := unique_id a; grid := grid a; pos := Some c;
     sport_enthusiast := sport_enthusiast a;
     _gossip_prob := _gossip_prob a;
     _knows_about_trend := _knows_about_trend a;
     _skepticism_prob := _skepticism_prob a |}.

Definition set_knows_about_trend (a : PersonAgent) : PersonAgent :=
  {| unique_id := unique_id a; grid := grid a; pos := pos a;
     sport_enthusiast := sport_enthusiast a;
     _gossip_prob := _gossip_prob a;
     _knows_about_trend := true;
     _skepticism_prob := _skepticism_prob a |}.

(** [grid.place_agent(agent, pos)] and [grid.move_agent(agent, pos)]: the
    agent's [pos] becomes [c]. *)
Definition place_agent (i : nat) (c : Coord) : M Model unit :=
  update_person i (set_person_pos c).

(** [grid.get_neighborhood(pos, moore=False, include_center=False)]; Mesa
    unpacks [pos], which fails on [None]. *)
Definition get_neighborhood (g : MultiGrid) (p : option Coord)
  : M Model (list Coord) :=
  match p with
  | None => raise (TypeError "cannot unpack non-iterable NoneType object")
  | Some c => ret (Grid.neighborhood (width g) (height g) c)
  end.

(** [grid.move_agent_to_one_of(agent, pos_list, handle_empty='error')], with
    the default [selection='random']. *)
Definition move_agent_to_one_of (i : nat) (positions : list Coord)
  : M Model unit :=
  fun m =>
    match positions with
    | [] => Raise (ValueError "No positions given, could not move agent.") m
    | _ =>
        match Grid.choice positions (peek (random m)) with
        | Some c => place_agent i c (set_random (advance (random m)) m)
        | None => Raise (IndexError "Cannot choose from an empty sequence") m
        end
    end.

(** [grid.get_cell_list_contents([pos])]: the persons standing on [pos].
    They are listed in registration order; Mesa lists them in the order in
    which they came to the position, and the statements about them go by
    membership, not by order. *)
Definition get_cell_list_contents (p : option Coord)
  : M Model (list (nat * PersonAgent)) :=
  match p with
  | None => raise (TypeError "cannot unpack non-iterable NoneType object")
  | Some c =>
      let* m := get in
      ret (filter (fun ip => pos ip.2 = Some c) (persons (agents m)))
  end.

(** *** [laboratory1/agents.py] *)

(** [PersonAgent.check_grid_initialization]: the guard is on [self.grid];
    it returns the grid it found. *)
Definition check_grid_initialization (self : PersonAgent) (error_msg : string)
  : M Model MultiGrid :=
  match grid self with
  | None => raise (grid_not_initialized error_msg)
  | Some g => ret g
  end.

(** [PersonAgent.learn_about_trend] *)
Definition learn_about_trend (i : nat) : M Model unit :=
  on_person i (fun self =>
    let* u := random_random in
    if Qltb u (_skepticism_prob self)
    then update_person i set_knows_about_trend
    else ret tt).

(** [PersonAgent.move_around] *)
Definition move_around (i : nat) : M Model unit :=
  on_person i (fun self =>
    let* g := check_grid_initialization self
                "The agent cannot move around the grid." in
    let* possible_movements := get_neighborhood g (pos self) in
    move_agent_to_one_of i possible_movements).

Definition gossip_to (gossip_prob : Q) (j : nat) : M Model unit :=
  on_person j (fun agent =>
    if knows_about_trend agent then ret tt
    else
      let* willing :=
        (if sport_enthusiast agent then ret true
         else let* u := random_random in ret (Qltb u gossip_prob)) in
      if willing : bool then learn_about_trend j else ret tt).

(** [PersonAgent.spread_news] *)
Definition spread_news (i : nat) : M Model unit :=
  on_person i (fun self =>
    check_grid_initialization self "The agent cannot spread the news." ;;
    if knows_about_trend self
    then
      let* contents := get_cell_list_contents (pos self) in
      let encountered_agents := filter (fun ip => ip.1 ≠ i) contents in
      forM_ encountered_agents.*1 (gossip_to (_gossip_prob self))
    else ret tt).

(** [InfluencerAgent.spread_news_among_followers] *)
Definition spread_news_among_followers (followers : list nat) (f : nat)
  : M Model unit :=
  forM_ followers learn_about_trend.

(** *** [laboratory1/model.py] *)

(** [PersonAgent.create_agents(model, n, ...)]; every agent takes
    [model.grid] as its [grid]. *)
Definition create_agents (n : Z) (sport_enthusiast knows_about_trend : bool)
    (gossip_prob skepticism_prob : Q) : M Model unit :=
  modify (fun m =>
    let first := Z.of_nat (length (agents m)) + 1 in
    set_agents
      (agents m ++
       ((fun k => RegularPerson
                       {| unique_id := first + Z.of_nat k;
                          grid := Some (model_grid m);
                          pos := None;
                          sport_enthusiast := sport_enthusiast;
                          _gossip_prob := gossip_prob;
                          _knows_about_trend := knows_about_trend;
                          _skepticism_prob := skepticism_prob |})
        <$> seq 0 (Z.to_nat n)))
      m).

Definition create_influencers (n : Z) : M Model unit :=
  modify (fun m =>
    let first := Z.of_nat (length (agents m)) + 1 in
    set_agents
      (agents m ++
       ((fun k => SportInfluencer
                       {| influencer_unique_id := first + Z.of_nat k;
                          influencer_grid := Some (model_grid m) |})
        <$> seq 0 (Z.to_nat n)))
      m).

Definition rng_integers (high n : Z) : M Model (list Z) :=
  fun m =>
    if high <=? 0 then Raise (ValueError "low >= high") m
    else if n <? 0
    then Raise (ValueError "negative dimensions are not allowed") m
    else
      let '(xs, r) := integers high (Z.to_nat n) (rng m) in
      Ok xs (set_rng r m).

(** [TrendSpreadModel.place_agents_on_grid] *)
Definition place_agents_on_grid : M Model unit :=
  let* m := get in
  let* x_range := rng_integers (width (model_grid m)) (population_size m) in
  let* y_range := rng_integers (height (model_grid m)) (population_size m) in
  forM_ (zip (persons (agents m)).*1 (zip x_range y_range))
        (fun ixy => place_agent ixy.1 ixy.2).

(** [TrendSpreadModel.generate_person_agents]; the defaults of
    [PersonAgent.__init__] are [gossip_prob=0.5], [skepticism_prob=0.2]. *)
Definition generate_person_agents : M Model unit :=
  let* m := get in
  let* sport_enthusiasts := random_randint 1 (population_size m) in
  let non_sport_enthusiasts := population_size m - sport_enthusiasts in
  create_agents sport_enthusiasts true false (1 # 2)%Q (1 # 5)%Q ;;
  create_agents non_sport_enthusiasts false false (1 # 2)%Q (1 # 5)%Q ;;
  create_agents 1 true true (1 # 2)%Q (1 # 5)%Q ;;
  modify (fun m => set_population_size (population_size m + 1) m) ;;
  place_agents_on_grid.

Definition generate_influencer_agents : M Model unit :=
  let* m := get in create_influencers (influencer_group_size m).

(** [TrendSpreadModel.__init__] *)
Definition __init__ (population_size influencer_group_size
    grid_width grid_height : Z) (random rng : Random) : Result Model unit :=
  let m0 :=
    {| population_size := population_size;
       influencer_group_size := influencer_group_size;
       model_grid := {| width := grid_width; height := grid_height |};
       agents := []; random := random; rng := rng; running := true |} in
  (generate_person_agents ;; generate_influencer_agents) m0.

Definition do (method : nat -> M Model unit) : M Model unit :=
  let* m := get in forM_ (persons (agents m)).*1 method.

Definition not_knowing_count (m : Model) : nat :=
  length (filter (fun ip => knows_about_trend ip.2 = false)
                 (persons (agents m))).

(** [TrendSpreadModel._stop_condition], the decorator. *)
Definition _stop_condition (step : M Model unit) : M Model unit :=
  let* m := get in
  if decide (not_knowing_count m = 0%nat)
  then modify (set_running false)
  else step.

Definition groupby (l : list (nat * PersonAgent)) : list (bool * list nat) :=
  match l with
  | [] => []
  | ip :: _ =>
      let b := sport_enthusiast ip.2 in
      let same := filter (fun jp => sport_enthusiast jp.2 = b) l in
      let other := filter (fun jp => sport_enthusiast jp.2 ≠ b) l in
      (b, same.*1) ::
      (match other with [] => [] | _ => [(negb b, other.*1)] end)
  end.

(** The undecorated [TrendSpreadModel.step]. *)
Definition step_body : M Model unit :=
  do move_around ;;
  do spread_news ;;
  let* m := get in
  let regular_agents :=
    filter (fun ip => knows_about_trend ip.2 = false) (persons (agents m)) in
  let influencer_agents := influencers (agents m) in
  let grouped_regular_agents := groupby regular_agents in
  forM_ grouped_regular_agents (fun g =>
    if g.1 : bool
    then forM_ influencer_agents (spread_news_among_followers g.2)
    else forM_ g.2 move_around).

(** [TrendSpreadModel.step], as decorated. *)
Definition step : M Model unit := _stop_condition step_body.

Fixpoint ticks (n : nat) : M Model unit :=
  match n with
  | O => ret tt
  | S n' => step ;; ticks n'
  end.

(** *** Vocabulary of the statements *)

Definition person_at (m : Model) (j : nat) : option PersonAgent :=
  match agents m !! j with
  | Some (RegularPerson p) => Some p
  | _ => None
  end.

Definition knows_at (m : Model) (j : nat) : bool :=
  match person_at m j with
  | Some p => knows_about_trend p
  | None => false
  end.

Definition person_evolves (p p' : PersonAgent) : Prop :=
  unique_id p' = unique_id p /\
  grid p' = grid p /\
  sport_enthusiast p' = sport_enthusiast p /\
  _gossip_prob p' = _gossip_prob p /\
  _skepticism_prob p' = _skepticism_prob p /\
  (_knows_about_trend p = true -> _knows_about_trend p' = true).

Definition agent_evolves (a a' : Agent) : Prop :=
  match a, a' with
  | RegularPerson p, RegularPerson p' => person_evolves p p'
  | SportInfluencer f, SportInfluencer f' => f' = f
  | _, _ => False
  end.

Definition population_evolves (m m' : Model) : Prop :=
  Forall2 agent_evolves (agents m) (agents m').

Definition evolves (m m' : Model) : Prop :=
  running m' = running m /\ population_evolves m m'.

Inductive Operation : Type :=
| MoveAround (i : nat)
| SpreadNews (i : nat)
| LearnAboutTrend (i : nat)
| SpreadNewsAmongFollowers (followers : list nat) (f : nat)
| Step
| Ticks (n : nat).

Definition call (o : Operation) : M Model unit :=
  match o with
  | MoveAround i => move_around i
  | SpreadNews i => spread_news i
  | LearnAboutTrend i => learn_about_trend i
  | SpreadNewsAmongFollowers followers f =>
      spread_news_among_followers followers f
  | Step => step
  | Ticks n => ticks n
  end.

Definition bucket (a : Agent) : option (bool * bool) :=
  match a with
  | RegularPerson p => Some (sport_enthusiast p, _knows_about_trend p)
  | SportInfluencer _ => None
  end.

(** The population has the same agents with the same traits, in place, and
    the number of influencers asked for is the same. *)
Definition same_buckets (m m' : Model) : Prop :=
  influencer_group_size m' = influencer_group_size m /\
  bucket <$> agents m' = bucket <$> agents m.

(** *** The vocabulary of the model's invariants *)

(** The person holds the grid of [m] and stands on one of its positions. *)
Definition placed (m : Model) (p : PersonAgent) : Prop :=
  grid p = Some (model_grid m) /\
  exists c, pos p = Some c /\
    Grid.in_grid (width (model_grid m)) (height (model_grid m)) c.

(** A model that can run: a grid of at least 3 x 3 positions, and at least
    one person, every person on a position of the grid. *)
Definition well_placed (m : Model) : Prop :=
  3 <= width (model_grid m) /\ 3 <= height (model_grid m) /\
  persons (agents m) <> [] /\
  forall i p, person_at m i = Some p -> placed m p.

(** The grid a person holds and where it stands on it; an influencer does
    not operate on the grid. *)
Definition standing (a : Agent) : option (option MultiGrid * option Coord) :=
  match a with
  | RegularPerson p => Some (grid p, pos p)
  | SportInfluencer _ => None
  end.

(** From [m] to [m'] the grid is the same and nobody moved. *)
Definition same_places (m m' : Model) : Prop :=
  model_grid m' = model_grid m /\
  standing <$> agents m' = standing <$> agents m.

(** The class of an agent, as [isinstance(agent, PersonAgent)] sees it. *)
Definition is_person (a : Agent) : bool :=
  match a with RegularPerson _ => true | SportInfluencer _ => false end.

(** The number of persons who know about the trend. *)
Definition knowing_count (m : Model) : nat :=
  length (filter (fun ip => knows_about_trend ip.2 = true)
                 (persons (agents m))).

End Laboratory1.

(** ** Concrete models *)
Module Examples.

(** A generator whose every draw is [q]. *)
Definition constant_tape (q : Q) : Random :=
  {| tape := fun _ => q; cursor := 0 |}.

(** The disease model on a 3 x 3 grid, as built by the constructor: one
    infected agent and one healthy agent with comorbidities, both placed on
    the cell (1, 1). *)
Definition disease_model : Homework.Model :=
  state_of (Homework.__init__ 2 1 1 (1 # 2) 3 3
              (constant_tape (9 # 10)) (constant_tape (1 # 2))).

(** The same model later in a run: the cell (0, 0) is still contaminated,
    the infected agent left it two ticks ago. *)
Definition stale_cell_model : Homework.Model :=
  Homework.set_grid
    (<[(0, 0) := {| Homework.prop_is_infected := true;
                    Homework.prop_virus_persistence := 2 |}]>
       (Homework.grid disease_model))
    disease_model.

(** The same model with the agents' own cell contaminated. *)
Definition contaminated_model : Homework.Model :=
  Homework.set_grid
    (<[(1, 1) := {| Homework.prop_is_infected := true;
                    Homework.prop_virus_persistence := 0 |}]>
       (Homework.grid disease_model))
    disease_model.

(** Every agent of the disease model already infected. *)
Definition all_infected_model : Homework.Model :=
  state_of (Homework.__init__ 2 2 0 (1 # 2) 3 3
              (constant_tape (9 # 10)) (constant_tape (1 # 2))).

(** The second trend model on a 3 x 3 grid, as built by the constructor for
    [population_size = 1]: an uninformed sport enthusiast (index 0), the
    informed one (index 1) and an influencer (index 2); both persons stand
    on (1, 1).  Every draw of the run is [q]. *)
Definition trend_model (q : Q) : Laboratory2.Model :=
  state_of (Laboratory2.__init__ 1 1 3 3 3
              (constant_tape q) (constant_tape (1 # 2))).

(** The first trend model, built the same way. *)
Definition first_trend_model (q : Q) : Laboratory1.Model :=
  state_of (Laboratory1.__init__ 1 1 3 3
              (constant_tape q) (constant_tape (1 # 2))).

(** The disease model built with more infected and comorbid agents than
    [population_size]: the constructor places the first agent only, the
    second one (index 1) has no cell. *)
Definition misconfigured_model : Homework.Model :=
  state_of (Homework.__init__ 1 1 1 (1 # 2) 3 3
              (constant_tape (9 # 10)) (constant_tape (1 # 2))).

(** A person of the second trend model that was never placed. *)
Definition unplaced_person : Laboratory2.PersonAgent :=
  {| Laboratory2.unique_id := 4; Laboratory2.sport_enthusiast := true;
     Laboratory2.trend_gossip_counter := 0;
     Laboratory2._gossip_prob := 1 # 2;
     Laboratory2._knows_about_trend := true;
     Laboratory2._skepticism_prob := 7 # 10; Laboratory2.cell := None |}.

(** The second trend model with that person registered after the
    constructor ran, at index 3. *)
Definition unplaced_trend_model : Laboratory2.Model :=
  Laboratory2.set_agents
    (Laboratory2.agents (trend_model (1 # 10))
     ++ [Laboratory2.RegularPerson unplaced_person])
    (trend_model (1 # 10)).

(** A person of the first trend model that holds the grid but was never
    placed. *)
Definition unplaced_first_person : Laboratory1.PersonAgent :=
  {| Laboratory1.unique_id := 4;
     Laboratory1.grid :=
       Some {| Laboratory1.width := 3; Laboratory1.height := 3 |};
     Laboratory1.pos := None;
     Laboratory1.sport_enthusiast := true;
     Laboratory1._gossip_prob := 1 # 2;
     Laboratory1._knows_about_trend := true;
     Laboratory1._skepticism_prob := 1 # 5 |}.

(** A person of the first trend model that has a position but no grid. *)
Definition gridless_person : Laboratory1.PersonAgent :=
  {| Laboratory1.unique_id := 5;
     Laboratory1.grid := None;
     Laboratory1.pos := Some (1, 1);
     Laboratory1.sport_enthusiast := true;
     Laboratory1._gossip_prob := 1 # 2;
     Laboratory1._knows_about_trend := true;
     Laboratory1._skepticism_prob := 1 # 5 |}.

(** The first trend model with these two persons registered after the
    constructor ran, at indices 3 and 4. *)
Definition unplaced_first_trend_model : Laboratory1.Model :=
  Laboratory1.set_agents
    (Laboratory1.agents (first_trend_model (1 # 10))
     ++ [Laboratory1.RegularPerson unplaced_first_person;
         Laboratory1.RegularPerson gridless_person])
    (first_trend_model (1 # 10)).

(** The second trend model built for [population_size = 1] with two
    influencers: an uninformed sport enthusiast (index 0), the informed one
    (index 1) and the influencers (indices 2 and 3).  Every draw of the run
    is 3/10. *)
Definition two_influencers_model : Laboratory2.Model :=
  state_of (Laboratory2.__init__ 1 2 3 3 3
              (constant_tape (3 # 10)) (constant_tape (1 # 2))).

End Examples.

(** * Reasoning about calls *)

Section Calls.
Context {S : Type}.

Context (R : relation S) `{!PreOrder R}.

Lemma respects_ret {A} (a : A) : respects R (ret a).
Proof. intros s. reflexivity. Qed.

Lemma respects_raise {A} e : respects R (raise (A:=A) e).
Proof. intros s. reflexivity. Qed.

Lemma respects_get : respects R get.
Proof. intros s. reflexivity. Qed.

Lemma respects_modify (f : S -> S) :
  (forall s, R s (f s)) -> respects R (modify f).
Proof. intros H s. apply H. Qed.

Lemma respects_bind {A B} (c : M S A) (k : A -> M S B) :
  respects R c -> (forall a, respects R (k a)) -> respects R (bind c k).
Proof.
  intros Hc Hk s. unfold bind. specialize (Hc s).
  destruct (c s) as [a s'|e s']; simpl in *; [|done].
  etrans; [exact Hc|apply Hk].
Qed.

Lemma respects_forM_ {A} (l : list A) (body : A -> M S unit) :
  (forall x, respects R (body x)) -> respects R (forM_ l body).
Proof.
  intros Hb. induction l as [|x l IH]; simpl.
  - apply respects_ret.
  - apply respects_bind; auto.
Qed.

End Calls.

Lemma respects_weaken {S A} (R R' : relation S) (c : M S A) :
  (forall s s', R s s' -> R' s s') -> respects R c -> respects R' c.
Proof. intros HR Hc s. apply HR, Hc. Qed.

Section RaisesOnly.
Context {S : Type} (P : Exception -> Prop).

Lemma raises_only_ret {A} (a : A) : raises_only (S:=S) P (ret a).
Proof. intros s e s' H. discriminate. Qed.

Lemma raises_only_get : raises_only (S:=S) P get.
Proof. intros s e s' H. discriminate. Qed.

Lemma raises_only_modify (f : S -> S) : raises_only P (modify f).
Proof. intros s e s' H. discriminate. Qed.

Lemma raises_only_raise {A} e : P e -> raises_only (S:=S) (A:=A) P (raise e).
Proof. intros He s e' s' [= <- _]. exact He. Qed.

Lemma raises_only_bind {A B} (c : M S A) (k : A -> M S B) :
  raises_only P c -> (forall a, raises_only P (k a)) -> raises_only P (bind c k).
Proof.
  intros Hc Hk s e s'. unfold bind.
  destruct (c s) as [a s1|e1 s1] eqn:E.
  - apply Hk.
  - intros [= <- _]. by eapply Hc.
Qed.

Lemma raises_only_forM_ {A} (l : list A) (body : A -> M S unit) :
  (forall x, raises_only P (body x)) -> raises_only P (forM_ l body).
Proof.
  intros Hb. induction l as [|x l IH]; simpl.
  - apply raises_only_ret.
  - apply raises_only_bind; auto.
Qed.

End RaisesOnly.

Lemma raises_only_no_grid_error {S A} (c : M S A) s :
  raises_only not_grid_error c -> no_grid_error (c s).
Proof.
  intros H msg. destruct (c s) as [a s'|e s'] eqn:E; [done|].
  simpl. intros [= ->]. by apply (H _ _ _ E msg).
Qed.

Lemma forM__raise {S A} (body : A -> M S unit) l1 x l2 s s1 e s2 :
  forM_ l1 body s = Ok tt s1 -> body x s1 = Raise e s2 ->
  forM_ (l1 ++ x :: l2) body s = Raise e s2.
Proof.
  revert s. induction l1 as [|y l1 IH]; intros s; simpl.
  - intros [= ->] Hx. unfold bind. by rewrite Hx.
  - unfold bind. destruct (body y s) as [[] s'|]; [|done]. apply IH.
Qed.

Lemma bind_Ok {S A B} (c : M S A) (k : A -> M S B) s a s' :
  c s = Ok a s' -> bind c k s = k a s'.
Proof. intros H. unfold bind. by rewrite H. Qed.

Lemma bind_Raise {S A B} (c : M S A) (k : A -> M S B) s e s' :
  c s = Raise e s' -> bind c k s = Raise e s'.
Proof. intros H. unfold bind. by rewrite H. Qed.

Lemma Qltb_lt x y : Qltb x y = true <-> (x < y)%Q.
Proof.
  unfold Qltb. rewrite negb_true_iff. split.
  - intros H. apply Qnot_le_lt. intros Hle. apply Qle_bool_iff in Hle. congruence.
  - intros H. destruct (Qle_bool y x) eqn:E; [|done].
    apply Qle_bool_iff in E. exfalso. eapply Qlt_not_le; eauto.
Qed.


(** ** The stop condition, for any model *)

Section StopCondition.
Context {S : Type} (running : S -> bool) (stop : S -> S) (waiting : S -> nat)
        (body step : M S unit) (ticks : nat -> M S unit).
Hypothesis step_unfold : forall s,
  step s = if decide (waiting s = 0%nat) then Ok tt (stop s) else body s.
Hypothesis ticks_0 : forall s, ticks 0 s = Ok tt s.
Hypothesis ticks_S : forall n s,
  ticks (Datatypes.S n) s = bind step (fun _ => ticks n) s.
Hypothesis running_stop : forall s, running (stop s) = false.
Hypothesis waiting_stop : forall s, waiting (stop s) = waiting s.
Hypothesis running_body : forall s, running (state_of (body s)) = running s.

Lemma guard_idle s : waiting s = 0%nat -> step s = Ok tt (stop s).
Proof. intros H. rewrite step_unfold. by destruct (decide _). Qed.

Lemma guard_busy s : waiting s <> 0%nat -> step s = body s.
Proof. intros H. rewrite step_unfold. by destruct (decide _). Qed.

Lemma running_step_stopped s :
  running s = false -> running (state_of (step s)) = false.
Proof.
  intros H. rewrite step_unfold. destruct (decide _); simpl.
  - apply running_stop.
  - by rewrite running_body.
Qed.

Lemma running_ticks_stopped n s :
  running s = false -> running (state_of (ticks n s)) = false.
Proof.
  revert s. induction n as [|n IH]; intros s H.
  - by rewrite ticks_0.
  - rewrite ticks_S. unfold bind.
    pose proof (running_step_stopped s H) as Hs.
    destruct (step s) as [[] s'|e s']; simpl in *; [by apply IH|done].
Qed.

Lemma running_ticks_exact n s :
  running s = true ->
  running (state_of (ticks n s)) = false <->
  exists k sk, (k < n)%nat /\ ticks k s = Ok tt sk /\ waiting sk = 0%nat.
Proof.
  revert s. induction n as [|n IH]; intros s H.
  - rewrite ticks_0. simpl. split; [congruence|]. intros (k & _ & ? & _). lia.
  - rewrite ticks_S. unfold bind.
    destruct (decide (waiting s = 0%nat)) as [Hw|Hw].
    + rewrite (guard_idle s Hw). split.
      * intros _. exists 0%nat, s. rewrite ticks_0. split; [lia|done].
      * intros _. apply running_ticks_stopped, running_stop.
    + pose proof (running_body s) as Hb. rewrite <- (guard_busy s Hw) in Hb.
      destruct (step s) as [[] s'|e s'] eqn:Hs; simpl in Hb.
      * rewrite IH by congruence. split.
        -- intros (k & sk & Hk & Ht & Hz). exists (Datatypes.S k), sk.
           split; [lia|]. split; [|done].
           rewrite ticks_S. unfold bind. by rewrite Hs.
        -- intros (k & sk & Hk & Ht & Hz). destruct k as [|k].
           ++ rewrite ticks_0 in Ht. congruence.
           ++ rewrite ticks_S in Ht. unfold bind in Ht. rewrite Hs in Ht.
              exists k, sk. split; [lia|done].
      * simpl. split; [congruence|].
        intros (k & sk & Hk & Ht & Hz). destruct k as [|k].
        -- rewrite ticks_0 in Ht. congruence.
        -- rewrite ticks_S in Ht. unfold bind in Ht. by rewrite Hs in Ht.
Qed.

Lemma guard_then_step_holds :
  guard_then_step running stop waiting body step ticks.
Proof.
  intros m. split; [apply guard_idle|]. split; [|split; [|split]].
  - intros Hw. split; [by apply guard_busy|].
    rewrite (guard_busy m Hw). apply running_body.
  - intros m1 Hw Hs Hz. split; [|by apply guard_idle].
    pose proof (running_body m) as Hb.
    rewrite <- (guard_busy m Hw), Hs in Hb. done.
  - intros n. apply running_ticks_stopped.
  - intros n. apply running_ticks_exact.
Qed.

End StopCondition.

(** * The infectious-disease model *)
Module HomeworkFacts.
Import Homework.

#[export] Instance agent_evolves_preorder : PreOrder agent_evolves.
Proof.
  split.
  - intros a. by repeat split.
  - intros a b c (?&?&?&?) (?&?&?&?). repeat split; try congruence. auto.
Qed.

#[export] Instance population_evolves_preorder : PreOrder population_evolves.
Proof.
  split.
  - intros m. unfold population_evolves. reflexivity.
  - intros a b c Hab Hbc. unfold population_evolves in *. by etrans.
Qed.

#[export] Instance evolves_preorder : PreOrder evolves.
Proof.
  split.
  - intros m. by split.
  - intros a b c [? Hab] [? Hbc]. split; [congruence|by etrans].
Qed.

Lemma evolves_alter (f : PersonAgent -> PersonAgent) i m :
  (forall a, agent_evolves a (f a)) ->
  evolves m (set_agents (alter f i (agents m)) m).
Proof.
  intros Hf. split; [done|]. unfold population_evolves. simpl.
  apply Forall2_alter_r; [done|].
  intros x y _ _ Hxy. etrans; [exact Hxy|apply Hf].
Qed.

Lemma evolves_same_agents m m' :
  running m' = running m -> agents m' = agents m -> evolves m m'.
Proof.
  intros Hr Ha. split; [done|]. unfold population_evolves. by rewrite Ha.
Qed.

Lemma respects_on_agent (R : relation Model) `{!PreOrder R} i method :
  (forall self, respects R (method self)) -> respects R (on_agent i method).
Proof.
  intros H m. unfold on_agent. destruct (agents m !! i); [apply H|done].
Qed.

Lemma respects_random_random : respects evolves random_random.
Proof. intros m. by apply evolves_same_agents. Qed.

Lemma respects_select_random_cell cells :
  respects evolves (select_random_cell cells).
Proof.
  intros m. unfold select_random_cell.
  destruct (Grid.choice _ _); by apply evolves_same_agents.
Qed.

Lemma respects_check_grid_initialization self msg :
  respects evolves (check_grid_initialization self msg).
Proof.
  unfold check_grid_initialization.
  destruct (cell self); [apply respects_ret|apply respects_raise]; apply _.
Qed.

Ltac evolve_step :=
  lazymatch goal with
  | |- respects _ (if ?b then _ else _) => destruct b
  | |- respects _ (ret _) => apply respects_ret; apply _
  | |- respects _ (raise _) => apply respects_raise; apply _
  | |- respects _ get => apply respects_get; apply _
  | |- respects _ (bind _ _) => apply respects_bind; [apply _| |intros ?]
  | |- respects _ (forM_ _ _) => apply respects_forM_; [apply _|intros ?]
  | |- respects _ (modify _) => apply respects_modify; intros ?
  | |- respects _ (on_agent _ _) => apply respects_on_agent; [apply _|intros ?]
  | |- respects _ random_random => apply respects_random_random
  | |- respects _ (select_random_cell _) => apply respects_select_random_cell
  | |- respects _ (check_grid_initialization _ _) =>
      apply respects_check_grid_initialization
  end.

Ltac evolve := repeat evolve_step.

Lemma respects_move_to i c : respects evolves (move_to i c).
Proof.
  unfold move_to, assign_cell. evolve.
  apply evolves_alter. intros a. by repeat split.
Qed.

Lemma respects__get_infected i d : respects evolves (_get_infected i d).
Proof.
  unfold _get_infected. evolve.
  - apply evolves_alter. intros a. by repeat split.
  - by apply evolves_same_agents.
  - by apply evolves_same_agents.
Qed.

Lemma respects__in_neighbourhood_of_infection self :
  respects evolves (_in_neighbourhood_of_infection self).
Proof. unfold _in_neighbourhood_of_infection. evolve. Qed.

Lemma respects__get_infection_probabilty self :
  respects evolves (_get_infection_probabilty self).
Proof.
  unfold _get_infection_probabilty. evolve.
  apply respects__in_neighbourhood_of_infection.
Qed.

Lemma respects_get_infected_from_cell i :
  respects evolves (get_infected_from_cell i).
Proof.
  unfold get_infected_from_cell. evolve.
  - apply respects__get_infection_probabilty.
  - apply respects__get_infected.
Qed.

Lemma respects_move_around i : respects evolves (move_around i).
Proof. unfold move_around. evolve. apply respects_move_to. Qed.

Lemma respects_infect_encountered j : respects evolves (infect_encountered j).
Proof. unfold infect_encountered. evolve; apply respects__get_infected. Qed.

Lemma respects_spread_virus i : respects evolves (spread_virus i).
Proof.
  unfold spread_virus. evolve.
  - by apply evolves_same_agents.
  - apply respects_infect_encountered.
Qed.

Lemma agents_decay_cell c m : agents (decay_cell c m) = agents m.
Proof.
  unfold decay_cell. destruct (prop_is_infected _); [|done].
  by destruct (2 <? _).
Qed.

Lemma running_decay_cell c m : running (decay_cell c m) = running m.
Proof.
  unfold decay_cell. destruct (prop_is_infected _); [|done].
  by destruct (2 <? _).
Qed.

Lemma respects_decay : respects evolves decay.
Proof.
  unfold decay. evolve.
  apply evolves_same_agents; [apply running_decay_cell|apply agents_decay_cell].
Qed.

Lemma respects_do method :
  (forall i, respects evolves (method i)) -> respects evolves (do method).
Proof. intros H. unfold do. evolve. apply H. Qed.

Lemma respects_step_body : respects evolves step_body.
Proof.
  unfold step_body, collect. evolve.
  - by apply evolves_same_agents.
  - apply respects_do, respects_move_around.
  - apply respects_do, respects_spread_virus.
  - apply respects_do, respects_get_infected_from_cell.
  - apply respects_decay.
Qed.

Lemma evolves_population m m' : evolves m m' -> population_evolves m m'.
Proof. by intros [_ ?]. Qed.

Lemma respects_population_step : respects population_evolves step.
Proof.
  unfold step, _stop_condition.
  apply respects_bind; [apply _|apply respects_get; apply _|intros m].
  destruct (decide _).
  - apply respects_modify. intros s. unfold population_evolves. reflexivity.
  - eapply respects_weaken; [apply evolves_population|apply respects_step_body].
Qed.

Lemma respects_population_ticks n : respects population_evolves (ticks n).
Proof.
  induction n as [|n IH]; simpl.
  - apply respects_ret. apply _.
  - apply respects_bind; [apply _|apply respects_population_step|done].
Qed.

Lemma respects_population_call o : respects population_evolves (call o).
Proof.
  destruct o; simpl;
    [ eapply respects_weaken; [apply evolves_population|] ..
    | apply respects_population_step
    | apply respects_population_ticks ].
  - apply respects_move_around.
  - apply respects_spread_virus.
  - apply respects_get_infected_from_cell.
  - apply respects__get_infected.
  - apply respects_decay.
Qed.

Lemma infected_at_evolves m m' j :
  population_evolves m m' -> infected_at m j = true -> infected_at m' j = true.
Proof.
  unfold population_evolves, infected_at. intros H Hj.
  destruct (agents m !! j) as [a|] eqn:Ha; [|done].
  destruct (Forall2_lookup_l _ _ _ _ _ H Ha) as (a' & -> & Ha').
  by apply Ha'.
Qed.

End HomeworkFacts.

(** * The trend model with counters *)
Module Laboratory2Facts.
Import Laboratory2.

#[export] Instance l2_person_evolves_preorder : PreOrder person_evolves.
Proof.
  split.
  - intros a. by repeat split.
  - intros a b c (?&?&?&?&?) (?&?&?&?&?). repeat split; try congruence. auto.
Qed.

#[export] Instance l2_agent_evolves_preorder : PreOrder agent_evolves.
Proof.
  split.
  - intros [p|f]; simpl; reflexivity.
  - intros [p|f] [p'|f'] [p''|f'']; simpl; try done.
    + intros. by etrans.
    + congruence.
Qed.

#[export] Instance l2_population_evolves_preorder : PreOrder population_evolves.
Proof.
  split.
  - intros m. unfold population_evolves. reflexivity.
  - intros a b c Hab Hbc. unfold population_evolves in *. by etrans.
Qed.

#[export] Instance l2_evolves_preorder : PreOrder evolves.
Proof.
  split.
  - intros m. by split.
  - intros a b c [? Hab] [? Hbc]. split; [congruence|by etrans].
Qed.

Lemma l2_evolves_alter (f : Agent -> Agent) i m :
  (forall a, agent_evolves a (f a)) ->
  evolves m (set_agents (alter f i (agents m)) m).
Proof.
  intros Hf. split; [done|]. unfold population_evolves. simpl.
  apply Forall2_alter_r; [done|].
  intros x y _ _ Hxy. etrans; [exact Hxy|apply Hf].
Qed.

Lemma l2_evolves_same_agents m m' :
  running m' = running m -> agents m' = agents m -> evolves m m'.
Proof. intros Hr Ha. split; [done|]. unfold population_evolves. by rewrite Ha. Qed.

Lemma l2_respects_on_person (R : relation Model) `{!PreOrder R} i method :
  (forall self, respects R (method self)) -> respects R (on_person i method).
Proof.
  intros H m. unfold on_person.
  destruct (agents m !! i) as [[p|f]|]; [apply H|done|done].
Qed.

Lemma l2_respects_update_person i f :
  (forall p, person_evolves p (f p)) -> respects evolves (update_person i f).
Proof.
  intros Hf m. apply l2_evolves_alter. intros [p|g]; simpl; [apply Hf|done].
Qed.

Lemma l2_respects_update_influencer i f :
  (forall g, influencer_unique_id (f g) = influencer_unique_id g) ->
  respects evolves (update_influencer i f).
Proof.
  intros Hf m. apply l2_evolves_alter. intros [p|g]; simpl; [reflexivity|apply Hf].
Qed.

Lemma l2_respects_random_random : respects evolves random_random.
Proof. intros m. by apply l2_evolves_same_agents. Qed.

Lemma l2_respects_select_random_cell cells :
  respects evolves (select_random_cell cells).
Proof.
  intros m. unfold select_random_cell.
  destruct (Grid.choice _ _); by apply l2_evolves_same_agents.
Qed.

Lemma l2_respects_check_grid_initialization self msg :
  respects evolves (check_grid_initialization self msg).
Proof.
  unfold check_grid_initialization.
  destruct (cell self); [apply respects_ret|apply respects_raise]; apply _.
Qed.

Ltac l2_evolve_step :=
  lazymatch goal with
  | |- respects _ (if ?b then _ else _) => destruct b
  | |- respects _ (ret _) => apply respects_ret; apply _
  | |- respects _ (raise _) => apply respects_raise; apply _
  | |- respects _ get => apply respects_get; apply _
  | |- respects _ (bind _ _) => apply respects_bind; [apply _| |intros ?]
  | |- respects _ (forM_ _ _) => apply respects_forM_; [apply _|intros ?]
  | |- respects _ (modify _) =>
      apply respects_modify; intros ?; by apply l2_evolves_same_agents
  | |- respects _ (on_person _ _) => apply l2_respects_on_person; [apply _|intros ?]
  | |- respects _ (update_person _ _) =>
      apply l2_respects_update_person; intros ?; by repeat split
  | |- respects _ (update_influencer _ _) =>
      by apply l2_respects_update_influencer
  | |- respects _ random_random => apply l2_respects_random_random
  | |- respects _ (select_random_cell _) => apply l2_respects_select_random_cell
  | |- respects _ (check_grid_initialization _ _) =>
      apply l2_respects_check_grid_initialization
  end.

Ltac l2_evolve := repeat l2_evolve_step.

Lemma l2_respects_learn_about_trend i d :
  respects evolves (learn_about_trend i d).
Proof. unfold learn_about_trend. l2_evolve. Qed.

Lemma l2_respects_move_around i : respects evolves (move_around i).
Proof. unfold move_around, move_to, assign_cell. l2_evolve. Qed.

Lemma l2_respects_gossip_to g j : respects evolves (gossip_to g j).
Proof. unfold gossip_to. l2_evolve; apply l2_respects_learn_about_trend. Qed.

Lemma l2_respects_spread_news i : respects evolves (spread_news i).
Proof. unfold spread_news. l2_evolve. apply l2_respects_gossip_to. Qed.

Lemma l2_respects_spread_news_among_random_followers l f :
  respects evolves (spread_news_among_random_followers l f).
Proof.
  unfold spread_news_among_random_followers. l2_evolve.
  apply l2_respects_learn_about_trend.
Qed.

Lemma l2_respects_influencer_agents_step :
  respects evolves influencer_agents_step.
Proof.
  unfold influencer_agents_step. l2_evolve.
  - apply l2_respects_spread_news_among_random_followers.
  - apply l2_respects_move_around.
Qed.

Lemma l2_respects_step_body : respects evolves step_body.
Proof.
  unfold step_body, do. l2_evolve.
  - apply l2_respects_move_around.
  - apply l2_respects_spread_news.
  - apply l2_respects_influencer_agents_step.
Qed.

Lemma l2_evolves_population m m' : evolves m m' -> population_evolves m m'.
Proof. by intros [_ ?]. Qed.

Lemma l2_respects_population_step : respects population_evolves step.
Proof.
  unfold step, _stop_condition.
  apply respects_bind; [apply _|apply respects_get; apply _|intros m].
  destruct (decide _).
  - apply respects_modify. intros s. unfold population_evolves. reflexivity.
  - eapply respects_weaken; [apply l2_evolves_population|apply l2_respects_step_body].
Qed.

Lemma l2_respects_population_ticks n : respects population_evolves (ticks n).
Proof.
  induction n as [|n IH]; simpl.
  - apply respects_ret. apply _.
  - apply respects_bind; [apply _|apply l2_respects_population_step|done].
Qed.

Lemma l2_respects_population_call o : respects population_evolves (call o).
Proof.
  destruct o; simpl;
    [ eapply respects_weaken; [apply l2_evolves_population|] ..
    | apply l2_respects_population_step
    | apply l2_respects_population_ticks ].
  - apply l2_respects_move_around.
  - apply l2_respects_spread_news.
  - apply l2_respects_learn_about_trend.
  - apply l2_respects_spread_news_among_random_followers.
  - apply l2_respects_influencer_agents_step.
Qed.

Lemma l2_knows_at_evolves m m' j :
  population_evolves m m' -> knows_at m j = true -> knows_at m' j = true.
Proof.
  unfold population_evolves, knows_at, person_at. intros H Hj.
  destruct (agents m !! j) as [[p|f]|] eqn:Ha; try done.
  destruct (Forall2_lookup_l _ _ _ _ _ H Ha) as (a' & -> & Ha').
  destruct a' as [p'|f']; [|done]. by apply Ha'.
Qed.

End Laboratory2Facts.

(** * The first trend model *)
Module Laboratory1Facts.
Import Laboratory1.

#[export] Instance l1_person_evolves_preorder : PreOrder person_evolves.
Proof.
  split.
  - intros a. by repeat split.
  - intros a b c (?&?&?&?&?&?) (?&?&?&?&?&?).
    repeat split; try congruence. auto.
Qed.

#[export] Instance l1_agent_evolves_preorder : PreOrder agent_evolves.
Proof.
  split.
  - intros [p|f]; simpl; reflexivity.
  - intros [p|f] [p'|f'] [p''|f'']; simpl; try done.
    + intros. by etrans.
    + congruence.
Qed.

#[export] Instance l1_population_evolves_preorder : PreOrder population_evolves.
Proof.
  split.
  - intros m. unfold population_evolves. reflexivity.
  - intros a b c Hab Hbc. unfold population_evolves in *. by etrans.
Qed.

#[export] Instance l1_evolves_preorder : PreOrder evolves.
Proof.
  split.
  - intros m. by split.
  - intros a b c [? Hab] [? Hbc]. split; [congruence|by etrans].
Qed.

Lemma l1_evolves_same_agents m m' :
  running m' = running m -> agents m' = agents m -> evolves m m'.
Proof. intros Hr Ha. split; [done|]. unfold population_evolves. by rewrite Ha. Qed.

Lemma l1_respects_on_person (R : relation Model) `{!PreOrder R} i method :
  (forall self, respects R (method self)) -> respects R (on_person i method).
Proof.
  intros H m. unfold on_person.
  destruct (agents m !! i) as [[p|f]|]; [apply H|done|done].
Qed.

Lemma l1_evolves_update_person i f m :
  (forall p, person_evolves p (f p)) ->
  evolves m (set_agents (alter (alter_person f) i (agents m)) m).
Proof.
  intros Hf. split; [done|]. unfold population_evolves. simpl.
  apply Forall2_alter_r; [done|].
  intros x y _ _ Hxy. etrans; [exact Hxy|].
  destruct y as [p|g]; simpl; [apply Hf|done].
Qed.

Lemma l1_respects_update_person i f :
  (forall p, person_evolves p (f p)) -> respects evolves (update_person i f).
Proof. intros Hf m. by apply l1_evolves_update_person. Qed.

Lemma l1_respects_random_random : respects evolves random_random.
Proof. intros m. by apply l1_evolves_same_agents. Qed.

Lemma l1_respects_check_grid_initialization self msg :
  respects evolves (check_grid_initialization self msg).
Proof.
  unfold check_grid_initialization.
  destruct (grid self); [apply respects_ret|apply respects_raise]; apply _.
Qed.

Lemma l1_respects_get_neighborhood g p :
  respects evolves (get_neighborhood g p).
Proof.
  unfold get_neighborhood.
  destruct p; [apply respects_ret|apply respects_raise]; apply _.
Qed.

Lemma l1_respects_move_agent_to_one_of i l :
  respects evolves (move_agent_to_one_of i l).
Proof.
  intros m. unfold move_agent_to_one_of.
  destruct l as [|c l]; [done|].
  destruct (Grid.choice _ _) as [t|]; [|done].
  transitivity (set_random (advance (random m)) m).
  - by apply l1_evolves_same_agents.
  - apply (l1_respects_update_person i (set_person_pos t)).
    intros ?. by repeat split.
Qed.

Lemma l1_respects_get_cell_list_contents p :
  respects evolves (get_cell_list_contents p).
Proof.
  unfold get_cell_list_contents. destruct p; [|apply respects_raise; apply _].
  apply respects_bind; [apply _|apply respects_get; apply _|].
  intros ?. apply respects_ret. apply _.
Qed.

Ltac l1_evolve_step :=
  lazymatch goal with
  | |- respects _ (if ?b then _ else _) => destruct b
  | |- respects _ (ret _) => apply respects_ret; apply _
  | |- respects _ (raise _) => apply respects_raise; apply _
  | |- respects _ get => apply respects_get; apply _
  | |- respects _ (bind _ _) => apply respects_bind; [apply _| |intros ?]
  | |- respects _ (forM_ _ _) => apply respects_forM_; [apply _|intros ?]
  | |- respects _ (modify _) =>
      apply respects_modify; intros ?; by apply l1_evolves_same_agents
  | |- respects _ (on_person _ _) => apply l1_respects_on_person; [apply _|intros ?]
  | |- respects _ (update_person _ _) =>
      apply l1_respects_update_person; intros ?; by repeat split
  | |- respects _ random_random => apply l1_respects_random_random
  | |- respects _ (get_neighborhood _ _) => apply l1_respects_get_neighborhood
  | |- respects _ (get_cell_list_contents _) =>
      apply l1_respects_get_cell_list_contents
  | |- respects _ (move_agent_to_one_of _ _) =>
      apply l1_respects_move_agent_to_one_of
  | |- respects _ (check_grid_initialization _ _) =>
      apply l1_respects_check_grid_initialization
  end.

Ltac l1_evolve := repeat l1_evolve_step.

Lemma l1_respects_learn_about_trend i : respects evolves (learn_about_trend i).
Proof. unfold learn_about_trend. l1_evolve. Qed.

Lemma l1_respects_move_around i : respects evolves (move_around i).
Proof. unfold move_around. l1_evolve. Qed.

Lemma l1_respects_gossip_to g j : respects evolves (gossip_to g j).
Proof. unfold gossip_to. l1_evolve; apply l1_respects_learn_about_trend. Qed.

Lemma l1_respects_spread_news i : respects evolves (spread_news i).
Proof. unfold spread_news. l1_evolve. apply l1_respects_gossip_to. Qed.

Lemma l1_respects_spread_news_among_followers l f :
  respects evolves (spread_news_among_followers l f).
Proof.
  unfold spread_news_among_followers. l1_evolve.
  apply l1_respects_learn_about_trend.
Qed.

Lemma l1_respects_step_body : respects evolves step_body.
Proof.
  unfold step_body, do. l1_evolve.
  - apply l1_respects_move_around.
  - apply l1_respects_spread_news.
  - apply l1_respects_spread_news_among_followers.
  - apply l1_respects_move_around.
Qed.

Lemma l1_evolves_population m m' : evolves m m' -> population_evolves m m'.
Proof. by intros [_ ?]. Qed.

Lemma l1_respects_population_step : respects population_evolves step.
Proof.
  unfold step, _stop_condition.
  apply respects_bind; [apply _|apply respects_get; apply _|intros m].
  destruct (decide _).
  - apply respects_modify. intros s. unfold population_evolves. reflexivity.
  - eapply respects_weaken; [apply l1_evolves_population|apply l1_respects_step_body].
Qed.

Lemma l1_respects_population_ticks n : respects population_evolves (ticks n).
Proof.
  induction n as [|n IH]; simpl.
  - apply respects_ret. apply _.
  - apply respects_bind; [apply _|apply l1_respects_population_step|done].
Qed.

Lemma l1_respects_population_call o : respects population_evolves (call o).
Proof.
  destruct o; simpl;
    [ eapply respects_weaken; [apply l1_evolves_population|] ..
    | apply l1_respects_population_step
    | apply l1_respects_population_ticks ].
  - apply l1_respects_move_around.
  - apply l1_respects_spread_news.
  - apply l1_respects_learn_about_trend.
  - apply l1_respects_spread_news_among_followers.
Qed.

Lemma l1_knows_at_evolves m m' j :
  population_evolves m m' -> knows_at m j = true -> knows_at m' j = true.
Proof.
  unfold population_evolves, knows_at, person_at. intros H Hj.
  destruct (agents m !! j) as [[p|f]|] eqn:Ha; try done.
  destruct (Forall2_lookup_l _ _ _ _ _ H Ha) as (a' & -> & Ha').
  destruct a' as [p'|f']; [|done]. by apply Ha'.
Qed.

End Laboratory1Facts.

(** * The claims *)

Import HomeworkFacts Laboratory2Facts Laboratory1Facts.

(** C1 (agent-level monotonicity).  In each of the three models, whatever
    operation is called on whatever state — an agent's move, spread, passive
    acquisition, [learn_about_trend], the influencer delivery, the
    environment decay, a whole [step] or any number of steps — and whether
    the call returns or raises, an agent whose informed/infected flag was
    true before the call has it true after the call. *)
Theorem C1_informed_flag_never_reverts :
  (forall (o : Homework.Operation) (m : Homework.Model) (j : nat),
      Homework.infected_at m j = true ->
      Homework.infected_at (state_of (Homework.call o m)) j = true) /\
  (forall (o : Laboratory2.Operation) (m : Laboratory2.Model) (j : nat),
      Laboratory2.knows_at m j = true ->
      Laboratory2.knows_at (state_of (Laboratory2.call o m)) j = true) /\
  (forall (o : Laboratory1.Operation) (m : Laboratory1.Model) (j : nat),
      Laboratory1.knows_at m j = true ->
      Laboratory1.knows_at (state_of (Laboratory1.call o m)) j = true).
Proof.
  split; [|split]; intros o m j.
  - apply infected_at_evolves, respects_population_call.
  - apply l2_knows_at_evolves, l2_respects_population_call.
  - apply l1_knows_at_evolves, l1_respects_population_call.
Qed.

Lemma hw_running_step_body s :
  Homework.running (state_of (Homework.step_body s)) = Homework.running s.
Proof. apply respects_step_body. Qed.

Lemma l2_running_step_body s :
  Laboratory2.running (state_of (Laboratory2.step_body s)) =
  Laboratory2.running s.
Proof. apply l2_respects_step_body. Qed.

Lemma l1_running_step_body s :
  Laboratory1.running (state_of (Laboratory1.step_body s)) =
  Laboratory1.running s.
Proof. apply l1_respects_step_body. Qed.

(** C2 (stop condition).  In each model the decorated [step] looks, before
    anything else, at the number of agents not yet informed or infected.
    If it is zero the tick only clears [running]: the result is the state it
    started from with that one field changed, so no agent has acted and no
    random draw was made.  Otherwise the tick is the undecorated step, which
    leaves [running] as it was; hence the flag is cleared on the tick after
    the one that informed the last agent, and not before: after [n] ticks
    from a running model it is cleared exactly when one of these ticks
    started with nobody left.  Once cleared, no number of ticks sets it
    again. *)
Theorem C2_stop_condition_guards_every_tick :
  guard_then_step Homework.running (Homework.set_running false)
    Homework.not_infected_count Homework.step_body Homework.step
    Homework.ticks /\
  guard_then_step Laboratory2.running (Laboratory2.set_running false)
    Laboratory2.not_knowing_count Laboratory2.step_body Laboratory2.step
    Laboratory2.ticks /\
  guard_then_step Laboratory1.running (Laboratory1.set_running false)
    Laboratory1.not_knowing_count Laboratory1.step_body Laboratory1.step
    Laboratory1.ticks.
Proof.
  split; [|split]; apply guard_then_step_holds; try done.
  - intros s. unfold Homework.step, Homework._stop_condition, bind, get.
    by destruct (decide _).
  - apply hw_running_step_body.
  - intros s. unfold Laboratory2.step, Laboratory2._stop_condition, bind, get.
    by destruct (decide _).
  - apply l2_running_step_body.
  - intros s. unfold Laboratory1.step, Laboratory1._stop_condition, bind, get.
    by destruct (decide _).
  - apply l1_running_step_body.
Qed.

(** ** The environment decay *)

Section Decay.
Import Homework.

Lemma forM__modify {S A} (l : list A) (f : A -> S -> S) (s : S) :
  forM_ l (fun x => modify (f x)) s = Ok tt (foldl (fun s x => f x s) s l).
Proof.
  revert s. induction l as [|x l IH]; intros s; [done|].
  simpl. unfold bind, modify at 1. apply IH.
Qed.

Lemma occupied_decay_cell c c' m :
  occupied_by_infected (decay_cell c m) c' = occupied_by_infected m c'.
Proof. unfold occupied_by_infected. by rewrite agents_decay_cell. Qed.

Lemma grid_decay_cell c c' m p :
  grid m !! c = Some p ->
  grid (decay_cell c m) !! c' =
  if decide (c = c')
  then Some (decay_with_threshold 2 (occupied_by_infected m c) p)
  else grid m !! c'.
Proof.
  intros Hp. unfold decay_cell, decay_with_threshold.
  rewrite (lookup_total_correct _ _ _ Hp).
  fold (occupied_by_infected m c).
  destruct (prop_is_infected p) eqn:Hi.
  - simpl. fold (occupied_by_infected m c).
    destruct (2 <? _); simpl; destruct (decide (c = c')) as [->|Hne];
      by rewrite ?lookup_insert_eq, ?lookup_insert_ne.
  - destruct (decide (c = c')) as [->|Hne]; [|done].
    rewrite Hp. by destruct p; simpl in *; subst.
Qed.

Lemma decay_fold l : forall m,
  NoDup l -> (forall c, c ∈ l -> is_Some (grid m !! c)) ->
  let m' := foldl (fun m c => decay_cell c m) m l in
  agents m' = agents m /\
  forall c, grid m' !! c =
            if decide (c ∈ l)
            then decay_with_threshold 2 (occupied_by_infected m c) <$> grid m !! c
            else grid m !! c.
Proof.
  induction l as [|c0 l IH]; intros m Hnd Hdom; cbn [foldl].
  - split; [done|]. intros c. case_decide as H; [|done].
    by apply elem_of_nil in H.
  - apply NoDup_cons in Hnd as [Hc0 Hnd].
    destruct (Hdom c0) as [p0 Hp0]; [by left|].
    destruct (IH (decay_cell c0 m) Hnd) as [Hag Hgr].
    { intros c Hc. rewrite (grid_decay_cell _ _ _ _ Hp0).
      case_decide; [done|]. apply Hdom. by right. }
    split; [by rewrite Hag, agents_decay_cell|].
    intros c. rewrite Hgr, occupied_decay_cell, (grid_decay_cell _ _ _ _ Hp0).
    destruct (decide (c ∈ l)) as [Hl|Hl].
    + destruct (decide (c0 = c)) as [->|Hne]; [done|].
      destruct (decide (c ∈ c0 :: l)) as [?|Hn]; [done|].
      exfalso. apply Hn. by right.
    + destruct (decide (c0 = c)) as [->|Hne].
      * destruct (decide (c ∈ c :: l)) as [?|Hn]; [by rewrite Hp0|].
        exfalso. apply Hn. by left.
      * destruct (decide (c ∈ c0 :: l)) as [Hin|?]; [|done].
        apply elem_of_cons in Hin as [->|?]; done.
Qed.

Lemma decay_lookup m :
  exists m', decay m = Ok tt m' /\ agents m' = agents m /\
    forall c, grid m' !! c =
              decay_with_threshold 2 (occupied_by_infected m c) <$> grid m !! c.
Proof.
  eexists. split.
  { unfold decay, bind, get. apply forM__modify. }
  destruct (decay_fold (map_to_list (grid m)).*1 m) as [Hag Hgr].
  - apply NoDup_fst_map_to_list.
  - intros c Hc. apply list_elem_of_fmap in Hc as ([c' p] & -> & Hcp).
    apply elem_of_map_to_list in Hcp. by exists p.
  - split; [done|]. intros c. rewrite Hgr.
    case_decide as Hnin; [done|].
    destruct (grid m !! c) as [p|] eqn:Hp; [|done].
    exfalso. apply Hnin. apply list_elem_of_fmap. exists (c, p).
    split; [done|]. by apply elem_of_map_to_list.
Qed.

End Decay.

(** C3, as the specification states it, fails: the threshold of the source
    is 2, not 3.  On the cell (0, 0) of [stale_cell_model], contaminated,
    with counter 2 and nobody on it, the decay step clears the cell,
    whereas the stated rule would raise the counter to 3 and keep the cell
    contaminated. *)
Lemma C3_counterexample_threshold_is_two :
  Homework.grid (state_of (Homework.decay Examples.stale_cell_model)) !! (0, 0)
  = Some {| Homework.prop_is_infected := false;
            Homework.prop_virus_persistence := 0 |} /\
  Homework.decay_with_threshold 3
    (Homework.occupied_by_infected Examples.stale_cell_model (0, 0))
    {| Homework.prop_is_infected := true;
       Homework.prop_virus_persistence := 2 |}
  = {| Homework.prop_is_infected := true;
       Homework.prop_virus_persistence := 3 |}.
Proof. split; vm_compute; reflexivity. Qed.

(** C3, amended.  The decay step always returns, and moves no agent.  For
    every contaminated cell of the grid: if an infected agent stands on it
    its counter becomes 0 and it stays contaminated; otherwise the counter
    is incremented, and the cell is cleared, with counter 0, exactly when
    the incremented counter exceeds 2, that is when it reaches 3.  Cells
    that are not contaminated are left alone.  So a freshly contaminated
    cell (counter 0) that no infected agent visits is still contaminated
    after one and after two decay steps and is cleared by the third. *)
Theorem C3_decay_clears_on_third_idle_tick :
  forall (m : Homework.Model) (c : Coord) (p : Homework.Properties),
    Homework.grid m !! c = Some p ->
    Homework.prop_is_infected p = true ->
    exists m',
      Homework.decay m = Ok tt m' /\
      Homework.agents m' = Homework.agents m /\
      Homework.grid m' !! c =
        Some (if Homework.occupied_by_infected m c
              then {| Homework.prop_is_infected := true;
                      Homework.prop_virus_persistence := 0 |}
              else if 2 <? Homework.prop_virus_persistence p + 1
              then {| Homework.prop_is_infected := false;
                      Homework.prop_virus_persistence := 0 |}
              else {| Homework.prop_is_infected := true;
                      Homework.prop_virus_persistence :=
                        Homework.prop_virus_persistence p + 1 |}) /\
      (forall c' p', Homework.grid m !! c' = Some p' ->
                     Homework.prop_is_infected p' = false ->
                     Homework.grid m' !! c' = Some p') /\
      (Homework.occupied_by_infected m c = false ->
       Homework.prop_virus_persistence p = 0 ->
       exists m'' m''',
         Homework.decay m' = Ok tt m'' /\
         Homework.decay m'' = Ok tt m''' /\
         Homework.grid m' !! c =
           Some {| Homework.prop_is_infected := true;
                   Homework.prop_virus_persistence := 1 |} /\
         Homework.grid m'' !! c =
           Some {| Homework.prop_is_infected := true;
                   Homework.prop_virus_persistence := 2 |} /\
         Homework.grid m''' !! c =
           Some {| Homework.prop_is_infected := false;
                   Homework.prop_virus_persistence := 0 |}).
Proof.
  intros m c p Hp Hi.
  destruct (decay_lookup m) as (m1 & Hd1 & Ha1 & Hg1).
  exists m1. split; [done|]. split; [done|].
  assert (Hocc : forall m m', Homework.agents m' = Homework.agents m ->
            Homework.occupied_by_infected m' c = Homework.occupied_by_infected m c).
  { intros ?? E. unfold Homework.occupied_by_infected. by rewrite E. }
  split; [|split].
  - rewrite Hg1, Hp. simpl. unfold Homework.decay_with_threshold. rewrite Hi.
    by destruct (Homework.occupied_by_infected m c).
  - intros c' p' Hp' Hi'. rewrite Hg1, Hp'. simpl.
    unfold Homework.decay_with_threshold. by rewrite Hi'.
  - intros Ho Hz.
    destruct (decay_lookup m1) as (m2 & Hd2 & Ha2 & Hg2).
    destruct (decay_lookup m2) as (m3 & Hd3 & Ha3 & Hg3).
    exists m2, m3. split; [done|]. split; [done|].
    assert (H1 : Homework.grid m1 !! c =
                 Some {| Homework.prop_is_infected := true;
                         Homework.prop_virus_persistence := 1 |}).
    { rewrite Hg1, Hp. simpl. unfold Homework.decay_with_threshold.
      by rewrite Hi, Ho, Hz. }
    assert (H2 : Homework.grid m2 !! c =
                 Some {| Homework.prop_is_infected := true;
                         Homework.prop_virus_persistence := 2 |}).
    { rewrite Hg2, H1, (Hocc m m1 Ha1), Ho. done. }
    split; [done|]. split; [done|].
    rewrite Hg3, H2, (Hocc m1 m2 Ha2), (Hocc m m1 Ha1), Ho. done.
Qed.

Lemma C3_witness_stale_cell :
  exists m',
    Homework.decay Examples.stale_cell_model = Ok tt m' /\
    Homework.grid m' !! (0, 0) =
      Some {| Homework.prop_is_infected := false;
              Homework.prop_virus_persistence := 0 |}.
Proof.
  destruct (C3_decay_clears_on_third_idle_tick Examples.stale_cell_model (0, 0)
              {| Homework.prop_is_infected := true;
                 Homework.prop_virus_persistence := 2 |})
    as (m' & Hd & _ & Hg & _).
  - vm_compute. reflexivity.
  - reflexivity.
  - exists m'. split; [exact Hd|]. etrans; [exact Hg|]. vm_compute. reflexivity.
Defined.

(** ** Passive acquisition *)

Section PassiveAcquisition.
Import Homework.

Lemma get_infection_probabilty_placed self c m :
  cell self = Some c ->
  _get_infection_probabilty self m =
  Ok (if prop_is_infected (grid m !!! c)
      then ((if has_comorbidities self then 1 # 4 else 0) + (1 # 2))%Q
      else if existsb (fun d => prop_is_infected (grid m !!! d)) (neighborhood m c)
      then ((if has_comorbidities self then 1 # 4 else 0) + (1 # 4))%Q
      else 0%Q) m.
Proof.
  intros Hc. unfold _get_infection_probabilty, _in_neighbourhood_of_infection,
    check_grid_initialization, bind, get, ret. rewrite Hc.
  destruct (prop_is_infected _); [done|].
  by match goal with |- context [existsb ?f ?l] => destruct (existsb f l) end.
Qed.

Lemma get_infection_probabilty_bound self m p m' :
  _get_infection_probabilty self m = Ok p m' -> (p <= 3 # 4)%Q.
Proof.
  destruct (cell self) as [c|] eqn:Hc.
  - rewrite (get_infection_probabilty_placed _ _ _ Hc). intros [= <- _].
    destruct (prop_is_infected _);
      [|match goal with |- context [existsb ?f ?l] => destruct (existsb f l) end];
      destruct (has_comorbidities self); by vm_compute.
  - unfold _get_infection_probabilty, check_grid_initialization, bind, raise.
    by rewrite Hc.
Qed.

Lemma get_infected_from_cell_placed m i self c :
  agents m !! i = Some self -> cell self = Some c -> is_infected self = false ->
  exists p,
    _get_infection_probabilty self m = Ok p m /\
    get_infected_from_cell i m =
    let m1 := set_random (advance (random m)) m in
    if Qltb (peek (random m)) p then _get_infected i false m1 else Ok tt m1.
Proof.
  intros Hi Hc Hn. eexists. split; [by apply get_infection_probabilty_placed|].
  unfold get_infected_from_cell, on_agent. rewrite Hi.
  unfold bind at 1. unfold check_grid_initialization at 1.
  rewrite Hc. unfold ret at 1. rewrite Hn.
  unfold bind at 1. unfold random_random at 1.
  unfold bind at 1.
  rewrite (get_infection_probabilty_placed self c _ Hc).
  change (grid (set_random (advance (random m)) m)) with (grid m).
  change (neighborhood (set_random (advance (random m)) m) c)
    with (neighborhood m c).
  cbv zeta. by destruct (Qltb _ _).
Qed.

End PassiveAcquisition.

(** C5, as the specification states it, fails in its second half: no
    configuration makes the sum exceed 1.  The largest value is reached by an
    agent with comorbidities on a contaminated cell (the healthy agent of
    [contaminated_model]), and it is 1/4 + 1/2; whatever the agent and the
    model, a returned probability is at most 3/4, hence never above 1. *)
Lemma C5_counterexample_sum_never_exceeds_one :
  (exists a,
     Homework.agents Examples.contaminated_model !! 1%nat = Some a /\
     Homework._get_infection_probabilty a Examples.contaminated_model =
     Ok ((1 # 4) + (1 # 2))%Q Examples.contaminated_model) /\
  (forall self m p m',
     Homework._get_infection_probabilty self m = Ok p m' ->
     (p <= 3 # 4)%Q /\ ~ (1 < p)%Q).
Proof.
  split.
  - eexists. split; [vm_compute; reflexivity|].
    rewrite (get_infection_probabilty_placed _ (1, 1)) by reflexivity.
    vm_compute. reflexivity.
  - intros self m p m' H. apply get_infection_probabilty_bound in H.
    split; [done|]. intros H1. apply (Qlt_not_le _ _ H1).
    eapply Qle_trans; [exact H|]. by vm_compute.
Qed.

(** C5, amended.  For a placed agent the infection probability is: the
    trait contribution (1/4 with comorbidities, else 0) plus 1/2 on a
    contaminated cell; else the trait contribution plus 1/4 next to a
    contaminated cell; else 0, trait or not.  No cap is applied: an
    uninfected agent becomes infected by [get_infected_from_cell] exactly
    when the draw is below that very number.  The number is at most 3/4. *)
Theorem C5_passive_probability_is_uncapped_sum :
  forall (m : Homework.Model) (i : nat) (self : Homework.PersonAgent) (c : Coord),
    Homework.agents m !! i = Some self ->
    Homework.cell self = Some c ->
    Homework.is_infected self = false ->
    let trait : Q :=
      if Homework.has_comorbidities self then (1 # 4)%Q else 0%Q in
    let p : Q :=
      if Homework.prop_is_infected (Homework.grid m !!! c)
      then (trait + (1 # 2))%Q
      else if existsb (fun d => Homework.prop_is_infected (Homework.grid m !!! d))
                      (Homework.neighborhood m c)
      then (trait + (1 # 4))%Q
      else 0%Q in
    Homework._get_infection_probabilty self m = Ok p m /\
    (p <= 3 # 4)%Q /\
    raised (Homework.get_infected_from_cell i m) = None /\
    Homework.infected_at (state_of (Homework.get_infected_from_cell i m)) i
    = Qltb (peek (Homework.random m)) p.
Proof.
  intros m i self c Hi Hc Hn trait p. subst trait p.
  pose proof (get_infection_probabilty_placed self c m Hc) as Hp.
  split; [exact Hp|]. split; [by eapply get_infection_probabilty_bound|].
  destruct (get_infected_from_cell_placed m i self c Hi Hc Hn)
    as (p' & Hp' & ->).
  rewrite Hp in Hp'. injection Hp' as <-.
  cbv zeta.
  destruct (Qltb (peek (Homework.random m)) _).
  - split; [done|]. unfold Homework.infected_at. simpl.
    rewrite list_lookup_alter_eq, Hi. done.
  - split; [done|]. unfold Homework.infected_at. simpl. by rewrite Hi.
Qed.

Lemma C5_witness_comorbid_on_contaminated_cell :
  Homework.infected_at
    (state_of (Homework.get_infected_from_cell 1 Examples.contaminated_model)) 1
  = false.
Proof.
  destruct (C5_passive_probability_is_uncapped_sum Examples.contaminated_model 1
              {| Homework.unique_id := 2; Homework._is_infected := false;
                 Homework._has_comorbidities := true;
                 Homework._moving_probability := 1 # 2;
                 Homework.cell := Some (1, 1) |} (1, 1))
    as (_ & _ & _ & H).
  - vm_compute. reflexivity.
  - reflexivity.
  - reflexivity.
  - etrans; [exact H|]. vm_compute. reflexivity.
Defined.

(** C7 (ratio reporters).  Each reporter returns, never raises and changes
    nothing; its value is 0 when the attempt counter is 0 and the success
    counter divided by the attempt counter otherwise.  The division itself
    would raise on a zero divisor: the guard is what prevents it. *)
Theorem C7_ratio_reporters_guard_the_division :
  forall m : Laboratory2.Model,
    Laboratory2.direct_interaction_success_ration m =
      Ok (if Laboratory2.direct_interactions_count m =? 0 then 0%Q
          else (inject_Z (Laboratory2.successful_direct_interactions_count m)
                / inject_Z (Laboratory2.direct_interactions_count m))%Q) m /\
    Laboratory2.indirect_interaction_success_ration m =
      Ok (if Laboratory2.indirect_interactions_count m =? 0 then 0%Q
          else (inject_Z (Laboratory2.successful_indirect_interactions_count m)
                / inject_Z (Laboratory2.indirect_interactions_count m))%Q) m /\
    (forall a, raised (Laboratory2.truediv a 0 m) =
               Some (ZeroDivisionError "division by zero")).
Proof.
  intros m. split; [|split].
  - unfold Laboratory2.direct_interaction_success_ration, bind, get.
    destruct (Laboratory2.direct_interactions_count m =? 0) eqn:E; [done|].
    unfold Laboratory2.truediv. by rewrite E.
  - unfold Laboratory2.indirect_interaction_success_ration, bind, get.
    destruct (Laboratory2.indirect_interactions_count m =? 0) eqn:E; [done|].
    unfold Laboratory2.truediv. by rewrite E.
  - done.
Qed.

(** ** Learning about the trend *)

Section Learning.
Import Laboratory2.

Lemma person_at_lookup m i p :
  person_at m i = Some p <-> agents m !! i = Some (RegularPerson p).
Proof.
  unfold person_at. destruct (agents m !! i) as [[q|f]|]; split; congruence.
Qed.

Lemma learn_about_trend_person m i d p :
  person_at m i = Some p ->
  learn_about_trend i d m =
  let ags := alter (alter_person hear_gossip) i (agents m) in
  let m1 := set_random (advance (random m)) (set_agents ags m) in
  if Qltb (1 # 5) (peek (random m))
  then
    let m2 := set_agents (alter (alter_person set_knows_about_trend) i ags) m1 in
    Ok tt (if d
           then set_successful_direct_interactions_count
                  (successful_direct_interactions_count m + 1) m2
           else set_successful_indirect_interactions_count
                  (successful_indirect_interactions_count m + 1) m2)
  else Ok tt m1.
Proof.
  intros Hp. apply person_at_lookup in Hp.
  unfold learn_about_trend, on_person. rewrite Hp.
  unfold bind, update_person, modify, random_random. simpl.
  destruct (Qltb _ _); [|done]. by destruct d.
Qed.

End Learning.

(** C10 ([learn_about_trend] of the second trend model).  A call on a
    person always returns.  It adds one to the person's
    [trend_gossip_counter] whether or not the person adopts; it sets the
    informed flag exactly when the draw is strictly greater than 1/5, and
    otherwise leaves the flag as it was; and the [skepticism_prob] the
    person was constructed with plays no part: with any other value [q] in
    its place the call does the same thing. *)
Theorem C10_learn_about_trend_uses_fixed_threshold :
  forall (m : Laboratory2.Model) (i : nat) (is_direct : bool)
         (p : Laboratory2.PersonAgent),
    Laboratory2.person_at m i = Some p ->
    exists m' p',
      Laboratory2.learn_about_trend i is_direct m = Ok tt m' /\
      Laboratory2.person_at m' i = Some p' /\
      Laboratory2.trend_gossip_counter p' =
        Laboratory2.trend_gossip_counter p + 1 /\
      Laboratory2._knows_about_trend p' =
        Laboratory2._knows_about_trend p
        || Qltb (1 # 5) (peek (Laboratory2.random m)) /\
      (Laboratory2._knows_about_trend p = false ->
         (Laboratory2._knows_about_trend p' = true <->
          (1 # 5 < peek (Laboratory2.random m))%Q)) /\
      (forall q : Q,
         Laboratory2.learn_about_trend i is_direct
           (Laboratory2.with_skepticism_prob q i m)
         = Ok tt (Laboratory2.with_skepticism_prob q i m')).
Proof.
  intros m i d p Hp.
  pose proof (learn_about_trend_person m i d p Hp) as Hl.
  pose proof (proj1 (person_at_lookup m i p) Hp) as Hi.
  assert (Hq : forall q,
             Laboratory2.person_at (Laboratory2.with_skepticism_prob q i m) i
             = Some (Laboratory2.set_skepticism_prob q p)).
  { intros q. apply person_at_lookup. simpl.
    by rewrite list_lookup_alter_eq, Hi. }
  assert (Hcomm : forall q f,
    (forall a, Laboratory2.set_skepticism_prob q (f a) =
               f (Laboratory2.set_skepticism_prob q a)) ->
    forall l : list Laboratory2.Agent,
    alter (Laboratory2.alter_person f) i
      (alter (Laboratory2.alter_person (Laboratory2.set_skepticism_prob q)) i l)
    = alter (Laboratory2.alter_person (Laboratory2.set_skepticism_prob q)) i
        (alter (Laboratory2.alter_person f) i l)).
  { intros q f Hf l. rewrite !list_alter_alter_eq.
    apply list_alter_ext; [|done]. intros [a|g] _; simpl; [|done].
    by rewrite Hf. }
  cbv zeta in Hl.
  destruct (Qltb (1 # 5) (peek (Laboratory2.random m))) eqn:E.
  - eexists _, (Laboratory2.set_knows_about_trend (Laboratory2.hear_gossip p)).
    split; [exact Hl|]. split; [|split; [|split; [|split]]].
    + apply person_at_lookup. destruct d; simpl;
        by rewrite !list_lookup_alter_eq, Hi.
    + done.
    + simpl. by rewrite orb_true_r.
    + intros _. split; [intros _; by apply Qltb_lt|done].
    + intros q. rewrite (learn_about_trend_person _ i d _ (Hq q)).
      cbv zeta. simpl. rewrite E.
      destruct d; unfold Laboratory2.with_skepticism_prob; simpl;
        by rewrite !Hcomm.
  - eexists _, (Laboratory2.hear_gossip p).
    split; [exact Hl|]. split; [|split; [|split; [|split]]].
    + apply person_at_lookup. simpl. by rewrite !list_lookup_alter_eq, Hi.
    + done.
    + simpl. by rewrite orb_false_r.
    + intros Hk. simpl. rewrite Hk. split; [done|].
      intros Hlt. apply Qltb_lt in Hlt. congruence.
    + intros q. rewrite (learn_about_trend_person _ i d _ (Hq q)).
      cbv zeta. simpl. rewrite E.
      unfold Laboratory2.with_skepticism_prob; simpl. by rewrite !Hcomm.
Qed.

Lemma C10_witness_skeptical_draw :
  exists m',
    Laboratory2.learn_about_trend 0 true (Examples.trend_model (1 # 10))
    = Ok tt m' /\
    Laboratory2.knows_at m' 0 = false /\
    Laboratory2.learn_about_trend 0 true
      (Laboratory2.with_skepticism_prob 1 0 (Examples.trend_model (1 # 10)))
    = Ok tt (Laboratory2.with_skepticism_prob 1 0 m').
Proof.
  destruct (C10_learn_about_trend_uses_fixed_threshold
              (Examples.trend_model (1 # 10)) 0 true
              {| Laboratory2.unique_id := 1;
                 Laboratory2.sport_enthusiast := true;
                 Laboratory2.trend_gossip_counter := 0;
                 Laboratory2._gossip_prob := 1 # 2;
                 Laboratory2._knows_about_trend := false;
                 Laboratory2._skepticism_prob := 1 # 2;
                 Laboratory2.cell := Some (1, 1) |})
    as (m' & p' & Hl & Hp' & _ & Hk & _ & Hq).
  - vm_compute. reflexivity.
  - exists m'. split; [exact Hl|]. split; [|apply Hq].
    unfold Laboratory2.knows_at. rewrite Hp'.
    etrans; [exact Hk|]. vm_compute. reflexivity.
Defined.

(** ** The grid guard *)

Section GridGuard.

Lemma not_grid_error_IndexError msg : not_grid_error (IndexError msg).
Proof. intros ?. discriminate. Qed.

Lemma hw_raises_only_random_random P : raises_only P Homework.random_random.
Proof. intros s e s' H. discriminate. Qed.

Lemma hw_raises_only_select_random_cell l :
  raises_only not_grid_error (Homework.select_random_cell l).
Proof.
  intros s e s'. unfold Homework.select_random_cell.
  destruct (Grid.choice _ _); [discriminate|].
  intros [= <- _]. apply not_grid_error_IndexError.
Qed.

Lemma hw_raises_only_check P self msg c :
  Homework.cell self = Some c ->
  raises_only P (Homework.check_grid_initialization self msg).
Proof.
  intros Hc s e s'. unfold Homework.check_grid_initialization. by rewrite Hc.
Qed.

Lemma hw_raises_only__get_infected P i d :
  raises_only P (Homework._get_infected i d).
Proof. intros s e s'. unfold Homework._get_infected, bind, modify. by destruct d. Qed.

Lemma hw_raises_only_on_agent P i method :
  (forall a, raises_only P (method a)) -> raises_only P (Homework.on_agent i method).
Proof.
  intros H s e s'. unfold Homework.on_agent.
  destruct (Homework.agents s !! i); [apply H|discriminate].
Qed.

Lemma hw_raises_only_infect_encountered P j :
  raises_only P (Homework.infect_encountered j).
Proof.
  apply hw_raises_only_on_agent. intros a.
  destruct (Homework.is_infected a); [apply raises_only_ret|].
  apply raises_only_bind; [apply hw_raises_only_random_random|intros u].
  destruct (Qltb _ _); [apply hw_raises_only__get_infected|apply raises_only_ret].
Qed.

Lemma l2_raises_only_select_random_cell l :
  raises_only not_grid_error (Laboratory2.select_random_cell l).
Proof.
  intros s e s'. unfold Laboratory2.select_random_cell.
  destruct (Grid.choice _ _); [discriminate|].
  intros [= <- _]. apply not_grid_error_IndexError.
Qed.

Lemma l2_raises_only_on_person P i method :
  (forall a, raises_only P (method a)) ->
  raises_only P (Laboratory2.on_person i method).
Proof.
  intros H s e s'. unfold Laboratory2.on_person.
  destruct (Laboratory2.agents s !! i) as [[p|f]|]; [apply H|discriminate..].
Qed.

Lemma l2_raises_only_learn_about_trend P i d :
  raises_only P (Laboratory2.learn_about_trend i d).
Proof.
  apply l2_raises_only_on_person. intros a s e s'.
  unfold bind, Laboratory2.update_person, modify, Laboratory2.random_random.
  destruct (Qltb _ _); [|discriminate]. by destruct d.
Qed.

Lemma l2_raises_only_gossip_to P g j :
  raises_only P (Laboratory2.gossip_to g j).
Proof.
  apply l2_raises_only_on_person. intros a.
  destruct (Laboratory2.knows_about_trend a); [apply raises_only_ret|].
  apply raises_only_bind.
  - destruct (Laboratory2.sport_enthusiast a); [apply raises_only_ret|].
    apply raises_only_bind; [|intros ?; apply raises_only_ret].
    intros s e s' H. discriminate.
  - intros [|]; [|apply raises_only_ret].
    apply raises_only_bind; [apply raises_only_modify|intros _].
    apply l2_raises_only_learn_about_trend.
Qed.

End GridGuard.

Section FirstTrendGuard.
Import Laboratory1.

Lemma l1_raises_only_on_person P i method :
  (forall a, raises_only P (method a)) ->
  raises_only P (on_person i method).
Proof.
  intros H s e s'. unfold on_person.
  destruct (agents s !! i) as [[p|f]|]; [apply H|discriminate..].
Qed.

Lemma l1_raises_only_random_random P : raises_only P random_random.
Proof. intros m e m' H. discriminate H. Qed.

Lemma l1_never_raises_learn_about_trend P i :
  raises_only P (learn_about_trend i).
Proof.
  apply l1_raises_only_on_person. intros a.
  apply raises_only_bind; [apply l1_raises_only_random_random|]. intros u.
  destruct (Qltb _ _); [apply raises_only_modify|apply raises_only_ret].
Qed.

Lemma l1_never_raises_gossip_to P g j : raises_only P (gossip_to g j).
Proof.
  apply l1_raises_only_on_person. intros a.
  destruct (knows_about_trend a); [apply raises_only_ret|].
  apply raises_only_bind.
  - destruct (sport_enthusiast a); [apply raises_only_ret|].
    apply raises_only_bind; [apply l1_raises_only_random_random|].
    intros ?. apply raises_only_ret.
  - intros [|]; [apply l1_never_raises_learn_about_trend
                |apply raises_only_ret].
Qed.

Lemma not_grid_error_TypeError msg : not_grid_error (TypeError msg).
Proof. intros ?. discriminate. Qed.

Lemma l1_raises_only_get_neighborhood g p :
  raises_only not_grid_error (get_neighborhood g p).
Proof.
  intros s e s'. unfold get_neighborhood.
  destruct p; [discriminate|]. intros [= <- _].
  apply not_grid_error_TypeError.
Qed.

Lemma l1_raises_only_get_cell_list_contents p :
  raises_only not_grid_error (get_cell_list_contents p).
Proof.
  intros s e s'. unfold get_cell_list_contents.
  destruct p; [discriminate|]. intros [= <- _].
  apply not_grid_error_TypeError.
Qed.

Lemma l1_raises_only_move_agent_to_one_of i l :
  raises_only not_grid_error (move_agent_to_one_of i l).
Proof.
  intros s e s'. unfold move_agent_to_one_of.
  destruct l as [|c l].
  - intros [= <- _] msg. discriminate.
  - destruct (Grid.choice _ _); [discriminate|].
    intros [= <- _]. apply not_grid_error_IndexError.
Qed.

(** The guard of the first trend model is on the grid reference of the
    agent, not on its position. *)
Lemma l1_grid_guard m i self :
  person_at m i = Some self ->
  (grid self = None ->
     move_around i m =
       Raise (grid_not_initialized "The agent cannot move around the grid.") m /\
     spread_news i m =
       Raise (grid_not_initialized "The agent cannot spread the news.") m) /\
  (grid self <> None ->
     no_grid_error (move_around i m) /\ no_grid_error (spread_news i m)) /\
  (grid self <> None -> pos self = None ->
     exists msg,
       move_around i m = Raise (TypeError msg) m /\
       spread_news i m =
         if knows_about_trend self then Raise (TypeError msg) m else Ok tt m).
Proof.
  intros Hp.
  assert (agents m !! i = Some (RegularPerson self)) as Hi.
  { unfold person_at in Hp. by destruct (agents m !! i) as [[q|f]|]; simplify_eq. }
  split; [|split].
  - intros Hg. unfold move_around, spread_news, on_person. rewrite Hi.
    unfold bind, check_grid_initialization, raise. by rewrite Hg.
  - intros Hg. destruct (grid self) as [g|] eqn:Eg; [clear Hg|done].
    assert (Hck : forall P msg, raises_only (S:=Model) P
                    (check_grid_initialization self msg)).
    { intros P msg s e s'. unfold check_grid_initialization. by rewrite Eg. }
    split.
    + unfold move_around, on_person. rewrite Hi.
      apply raises_only_no_grid_error.
      apply raises_only_bind; [apply Hck|intros g'].
      apply raises_only_bind; [apply l1_raises_only_get_neighborhood|].
      intros l. apply l1_raises_only_move_agent_to_one_of.
    + unfold spread_news, on_person. rewrite Hi.
      apply raises_only_no_grid_error.
      apply raises_only_bind; [apply Hck|intros g'].
      destruct (knows_about_trend self); [|apply raises_only_ret].
      apply raises_only_bind; [apply l1_raises_only_get_cell_list_contents|].
      intros l. apply raises_only_forM_. intros j.
      apply l1_never_raises_gossip_to.
  - intros Hg Hpos. destruct (grid self) as [g|] eqn:Eg; [clear Hg|done].
    eexists. unfold move_around, spread_news, on_person. rewrite Hi.
    unfold bind, check_grid_initialization, get_neighborhood,
      get_cell_list_contents, raise, ret.
    rewrite Eg, Hpos. split; [reflexivity|].
    by destruct (knows_about_trend self).
Qed.

End FirstTrendGuard.

(** C8, as the specification states it, fails for the first trend model,
    whose guard tests the grid reference of the agent and not its position.
    In [unplaced_first_trend_model] the person at index 3 holds the grid
    and has no position: its [move_around] and its [spread_news] raise a
    [TypeError], from Mesa's grid, which is not the "grid has not been
    initialized" error.  The person at index 4 has a position, (1, 1), and
    no grid: both methods raise the "grid has not been initialized"
    error. *)
Lemma C8_counterexample_first_trend_model_guards_the_grid :
  (Laboratory1.person_at Examples.unplaced_first_trend_model 3
     ≫= Laboratory1.pos) = None /\
  raised (Laboratory1.move_around 3 Examples.unplaced_first_trend_model)
  = Some (TypeError "cannot unpack non-iterable NoneType object") /\
  raised (Laboratory1.spread_news 3 Examples.unplaced_first_trend_model)
  = Some (TypeError "cannot unpack non-iterable NoneType object") /\
  (forall error_msg,
     TypeError "cannot unpack non-iterable NoneType object"
     <> grid_not_initialized error_msg) /\
  (Laboratory1.person_at Examples.unplaced_first_trend_model 4
     ≫= Laboratory1.pos) = Some (1, 1) /\
  raised (Laboratory1.move_around 4 Examples.unplaced_first_trend_model)
  = Some (grid_not_initialized "The agent cannot move around the grid.") /\
  raised (Laboratory1.spread_news 4 Examples.unplaced_first_trend_model)
  = Some (grid_not_initialized "The agent cannot spread the news.").
Proof.
  split; [vm_compute; reflexivity|]. split; [vm_compute; reflexivity|].
  split; [vm_compute; reflexivity|]. split; [intros msg; discriminate|].
  split; [vm_compute; reflexivity|]. split; vm_compute; reflexivity.
Qed.

(** C8, amended (the grid guard).  In the two models whose agents carry a
    cell reference, the disease model and the second trend model: called on
    an agent whose [cell] is [None], every spatial operation — the move,
    the spread, the passive acquisition and the two neighbourhood queries
    it relies on — raises the "grid has not been initialized" error at
    once, from the very state it was called on: nothing was mutated, no
    draw was made.  Called on an agent whose [cell] is set, none of them
    raises that error, whatever its message.  In the first trend model the
    guard tests the [grid] reference of the agent instead of its position:
    with [grid] unset the move and the spread raise the error from the
    unchanged state, with [grid] set they never raise it, and an unset
    position then makes the move, and the spread of an informed person,
    raise a [TypeError] from the unchanged state.  And the error is not
    caught on the way up: a loop whose body raises stops there with that
    exception and that state, and so does a sequence whose first call
    raises. *)
Theorem C8_unplaced_agent_raises_grid_error :
  (forall (m : Homework.Model) (i : nat) (self : Homework.PersonAgent),
     Homework.agents m !! i = Some self ->
     (Homework.cell self = None ->
        Homework.move_around i m =
          Raise (grid_not_initialized "The agent cannot move around the grid.") m /\
        Homework.spread_virus i m =
          Raise (grid_not_initialized "The agent cannot spread the virus.") m /\
        Homework.get_infected_from_cell i m =
          Raise (grid_not_initialized
                   "The agent cannot get infected from the cell.") m /\
        Homework._get_infection_probabilty self m =
          Raise (grid_not_initialized
                   "The agent cannot get infection probability") m /\
        Homework._in_neighbourhood_of_infection self m =
          Raise (grid_not_initialized
                   "The agent cannot check if neighbouring cells are infected") m) /\
     (Homework.cell self <> None ->
        no_grid_error (Homework.move_around i m) /\
        no_grid_error (Homework.spread_virus i m) /\
        no_grid_error (Homework.get_infected_from_cell i m) /\
        no_grid_error (Homework._get_infection_probabilty self m) /\
        no_grid_error (Homework._in_neighbourhood_of_infection self m))) /\
  (forall (m : Laboratory2.Model) (i : nat) (self : Laboratory2.PersonAgent),
     Laboratory2.person_at m i = Some self ->
     (Laboratory2.cell self = None ->
        Laboratory2.move_around i m =
          Raise (grid_not_initialized "The agent cannot move around the grid.") m /\
        Laboratory2.spread_news i m =
          Raise (grid_not_initialized "The agent cannot spread the news.") m) /\
     (Laboratory2.cell self <> None ->
        no_grid_error (Laboratory2.move_around i m) /\
        no_grid_error (Laboratory2.spread_news i m))) /\
  (forall (m : Laboratory1.Model) (i : nat) (self : Laboratory1.PersonAgent),
     Laboratory1.person_at m i = Some self ->
     (Laboratory1.grid self = None ->
        Laboratory1.move_around i m =
          Raise (grid_not_initialized "The agent cannot move around the grid.") m /\
        Laboratory1.spread_news i m =
          Raise (grid_not_initialized "The agent cannot spread the news.") m) /\
     (Laboratory1.grid self <> None ->
        no_grid_error (Laboratory1.move_around i m) /\
        no_grid_error (Laboratory1.spread_news i m)) /\
     (Laboratory1.grid self <> None -> Laboratory1.pos self = None ->
        exists msg,
          Laboratory1.move_around i m = Raise (TypeError msg) m /\
          Laboratory1.spread_news i m =
            if Laboratory1.knows_about_trend self
            then Raise (TypeError msg) m else Ok tt m)) /\
  (forall (S A B : Type) (c : M S A) (k : A -> M S B) s e s',
     c s = Raise e s' -> bind c k s = Raise e s') /\
  (forall (S A : Type) (body : A -> M S unit) l1 x l2 s s1 e s2,
     forM_ l1 body s = Ok tt s1 -> body x s1 = Raise e s2 ->
     forM_ (l1 ++ x :: l2) body s = Raise e s2).
Proof.
  split; [|split; [|split; [exact l1_grid_guard|split]]].
  - intros m i self Hi. split.
    + intros Hc.
      unfold Homework.move_around, Homework.spread_virus,
        Homework.get_infected_from_cell, Homework._get_infection_probabilty,
        Homework._in_neighbourhood_of_infection, Homework.on_agent.
      rewrite Hi. unfold bind, Homework.check_grid_initialization, raise.
      rewrite Hc. done.
    + intros Hc. destruct (Homework.cell self) as [c|] eqn:Ec; [clear Hc|done].
      assert (Hnb : forall m',
                no_grid_error (Homework._in_neighbourhood_of_infection self m')).
      { intros m' msg. unfold Homework._in_neighbourhood_of_infection,
          Homework.check_grid_initialization, bind, get, ret. by rewrite Ec. }
      assert (Hpr : raises_only not_grid_error
                      (Homework._get_infection_probabilty self)).
      { intros m' e s'. by rewrite (get_infection_probabilty_placed _ _ _ Ec). }
      split; [|split; [|split; [|split]]];
        [| | |by apply raises_only_no_grid_error|done].
      * unfold Homework.move_around, Homework.on_agent.
        rewrite Hi. apply raises_only_no_grid_error.
        change (raises_only not_grid_error
          (let* c := Homework.check_grid_initialization self
                       "The agent cannot move around the grid." in
           let* u := Homework.random_random in
           if Qltb u (Homework._moving_probability self)
           then let* m := get in
                let* target := Homework.select_random_cell
                                 (Homework.neighborhood m c) in
                Homework.move_to i target
           else ret tt)).
        apply raises_only_bind; [by eapply hw_raises_only_check|intros c'].
        apply raises_only_bind; [apply hw_raises_only_random_random|intros u].
        destruct (Qltb _ _); [|apply raises_only_ret].
        apply raises_only_bind; [apply raises_only_get|intros m'].
        apply raises_only_bind; [apply hw_raises_only_select_random_cell|intros t].
        apply raises_only_modify.
      * unfold Homework.spread_virus, Homework.on_agent.
        rewrite Hi. apply raises_only_no_grid_error.
        change (raises_only not_grid_error
          (let* c := Homework.check_grid_initialization self
                       "The agent cannot spread the virus." in
           if Homework.is_infected self
           then
             let* m := get in
             (if Homework.prop_is_infected (Homework.grid m !!! c) then ret tt
              else modify (Homework.set_grid
                     (<[c := Homework.contaminate (Homework.grid m !!! c)]>
                        (Homework.grid m)))) ;;
             let encountered_agents :=
               filter (fun ja => ja.1 ≠ i)
                      (Homework.cell_agents (Homework.agents m) c) in
             forM_ encountered_agents.*1 Homework.infect_encountered
           else ret tt)).
        apply raises_only_bind; [by eapply hw_raises_only_check|intros c'].
        destruct (Homework.is_infected self); [|apply raises_only_ret].
        apply raises_only_bind; [apply raises_only_get|intros m'].
        apply raises_only_bind.
        { destruct (Homework.prop_is_infected _);
            [apply raises_only_ret|apply raises_only_modify]. }
        intros _. apply raises_only_forM_. intros j.
        apply hw_raises_only_infect_encountered.
      * unfold Homework.get_infected_from_cell, Homework.on_agent.
        rewrite Hi. apply raises_only_no_grid_error.
        change (raises_only not_grid_error
          (Homework.check_grid_initialization self
             "The agent cannot get infected from the cell." ;;
           if Homework.is_infected self then ret tt
           else
             let* u := Homework.random_random in
             let* p := Homework._get_infection_probabilty self in
             if Qltb u p then Homework._get_infected i false else ret tt)).
        apply raises_only_bind; [by eapply hw_raises_only_check|intros c'].
        destruct (Homework.is_infected self); [apply raises_only_ret|].
        apply raises_only_bind; [apply hw_raises_only_random_random|intros u].
        apply raises_only_bind; [exact Hpr|intros p]. destruct (Qltb _ _);
          [apply hw_raises_only__get_infected|apply raises_only_ret].
  - intros m i self Hp. apply person_at_lookup in Hp. split.
    + intros Hc.
      unfold Laboratory2.move_around, Laboratory2.spread_news,
        Laboratory2.on_person.
      rewrite Hp. unfold bind, Laboratory2.check_grid_initialization, raise.
      rewrite Hc. done.
    + intros Hc. destruct (Laboratory2.cell self) as [c|] eqn:Ec; [clear Hc|done].
      assert (Hck : forall P msg, raises_only (S:=Laboratory2.Model) P
                      (Laboratory2.check_grid_initialization self msg)).
      { intros P msg s e s'. unfold Laboratory2.check_grid_initialization.
        by rewrite Ec. }
      split.
      * unfold Laboratory2.move_around, Laboratory2.on_person.
        rewrite Hp. apply raises_only_no_grid_error.
        change (raises_only not_grid_error
          (let* c := Laboratory2.check_grid_initialization self
                       "The agent cannot move around the grid." in
           let* m := get in
           let* target := Laboratory2.select_random_cell
                            (Laboratory2.neighborhood m c) in
           Laboratory2.move_to i target)).
        apply raises_only_bind; [apply Hck|intros c'].
        apply raises_only_bind; [apply raises_only_get|intros m'].
        apply raises_only_bind; [apply l2_raises_only_select_random_cell|intros t].
        apply raises_only_modify.
      * unfold Laboratory2.spread_news, Laboratory2.on_person.
        rewrite Hp. apply raises_only_no_grid_error.
        change (raises_only not_grid_error
          (let* c := Laboratory2.check_grid_initialization self
                       "The agent cannot spread the news." in
           if Laboratory2.knows_about_trend self
           then
             let* m := get in
             let encountered_agents :=
               filter (fun ip => ip.1 ≠ i)
                      (Laboratory2.cell_agents (Laboratory2.agents m) c) in
             forM_ encountered_agents.*1
                   (Laboratory2.gossip_to (Laboratory2._gossip_prob self))
           else ret tt)).
        apply raises_only_bind; [apply Hck|intros c'].
        destruct (Laboratory2.knows_about_trend self); [|apply raises_only_ret].
        apply raises_only_bind; [apply raises_only_get|intros m'].
        apply raises_only_forM_. intros j. apply l2_raises_only_gossip_to.
  - intros. by apply bind_Raise.
  - intros. by eapply forM__raise.
Qed.

(** ** Moving on the grid *)

Section Moving.

Lemma choice_elem {A} (l : list A) u t : Grid.choice l u = Some t -> t ∈ l.
Proof. unfold Grid.choice. intros H. by eapply list_elem_of_lookup_2. Qed.

Lemma choice_nonempty {A} (l : list A) u :
  l <> [] -> exists t, Grid.choice l u = Some t.
Proof.
  intros Hl. unfold Grid.choice, randbelow.
  apply lookup_lt_is_Some_2.
  assert (0 < Z.of_nat (length l)) by (destruct l; [done|simpl; lia]).
  pose proof (Z.mod_pos_bound (Qfloor (u * inject_Z (Z.of_nat (length l))))
                (Z.of_nat (length l)) H).
  lia.
Qed.



Lemma neighborhood_adjacent w h c t :
  t ∈ Grid.neighborhood w h c -> Grid.adjacent w h c t.
Proof.
  unfold Grid.neighborhood, Grid.adjacent.
  rewrite list_elem_of_filter, elem_of_remove_dups. tauto.
Qed.

Lemma remove_dups_NoDup `{EqDecision A} (l : list A) :
  NoDup l -> remove_dups l = l.
Proof.
  induction 1 as [|x l Hx Hl IH]; [done|]. cbn [remove_dups].
  destruct (decide_rel elem_of x l); [done|]. by rewrite IH.
Qed.

Lemma filter_Forall_id {A} (P : A -> Prop) `{!forall x, Decision (P x)}
    (l : list A) :
  Forall P l -> filter P l = l.
Proof.
  induction 1 as [|x l Hx Hl IH]; [done|].
  rewrite filter_cons_True by done. by rewrite IH.
Qed.

Lemma neighborhood_four w h c :
  3 <= w -> 3 <= h -> Grid.in_grid w h c ->
  Grid.neighborhood w h c = Grid.connections w h c /\
  NoDup (Grid.connections w h c).
Proof.
  intros Hw Hh [Hx Hy]. destruct c as [x y]. simpl in *.
  assert (Hxm : (x - 1) mod w <> x).
  { destruct (decide (x = 0)) as [->|].
    - rewrite <- (Z_mod_plus_full _ 1). rewrite Z.mod_small; lia.
    - rewrite Z.mod_small; lia. }
  assert (Hxp : (x + 1) mod w <> x).
  { destruct (decide (x = w - 1)) as [->|].
    - replace (w - 1 + 1) with (0 + 1 * w) by lia.
      rewrite Z_mod_plus_full, Z.mod_small; lia.
    - rewrite Z.mod_small; lia. }
  assert (Hxd : (x - 1) mod w <> (x + 1) mod w).
  { destruct (decide (x = 0)) as [->|]; [|destruct (decide (x = w - 1)) as [->|]].
    - rewrite <- (Z_mod_plus_full (0 - 1) 1). rewrite !Z.mod_small; lia.
    - replace (w - 1 + 1) with (0 + 1 * w) by lia.
      rewrite Z_mod_plus_full, !Z.mod_small; lia.
    - rewrite !Z.mod_small; lia. }
  assert (Hym : (y - 1) mod h <> y).
  { destruct (decide (y = 0)) as [->|].
    - rewrite <- (Z_mod_plus_full _ 1). rewrite Z.mod_small; lia.
    - rewrite Z.mod_small; lia. }
  assert (Hyp : (y + 1) mod h <> y).
  { destruct (decide (y = h - 1)) as [->|].
    - replace (h - 1 + 1) with (0 + 1 * h) by lia.
      rewrite Z_mod_plus_full, Z.mod_small; lia.
    - rewrite Z.mod_small; lia. }
  assert (Hyd : (y - 1) mod h <> (y + 1) mod h).
  { destruct (decide (y = 0)) as [->|]; [|destruct (decide (y = h - 1)) as [->|]].
    - rewrite <- (Z_mod_plus_full (0 - 1) 1). rewrite !Z.mod_small; lia.
    - replace (h - 1 + 1) with (0 + 1 * h) by lia.
      rewrite Z_mod_plus_full, !Z.mod_small; lia.
    - rewrite !Z.mod_small; lia. }
  assert (Hnd : NoDup (Grid.connections w h (x, y))).
  { unfold Grid.connections. simpl.
    repeat (apply NoDup_cons; split);
      rewrite ?elem_of_cons, ?elem_of_nil; try apply NoDup_nil_2;
      intros H; repeat destruct H as [H|H]; try done; congruence. }
  split; [|done].
  unfold Grid.neighborhood. rewrite (remove_dups_NoDup _ Hnd).
  apply filter_Forall_id. unfold Grid.connections. simpl.
  repeat (apply Forall_cons; split); try apply Forall_nil_2; congruence.
Qed.

End Moving.

Section MoveEquations.

Lemma hw_move_around_eq m i self c :
  Homework.agents m !! i = Some self -> Homework.cell self = Some c ->
  Homework.move_around i m =
  if Qltb (peek (Homework.random m)) (Homework._moving_probability self)
  then
    match Grid.choice (Homework.neighborhood m c)
                      (peek (advance (Homework.random m))) with
    | Some t =>
        Ok tt (Homework.set_agents
                 (alter (Homework.set_agent_cell t) i (Homework.agents m))
                 (Homework.set_random (advance (advance (Homework.random m))) m))
    | None =>
        Raise (IndexError "Cannot choose from an empty sequence")
              (Homework.set_random (advance (Homework.random m)) m)
    end
  else Ok tt (Homework.set_random (advance (Homework.random m)) m).
Proof.
  intros Hi Hc. unfold Homework.move_around, Homework.on_agent. rewrite Hi.
  unfold bind at 1. unfold Homework.check_grid_initialization. rewrite Hc.
  unfold ret at 1. unfold bind at 1. unfold Homework.random_random at 1.
  destruct (Qltb _ _); [|done].
  unfold bind, get, Homework.select_random_cell. simpl.
  change (Homework.neighborhood (Homework.set_random _ m) c)
    with (Homework.neighborhood m c).
  by destruct (Grid.choice _ _).
Qed.


Lemma l2_move_around_eq m i self c :
  Laboratory2.person_at m i = Some self -> Laboratory2.cell self = Some c ->
  Laboratory2.move_around i m =
  match Grid.choice (Laboratory2.neighborhood m c)
                    (peek (Laboratory2.random m)) with
  | Some t =>
      Ok tt (Laboratory2.set_agents
               (alter (Laboratory2.alter_person (Laboratory2.set_person_cell t))
                      i (Laboratory2.agents m))
               (Laboratory2.set_random (advance (Laboratory2.random m)) m))
  | None => Raise (IndexError "Cannot choose from an empty sequence") m
  end.
Proof.
  intros Hi Hc. apply person_at_lookup in Hi.
  unfold Laboratory2.move_around, Laboratory2.on_person. rewrite Hi.
  unfold bind at 1. unfold Laboratory2.check_grid_initialization. rewrite Hc.
  unfold ret at 1. unfold bind, get, Laboratory2.select_random_cell.
  by destruct (Grid.choice _ _).
Qed.

Lemma l1_person_at_lookup m i p :
  Laboratory1.person_at m i = Some p <->
  Laboratory1.agents m !! i = Some (Laboratory1.RegularPerson p).
Proof.
  unfold Laboratory1.person_at.
  destruct (Laboratory1.agents m !! i) as [[q|f]|]; split; congruence.
Qed.

Lemma l1_move_around_eq m i self g c :
  Laboratory1.person_at m i = Some self ->
  Laboratory1.grid self = Some g -> Laboratory1.pos self = Some c ->
  Grid.neighborhood (Laboratory1.width g) (Laboratory1.height g) c <> [] ->
  Laboratory1.move_around i m =
  match Grid.choice
          (Grid.neighborhood (Laboratory1.width g) (Laboratory1.height g) c)
          (peek (Laboratory1.random m)) with
  | Some t =>
      Ok tt (Laboratory1.set_agents
               (alter (Laboratory1.alter_person (Laboratory1.set_person_pos t))
                      i (Laboratory1.agents m))
               (Laboratory1.set_random (advance (Laboratory1.random m)) m))
  | None => Raise (IndexError "Cannot choose from an empty sequence") m
  end.
Proof.
  intros Hi Hg Hc Hne. apply l1_person_at_lookup in Hi.
  unfold Laboratory1.move_around, Laboratory1.on_person. rewrite Hi.
  unfold bind at 1. unfold Laboratory1.check_grid_initialization. rewrite Hg.
  unfold ret at 1. unfold bind at 1. unfold Laboratory1.get_neighborhood.
  rewrite Hc. unfold ret at 1. unfold Laboratory1.move_agent_to_one_of.
  destruct (Grid.neighborhood _ _ c) as [|d l] eqn:E; [done|].
  by destruct (Grid.choice _ _).
Qed.

End MoveEquations.




(** ** Direct transmission *)

Section Transmit.



Lemma l2_elem_of_persons ags j p :
  (j, p) ∈ Laboratory2.persons ags <->
  ags !! j = Some (Laboratory2.RegularPerson p).
Proof.
  unfold Laboratory2.persons. rewrite list_elem_of_omap. split.
  - intros ([k a] & Hin & Hm). apply elem_of_lookup_imap in Hin
      as (k' & y & [= -> ->] & Hk). simpl in Hm.
    destruct y as [q|f]; [|done]. by injection Hm as -> ->.
  - intros Hj. exists (j, Laboratory2.RegularPerson p). split; [|done].
    apply elem_of_lookup_imap. by exists j, (Laboratory2.RegularPerson p).
Qed.


Lemma hw_spread_virus_eq m i self c :
  Homework.agents m !! i = Some self -> Homework.cell self = Some c ->
  Homework.spread_virus i m =
  if Homework.is_infected self
  then
    forM_ (filter (fun ja : nat * Homework.PersonAgent => ja.1 ≠ i)
                  (Homework.cell_agents (Homework.agents m) c)).*1
          Homework.infect_encountered
          (if Homework.prop_is_infected (Homework.grid m !!! c) then m
           else Homework.set_grid
                  (<[c := Homework.contaminate (Homework.grid m !!! c)]>
                     (Homework.grid m)) m)
  else Ok tt m.
Proof.
  intros Hi Hc. unfold Homework.spread_virus, Homework.on_agent. rewrite Hi.
  unfold bind at 1. unfold Homework.check_grid_initialization. rewrite Hc.
  unfold ret at 1. destruct (Homework.is_infected self); [|done].
  unfold bind at 1. unfold get at 1. unfold bind at 1.
  by destruct (Homework.prop_is_infected _).
Qed.

Lemma hw_infect_encountered_eq m j a :
  Homework.agents m !! j = Some a ->
  Homework.infect_encountered j m =
  if Homework.is_infected a then Ok tt m
  else
    let m1 := Homework.set_random (advance (Homework.random m)) m in
    if Qltb (peek (Homework.random m))
            (if Homework.has_comorbidities a then (3 # 4)%Q else (1 # 2)%Q)
    then Ok tt (Homework.set_direct_infections (Homework.direct_infections m + 1)
                  (Homework.set_agents
                     (alter Homework.set_agent_infected j (Homework.agents m))
                     m1))
    else Ok tt m1.
Proof.
  intros Ha. unfold Homework.infect_encountered, Homework.on_agent. rewrite Ha.
  destruct (Homework.is_infected a); [done|].
  unfold bind at 1. unfold Homework.random_random at 1. cbv zeta.
  by destruct (Qltb _ _).
Qed.

Lemma l2_spread_news_eq m i self c :
  Laboratory2.person_at m i = Some self -> Laboratory2.cell self = Some c ->
  Laboratory2.spread_news i m =
  if Laboratory2.knows_about_trend self
  then
    forM_ (filter (fun ip : nat * Laboratory2.PersonAgent => ip.1 ≠ i)
                  (Laboratory2.cell_agents (Laboratory2.agents m) c)).*1
          (Laboratory2.gossip_to (Laboratory2._gossip_prob self)) m
  else Ok tt m.
Proof.
  intros Hi Hc. apply person_at_lookup in Hi.
  unfold Laboratory2.spread_news, Laboratory2.on_person. rewrite Hi.
  unfold bind at 1. unfold Laboratory2.check_grid_initialization. rewrite Hc.
  unfold ret at 1. by destruct (Laboratory2.knows_about_trend self).
Qed.

Lemma l2_gossip_to_eq g m j p :
  Laboratory2.person_at m j = Some p ->
  Laboratory2.gossip_to g j m =
  if Laboratory2.knows_about_trend p then Ok tt m
  else if Laboratory2.sport_enthusiast p
  then Laboratory2.learn_about_trend j true
         (Laboratory2.set_direct_interactions_count
            (Laboratory2.direct_interactions_count m + 1) m)
  else
    let m1 := Laboratory2.set_random (advance (Laboratory2.random m)) m in
    if Qltb (peek (Laboratory2.random m)) g
    then Laboratory2.learn_about_trend j true
           (Laboratory2.set_direct_interactions_count
              (Laboratory2.direct_interactions_count m + 1) m1)
    else Ok tt m1.
Proof.
  intros Hp. apply person_at_lookup in Hp.
  unfold Laboratory2.gossip_to, Laboratory2.on_person. rewrite Hp.
  destruct (Laboratory2.knows_about_trend p); [done|].
  destruct (Laboratory2.sport_enthusiast p).
  - done.
  - unfold bind at 1. unfold bind at 1.
    unfold Laboratory2.random_random at 1. unfold ret at 1. cbv zeta.
    by destruct (Qltb _ _).
Qed.

End Transmit.




(** ** Construction *)

Section Construction.

#[local] Instance hw_same_buckets_preorder : PreOrder Homework.same_buckets.
Proof.
  split; [done|]. intros a b c Hab Hbc. unfold Homework.same_buckets in *.
  congruence.
Qed.

#[local] Instance l2_same_buckets_preorder : PreOrder Laboratory2.same_buckets.
Proof.
  split; [done|]. intros a b c [??] [??]. split; congruence.
Qed.

#[local] Instance l1_same_buckets_preorder : PreOrder Laboratory1.same_buckets.
Proof.
  split; [done|]. intros a b c [??] [??]. split; congruence.
Qed.

Lemma fmap_alter_same {A B} (f : A -> B) (g : A -> A) (l : list A) i :
  (forall x, f (g x) = f x) -> f <$> alter g i l = f <$> l.
Proof.
  intros H. rewrite (list_fmap_alter f g id).
  - apply list_alter_id. done.
  - apply Forall_forall. intros x _. apply H.
Qed.

Lemma hw_respects_place_agents_on_grid :
  respects Homework.same_buckets Homework.place_agents_on_grid.
Proof.
  unfold Homework.place_agents_on_grid.
  apply respects_bind; [apply _|apply respects_get; apply _|intros m].
  assert (Hint : forall hi n, respects Homework.same_buckets
                                (Homework.rng_integers hi n)).
  { intros hi n s. unfold Homework.rng_integers.
    destruct (hi <=? 0); [done|]. destruct (n <? 0); [done|].
    by destruct (integers _ _ _). }
  apply respects_bind; [apply _|apply Hint|intros xs].
  apply respects_bind; [apply _|apply Hint|intros ys].
  apply respects_forM_; [apply _|]. intros [i c].
  apply respects_modify. intros s. unfold Homework.same_buckets. simpl.
  by apply fmap_alter_same.
Qed.

Lemma hw_init_buckets pop inf com p w h random rng m :
  Homework.__init__ pop inf com p w h random rng = Ok tt m ->
  Homework.bucket <$> Homework.agents m =
  replicate (Z.to_nat inf) (true, false)
  ++ replicate (Z.to_nat com) (false, true)
  ++ replicate (Z.to_nat (pop - inf - com)) (false, false).
Proof.
  unfold Homework.__init__.
  destruct ((0 <? w) && (0 <? h)); [|discriminate].
  unfold bind at 1. unfold ret at 1.
  unfold bind at 1. unfold Homework.generate_person_agents.
  unfold bind at 1. unfold get at 1.
  unfold bind at 1. unfold Homework.create_agents at 1. unfold modify at 1.
  unfold bind at 1. unfold Homework.create_agents at 1. unfold modify at 1.
  unfold bind at 1. unfold Homework.create_agents at 1. unfold modify at 1.
  match goal with
  | |- context [Homework.place_agents_on_grid ?m3] =>
      pose proof (hw_respects_place_agents_on_grid m3) as Hpl;
      assert (Hm3 : Homework.bucket <$> Homework.agents m3 =
                replicate (Z.to_nat inf) (true, false)
                ++ replicate (Z.to_nat com) (false, true)
                ++ replicate (Z.to_nat (pop - inf - com)) (false, false));
      [|destruct (Homework.place_agents_on_grid m3) as [[] s|] eqn:E;
        [|discriminate]]
  end.
  { simpl. rewrite !fmap_app, <- !list_fmap_compose, <- app_assoc. simpl.
    f_equal; [|f_equal];
      (erewrite const_fmap; [by rewrite length_seq|done]). }
  intros [= <-]. simpl. simpl in Hpl. unfold Homework.same_buckets in Hpl.
  by rewrite Hpl.
Qed.

Lemma l2_respects_place_agents_on_grid :
  respects Laboratory2.same_buckets Laboratory2.place_agents_on_grid.
Proof.
  unfold Laboratory2.place_agents_on_grid.
  apply respects_bind; [apply _|apply respects_get; apply _|intros m].
  assert (Hint : forall hi n, respects Laboratory2.same_buckets
                                (Laboratory2.rng_integers hi n)).
  { intros hi n s. unfold Laboratory2.rng_integers.
    destruct (hi <=? 0); [done|]. destruct (n <? 0); [done|].
    by destruct (integers _ _ _). }
  apply respects_bind; [apply _|apply Hint|intros xs].
  apply respects_bind; [apply _|apply Hint|intros ys].
  apply respects_forM_; [apply _|]. intros [i c].
  apply respects_modify. intros s. split; [done|]. simpl.
  apply fmap_alter_same. by intros [q|f].
Qed.

Lemma l2_init_buckets pop g sf w h random rng m :
  Laboratory2.__init__ pop g sf w h random rng = Ok tt m ->
  let s := 1 + randbelow (pop - 1 + 1) (peek random) in
  1 <= s <= pop /\
  Laboratory2.bucket <$> Laboratory2.agents m =
  replicate (Z.to_nat s) (Some (true, false))
  ++ replicate (Z.to_nat (pop - s)) (Some (false, false))
  ++ [Some (true, true)]
  ++ replicate (Z.to_nat g) None.
Proof.
  unfold Laboratory2.__init__.
  destruct ((0 <? w) && (0 <? h)); [|discriminate].
  unfold bind at 1. unfold ret at 1.
  unfold bind at 1. unfold Laboratory2.generate_person_agents.
  unfold bind at 1. unfold get at 1.
  unfold bind at 1. unfold Laboratory2.random_randint at 1. cbn [Laboratory2.population_size].
  destruct (pop <? 1) eqn:Epop; [discriminate|].
  apply Z.ltb_ge in Epop.
  unfold bind at 1. unfold Laboratory2.create_agents at 1. unfold modify at 1.
  unfold bind at 1. unfold Laboratory2.create_agents at 1. unfold modify at 1.
  unfold bind at 1. unfold Laboratory2.create_agents at 1. unfold modify at 1.
  unfold bind at 1. unfold modify at 1.
  match goal with
  | |- context [Laboratory2.place_agents_on_grid ?m3] =>
      pose proof (l2_respects_place_agents_on_grid m3) as Hpl;
      assert (Hm3 : Laboratory2.bucket <$> Laboratory2.agents m3 =
                replicate (Z.to_nat (1 + randbelow (pop - 1 + 1) (peek random)))
                          (Some (true, false))
                ++ replicate
                     (Z.to_nat (pop - (1 + randbelow (pop - 1 + 1) (peek random))))
                     (Some (false, false))
                ++ [Some (true, true)]);
      [|set (M3 := m3) in *;
        destruct (Laboratory2.place_agents_on_grid M3) as [[] s0|] eqn:E;
        [|discriminate]]
  end.
  { simpl. rewrite !fmap_app, <- !list_fmap_compose, <- app_assoc. simpl.
    f_equal; [|f_equal];
      (erewrite const_fmap; [by rewrite length_seq|done]). }
  unfold Laboratory2.generate_influencer_agents, Laboratory2.create_influencers.
  unfold bind, get, modify. intros [= <-]. cbv zeta. split.
  - unfold randbelow.
    pose proof (Z.mod_pos_bound
                  (Qfloor (peek random * inject_Z (pop - 1 + 1))) (pop - 1 + 1)).
    lia.
  - destruct Hpl as [Hg Hpl]. cbn [state_of] in Hpl, Hg.
    cbn [Laboratory2.agents Laboratory2.set_agents].
    rewrite fmap_app, Hpl, Hm3, <- !app_assoc, <- list_fmap_compose.
    do 3 f_equal. rewrite Hg.
    erewrite const_fmap; [by rewrite length_seq|done].
Qed.

Lemma l1_respects_place_agents_on_grid :
  respects Laboratory1.same_buckets Laboratory1.place_agents_on_grid.
Proof.
  unfold Laboratory1.place_agents_on_grid.
  apply respects_bind; [apply _|apply respects_get; apply _|intros m].
  assert (Hint : forall hi n, respects Laboratory1.same_buckets
                                (Laboratory1.rng_integers hi n)).
  { intros hi n s. unfold Laboratory1.rng_integers.
    destruct (hi <=? 0); [done|]. destruct (n <? 0); [done|].
    by destruct (integers _ _ _). }
  apply respects_bind; [apply _|apply Hint|intros xs].
  apply respects_bind; [apply _|apply Hint|intros ys].
  apply respects_forM_; [apply _|]. intros [i c].
  apply respects_modify. intros s. split; [done|]. simpl.
  apply fmap_alter_same. by intros [q|f].
Qed.

Lemma l1_init_buckets pop g w h random rng m :
  Laboratory1.__init__ pop g w h random rng = Ok tt m ->
  let s := 1 + randbelow (pop - 1 + 1) (peek random) in
  1 <= s <= pop /\
  Laboratory1.bucket <$> Laboratory1.agents m =
  replicate (Z.to_nat s) (Some (true, false))
  ++ replicate (Z.to_nat (pop - s)) (Some (false, false))
  ++ [Some (true, true)]
  ++ replicate (Z.to_nat g) None.
Proof.
  unfold Laboratory1.__init__.
    unfold bind at 1. unfold Laboratory1.generate_person_agents.
  unfold bind at 1. unfold get at 1.
  unfold bind at 1. unfold Laboratory1.random_randint at 1. cbn [Laboratory1.population_size].
  destruct (pop <? 1) eqn:Epop; [discriminate|].
  apply Z.ltb_ge in Epop.
  unfold bind at 1. unfold Laboratory1.create_agents at 1. unfold modify at 1.
  unfold bind at 1. unfold Laboratory1.create_agents at 1. unfold modify at 1.
  unfold bind at 1. unfold Laboratory1.create_agents at 1. unfold modify at 1.
  unfold bind at 1. unfold modify at 1.
  match goal with
  | |- context [Laboratory1.place_agents_on_grid ?m3] =>
      pose proof (l1_respects_place_agents_on_grid m3) as Hpl;
      assert (Hm3 : Laboratory1.bucket <$> Laboratory1.agents m3 =
                replicate (Z.to_nat (1 + randbelow (pop - 1 + 1) (peek random)))
                          (Some (true, false))
                ++ replicate
                     (Z.to_nat (pop - (1 + randbelow (pop - 1 + 1) (peek random))))
                     (Some (false, false))
                ++ [Some (true, true)]);
      [|set (M3 := m3) in *;
        destruct (Laboratory1.place_agents_on_grid M3) as [[] s0|] eqn:E;
        [|discriminate]]
  end.
  { simpl. rewrite !fmap_app, <- !list_fmap_compose, <- app_assoc. simpl.
    f_equal; [|f_equal];
      (erewrite const_fmap; [by rewrite length_seq|done]). }
  unfold Laboratory1.generate_influencer_agents, Laboratory1.create_influencers.
  unfold bind, get, modify. intros [= <-]. cbv zeta. split.
  - unfold randbelow.
    pose proof (Z.mod_pos_bound
                  (Qfloor (peek random * inject_Z (pop - 1 + 1))) (pop - 1 + 1)).
    lia.
  - destruct Hpl as [Hg Hpl]. cbn [state_of] in Hpl, Hg.
    cbn [Laboratory1.agents Laboratory1.set_agents].
    rewrite fmap_app, Hpl, Hm3, <- !app_assoc, <- list_fmap_compose.
    do 3 f_equal. rewrite Hg.
    erewrite const_fmap; [by rewrite length_seq|done].
Qed.

End Construction.

(** C9, as the specification states it, fails for the trend models: the
    sizes of the trait buckets are not fixed by the size parameters.  Two
    constructions with the same [population_size = 5], one influencer and a
    10 x 10 grid, whose generators differ only in what they draw, register
    one uninformed sport enthusiast and four other persons in the first
    case, five uninformed sport enthusiasts and no other person in the
    second. *)
Lemma C9_counterexample_bucket_sizes_are_drawn :
  Laboratory2.bucket <$>
    Laboratory2.agents
      (state_of (Laboratory2.__init__ 5 1 3 10 10
                   (Examples.constant_tape 0) (Examples.constant_tape (1 # 2))))
  = [Some (true, false); Some (false, false); Some (false, false);
     Some (false, false); Some (false, false); Some (true, true); None] /\
  Laboratory2.bucket <$>
    Laboratory2.agents
      (state_of (Laboratory2.__init__ 5 1 3 10 10
                   (Examples.constant_tape (9 # 10))
                   (Examples.constant_tape (1 # 2))))
  = [Some (true, false); Some (true, false); Some (true, false);
     Some (true, false); Some (true, false); Some (true, true); None].
Proof. split; vm_compute; reflexivity. Qed.

(** C9, amended.  A constructor that returns has registered, in this
    order:
    - disease model: [infected_population_size] infected agents, then
      [comorbidities_population_size] healthy agents with comorbidities,
      then [population_size] minus both plain healthy agents (none when
      that number is negative), whatever the generators draw;
    - trend models: [s] uninformed sport enthusiasts, [population_size - s]
      uninformed other persons, one informed sport enthusiast and
      [influencer_group_size] influencers, where [s], between 1 and
      [population_size], is read off the first draw of the model's
      generator.
    After that no operation, and no number of ticks, adds, removes or
    reorders agents or changes their identifiers and traits. *)
Theorem C9_population_fixed_after_construction :
  (forall pop inf com p w h random rng m,
     Homework.__init__ pop inf com p w h random rng = Ok tt m ->
     Homework.bucket <$> Homework.agents m =
     replicate (Z.to_nat inf) (true, false)
     ++ replicate (Z.to_nat com) (false, true)
     ++ replicate (Z.to_nat (pop - inf - com)) (false, false)) /\
  (forall pop g sf w h random rng m,
     Laboratory2.__init__ pop g sf w h random rng = Ok tt m ->
     let s := 1 + randbelow (pop - 1 + 1) (peek random) in
     1 <= s <= pop /\
     Laboratory2.bucket <$> Laboratory2.agents m =
     replicate (Z.to_nat s) (Some (true, false))
     ++ replicate (Z.to_nat (pop - s)) (Some (false, false))
     ++ [Some (true, true)]
     ++ replicate (Z.to_nat g) None) /\
  (forall pop g w h random rng m,
     Laboratory1.__init__ pop g w h random rng = Ok tt m ->
     let s := 1 + randbelow (pop - 1 + 1) (peek random) in
     1 <= s <= pop /\
     Laboratory1.bucket <$> Laboratory1.agents m =
     replicate (Z.to_nat s) (Some (true, false))
     ++ replicate (Z.to_nat (pop - s)) (Some (false, false))
     ++ [Some (true, true)]
     ++ replicate (Z.to_nat g) None) /\
  (forall o m,
     Homework.population_evolves m (state_of (Homework.call o m)) /\
     length (Homework.agents (state_of (Homework.call o m))) =
     length (Homework.agents m)) /\
  (forall o m,
     Laboratory2.population_evolves m (state_of (Laboratory2.call o m)) /\
     length (Laboratory2.agents (state_of (Laboratory2.call o m))) =
     length (Laboratory2.agents m)) /\
  (forall o m,
     Laboratory1.population_evolves m (state_of (Laboratory1.call o m)) /\
     length (Laboratory1.agents (state_of (Laboratory1.call o m))) =
     length (Laboratory1.agents m)).
Proof.
  split; [|split; [|split; [|split; [|split]]]].
  - apply hw_init_buckets.
  - apply l2_init_buckets.
  - apply l1_init_buckets.
  - intros o m. pose proof (respects_population_call o m) as H.
    split; [done|]. symmetry. by eapply Forall2_length.
  - intros o m. pose proof (l2_respects_population_call o m) as H.
    split; [done|]. symmetry. by eapply Forall2_length.
  - intros o m. pose proof (l1_respects_population_call o m) as H.
    split; [done|]. symmetry. by eapply Forall2_length.
Qed.

Lemma C9_witness_disease_buckets :
  Homework.bucket <$> Homework.agents Examples.disease_model
  = [(true, false); (false, true)].
Proof.
  refine (proj1 C9_population_fixed_after_construction 2 1 1 (1 # 2)%Q 3 3
            (Examples.constant_tape (9 # 10)) (Examples.constant_tape (1 # 2))
            Examples.disease_model _).
  vm_compute. reflexivity.
Defined.

Lemma C1_witness_infected_agent_after_a_tick :
  Homework.infected_at
    (state_of (Homework.call Homework.Step Examples.disease_model)) 0 = true.
Proof.
  apply (proj1 C1_informed_flag_never_reverts Homework.Step
           Examples.disease_model 0%nat).
  vm_compute. reflexivity.
Defined.

Lemma C2_witness_all_infected_model_stops :
  Homework.step Examples.all_infected_model =
  Ok tt (Homework.set_running false Examples.all_infected_model).
Proof.
  apply (proj1 (proj1 C2_stop_condition_guards_every_tick
                  Examples.all_infected_model)).
  vm_compute. reflexivity.
Defined.

Lemma C8_witness_misconfigured_model :
  Homework.move_around 1 Examples.misconfigured_model =
    Raise (grid_not_initialized "The agent cannot move around the grid.")
          Examples.misconfigured_model /\
  raised (Homework.step Examples.misconfigured_model) =
    Some (grid_not_initialized "The agent cannot move around the grid.").
Proof.
  split.
  - refine (proj1 (proj1 (proj1 C8_unplaced_agent_raises_grid_error
                            Examples.misconfigured_model 1%nat
                            {| Homework.unique_id := 2;
                               Homework._is_infected := false;
                               Homework._has_comorbidities := true;
                               Homework._moving_probability := 1 # 2;
                               Homework.cell := None |} _) _)).
    + vm_compute. reflexivity.
    + reflexivity.
  - vm_compute. reflexivity.
Defined.

(** * Calls that return, and calls from selected states *)

Section Returning.
Context {S : Type}.

Lemma returns_ret {A} (P : S -> Prop) (a : A) (Q : A -> S -> Prop) :
  (forall s, P s -> Q a s) -> returns P (ret a) Q.
Proof. intros H s Hs. exists a, s. split; [done|auto]. Qed.

Lemma returns_get (P : S -> Prop) (Q : S -> S -> Prop) :
  (forall s, P s -> Q s s) -> returns P get Q.
Proof. intros H s Hs. exists s, s. split; [done|auto]. Qed.

Lemma returns_modify (P : S -> Prop) (f : S -> S) (Q : unit -> S -> Prop) :
  (forall s, P s -> Q tt (f s)) -> returns P (modify f) Q.
Proof. intros H s Hs. exists tt, (f s). split; [done|auto]. Qed.

Lemma returns_bind {A B} (P : S -> Prop) (c : M S A) (Qc : A -> S -> Prop)
    (k : A -> M S B) (Q : B -> S -> Prop) :
  returns P c Qc -> (forall a, returns (Qc a) (k a) Q) -> returns P (bind c k) Q.
Proof.
  intros Hc Hk s Hs. destruct (Hc s Hs) as (a & s' & Hcs & Ha).
  unfold bind. rewrite Hcs. apply (Hk a s' Ha).
Qed.

Lemma returns_weaken {A} (P P' : S -> Prop) (c : M S A) (Q Q' : A -> S -> Prop) :
  returns P c Q -> (forall s, P' s -> P s) -> (forall a s, Q a s -> Q' a s) ->
  returns P' c Q'.
Proof.
  intros Hc HP HQ s Hs. destruct (Hc s (HP s Hs)) as (a & s' & ? & ?).
  exists a, s'. auto.
Qed.

Lemma returns_forM_ {A} (I : S -> Prop) (l : list A) (body : A -> M S unit) :
  (forall x, x ∈ l -> returns I (body x) (fun _ => I)) ->
  returns I (forM_ l body) (fun _ => I).
Proof.
  induction l as [|x l IH]; intros Hb.
  - apply returns_ret. auto.
  - simpl. eapply returns_bind.
    + apply Hb. left.
    + intros ?. simpl. apply IH. intros y Hy. apply Hb. by right.
Qed.

Lemma returns_unit (P : S -> Prop) (c : M S unit) (Q : unit -> S -> Prop) s :
  returns P c Q -> P s -> exists s', c s = Ok tt s' /\ Q tt s'.
Proof. intros Hc Hs. destruct (Hc s Hs) as ([] & s' & ? & ?). eauto. Qed.

Lemma bind_Ok_inv {A B} (c : M S A) (k : A -> M S B) s b s'' :
  bind c k s = Ok b s'' -> exists a s', c s = Ok a s' /\ k a s' = Ok b s''.
Proof.
  unfold bind. destruct (c s) as [a s'|e s']; [|done]. intros H. by exists a, s'.
Qed.

Lemma keeps_ret {A} (I : S -> Prop) (a : A) : keeps I (ret a).
Proof. intros s Hs. done. Qed.

Lemma keeps_raise {A} (I : S -> Prop) e : keeps I (raise (A:=A) e).
Proof. intros s Hs. done. Qed.

Lemma keeps_get (I : S -> Prop) : keeps I get.
Proof. intros s Hs. done. Qed.

Lemma keeps_modify (I : S -> Prop) (f : S -> S) :
  (forall s, I s -> I (f s)) -> keeps I (modify f).
Proof. intros H s Hs. by apply H. Qed.

Lemma keeps_bind {A B} (I : S -> Prop) (c : M S A) (k : A -> M S B) :
  keeps I c -> (forall a, keeps I (k a)) -> keeps I (bind c k).
Proof.
  intros Hc Hk s Hs. unfold bind. specialize (Hc s Hs).
  destruct (c s) as [a s'|e s']; simpl in *; [|done]. by apply Hk.
Qed.

Lemma keeps_forM_ {A} (I : S -> Prop) (l : list A) (body : A -> M S unit) :
  (forall x, keeps I (body x)) -> keeps I (forM_ l body).
Proof.
  intros Hb. induction l as [|x l IH]; [by apply keeps_ret|].
  simpl. apply keeps_bind; [apply Hb|]. intros _. apply IH.
Qed.

Lemma keeps_respects {A} (I : S -> Prop) (R : relation S) (c : M S A) :
  (forall s s', R s s' -> I s -> I s') -> respects R c -> keeps I c.
Proof. intros HI Hc s Hs. by eapply HI; [apply Hc|]. Qed.

Lemma returns_of_respects {A} (I : S -> Prop) (R : relation S) (c : M S A) :
  (forall s s', I s -> R s s' -> I s') ->
  respects R c -> raises_only (fun _ => False) c ->
  returns I c (fun _ => I).
Proof.
  intros HI HR Hc s Hs. specialize (HR s).
  destruct (c s) as [a s'|e s'] eqn:E.
  - exists a, s'. split; [done|]. by eapply HI.
  - by destruct (Hc s e s' E).
Qed.

Context (R : relation S) `{!PreOrder R}.

Lemma respects_bind_at {A B} (c : M S A) (k : A -> M S B) s :
  R s (state_of (c s)) -> (forall a, respects R (k a)) ->
  R s (state_of (bind c k s)).
Proof.
  intros Hc Hk. unfold bind.
  destruct (c s) as [a s'|e s']; simpl in *; [|done].
  etrans; [exact Hc|apply Hk].
Qed.

Lemma respects_respects_from {A} (P : S -> Prop) (c : M S A) :
  respects R c -> respects_from P R c.
Proof. intros Hc s _. apply Hc. Qed.

Lemma respects_from_bind {A B} (P : S -> Prop) (c : M S A) (k : A -> M S B) :
  (forall s s', P s -> R s s' -> P s') ->
  respects_from P R c -> (forall a, respects_from P R (k a)) ->
  respects_from P R (bind c k).
Proof.
  intros HP Hc Hk s Hs. unfold bind. specialize (Hc s Hs).
  destruct (c s) as [a s'|e s']; simpl in *; [|done].
  etrans; [exact Hc|]. apply Hk. by eapply HP.
Qed.

Lemma respects_from_forM_ {A} (P : S -> Prop) (l : list A)
    (body : A -> M S unit) :
  (forall s s', P s -> R s s' -> P s') ->
  (forall x, x ∈ l -> respects_from P R (body x)) ->
  respects_from P R (forM_ l body).
Proof.
  intros HP. induction l as [|x l IH]; intros Hb.
  - intros s _. reflexivity.
  - simpl. apply respects_from_bind; [done| |].
    + apply Hb. left.
    + intros _. apply IH. intros y Hy. apply Hb. by right.
Qed.

End Returning.

(** * Counting in lists *)

Section Counting.
Context {A : Type} (P : A -> Prop) `{!forall x, Decision (P x)}.

Lemma length_filter_alter_same (f : A -> A) (l : list A) i :
  (forall x, P (f x) <-> P x) ->
  length (filter P (alter f i l)) = length (filter P l).
Proof.
  intros Hf. revert i. induction l as [|x l IH]; intros [|i]; try done.
  - change (alter f 0%nat (x :: l)) with (f x :: l). rewrite !filter_cons.
    destruct (decide (P (f x))) as [H1|H1], (decide (P x)) as [H2|H2];
      try done; exfalso; [apply H2|apply H1]; by apply Hf.
  - change (alter f (Datatypes.S i) (x :: l)) with (x :: alter f i l).
    rewrite !filter_cons.
    destruct (decide (P x)); rewrite ?length_cons; by rewrite IH.
Qed.

Lemma length_filter_alter_new (f : A -> A) (l : list A) i x :
  l !! i = Some x -> ~ P x -> P (f x) ->
  length (filter P (alter f i l)) = Datatypes.S (length (filter P l)).
Proof.
  revert i. induction l as [|y l IH]; intros [|i] Hi Hx Hfx; try done.
  - simplify_eq/=. change (alter f 0%nat (x :: l)) with (f x :: l).
    rewrite !filter_cons.
    destruct (decide (P (f x))), (decide (P x)); done.
  - change (alter f (Datatypes.S i) (y :: l)) with (y :: alter f i l).
    rewrite !filter_cons.
    destruct (decide (P y)); rewrite ?length_cons; by rewrite (IH i).
Qed.

End Counting.

Lemma length_filter_fmap {A B} (f : A -> B) (Q : B -> Prop)
    {HQ : forall y, Decision (Q y)} (l : list A) :
  length (filter Q (f <$> l)) = length (filter (fun x => Q (f x)) l).
Proof.
  induction l as [|x l IH]; [done|].
  rewrite fmap_cons, !filter_cons.
  destruct (decide (Q (f x))); rewrite ?length_cons; by rewrite IH.
Qed.

(** * The disease model: every infection is counted once *)

Ltac respects_step leaf :=
  lazymatch goal with
  | |- respects _ (if ?b then _ else _) => destruct b
  | |- respects _ (ret _) => apply respects_ret; apply _
  | |- respects _ (raise _) => apply respects_raise; apply _
  | |- respects _ get => apply respects_get; apply _
  | |- respects _ (bind _ _) => apply respects_bind; [apply _| |intros ?]
  | |- respects _ (forM_ _ _) => apply respects_forM_; [apply _|intros ?]
  | |- respects _ (modify _) => apply respects_modify; intros ?
  | |- _ => leaf
  end.

Section HomeworkCalls.
Import Homework.
Context (R : relation Model) `{!PreOrder R}.

Lemma hw_respects_do method :
  (forall i, respects R (method i)) -> respects R (do method).
Proof.
  intros H. unfold do. apply respects_bind; [apply _|apply respects_get; apply _|].
  intros m. apply respects_forM_; [apply _|done].
Qed.

Lemma hw_respects__stop_condition body :
  (forall m, R m (set_running false m)) -> respects R body ->
  respects R (_stop_condition body).
Proof.
  intros Hstop Hbody. unfold _stop_condition.
  apply respects_bind; [apply _|apply respects_get; apply _|].
  intros m. destruct (decide _); [by apply respects_modify|done].
Qed.

Lemma hw_respects_ticks n :
  respects R step -> respects R (ticks n).
Proof.
  intros Hstep. induction n as [|n IH]; simpl.
  - apply respects_ret; apply _.
  - apply respects_bind; [apply _|done|done].
Qed.

End HomeworkCalls.

Section InfectionAccounting.
Import Homework.

#[local] Instance infections_accounted_preorder : PreOrder infections_accounted.
Proof.
  split.
  - intros m. unfold infections_accounted. lia.
  - intros m1 m2 m3. unfold infections_accounted. lia.
Qed.

Lemma accounted_frame m m' :
  is_infected <$> agents m' = is_infected <$> agents m ->
  direct_infections m' = direct_infections m ->
  location_infections m' = location_infections m ->
  infections_accounted m m'.
Proof.
  intros Ha Hd Hl. unfold infections_accounted. rewrite Hd, Hl.
  assert (infected_count m' = infected_count m) as ->; [|lia].
  unfold infected_count.
  pose proof (length_filter_fmap is_infected (fun b => b = true)
                (HQ:=fun y => decide_rel eq y true)) as H.
  etrans; [symmetry; apply H|]. rewrite Ha. apply H.
Qed.

Lemma infected_count_infect m j a :
  agents m !! j = Some a -> is_infected a = false ->
  length (filter (fun a => is_infected a = true)
                 (alter set_agent_infected j (agents m)))
  = Datatypes.S (infected_count m).
Proof.
  intros Hj Ha. unfold infected_count.
  apply (length_filter_alter_new _ _ _ _ a); [done| |done].
  unfold is_infected in *. congruence.
Qed.

Lemma accounted_random_random : respects infections_accounted random_random.
Proof. intros m. by apply accounted_frame. Qed.

Lemma accounted_select_random_cell cells :
  respects infections_accounted (select_random_cell cells).
Proof.
  intros m. unfold select_random_cell.
  destruct (Grid.choice _ _); by apply accounted_frame.
Qed.

Lemma accounted_check self msg :
  respects infections_accounted (check_grid_initialization self msg).
Proof.
  unfold check_grid_initialization. destruct (cell self);
    [apply respects_ret|apply respects_raise]; apply _.
Qed.

Lemma accounted_move_to i c : respects infections_accounted (move_to i c).
Proof.
  intros m. apply accounted_frame; [|done..]. simpl.
  by apply fmap_alter_same.
Qed.

Ltac account :=
  repeat respects_step ltac:(
    first [ apply accounted_random_random
          | apply accounted_select_random_cell
          | apply accounted_check
          | apply accounted_move_to
          | apply respects_on_agent; [apply _|intros ?] ]).

Lemma accounted_move_around i : respects infections_accounted (move_around i).
Proof. unfold move_around. account. Qed.

Lemma accounted_infect_encountered j :
  respects infections_accounted (infect_encountered j).
Proof.
  intros m. destruct (agents m !! j) as [a|] eqn:Hj.
  - rewrite (hw_infect_encountered_eq m j a Hj).
    destruct (is_infected a) eqn:Ha; [reflexivity|].
    cbv zeta. destruct (Qltb _ _); simpl.
    + unfold infections_accounted. simpl.
      unfold infected_count at 1. simpl.
      rewrite (infected_count_infect m j a Hj Ha). lia.
    + by apply accounted_frame.
  - unfold infect_encountered, on_agent. rewrite Hj. reflexivity.
Qed.

Lemma accounted_spread_virus i : respects infections_accounted (spread_virus i).
Proof.
  unfold spread_virus.
  repeat respects_step ltac:(
    first [ apply accounted_check
          | apply accounted_infect_encountered
          | apply respects_on_agent; [apply _|intros ?] ]).
  by apply accounted_frame.
Qed.

Lemma accounted_get_infected_from_cell i :
  respects infections_accounted (get_infected_from_cell i).
Proof.
  intros m. destruct (agents m !! i) as [self|] eqn:Hi.
  - destruct (cell self) as [c|] eqn:Hc.
    + destruct (is_infected self) eqn:Hinf.
      * unfold get_infected_from_cell, on_agent. rewrite Hi.
        unfold bind, check_grid_initialization. rewrite Hc. simpl.
        rewrite Hinf. reflexivity.
      * destruct (get_infected_from_cell_placed m i self c Hi Hc Hinf)
          as (p & _ & ->).
        cbv zeta. destruct (Qltb _ _); [|by apply accounted_frame].
        unfold infections_accounted. simpl.
        unfold infected_count at 1. simpl.
        rewrite (infected_count_infect m i self Hi Hinf). lia.
    + unfold get_infected_from_cell, on_agent. rewrite Hi.
      unfold bind, check_grid_initialization. rewrite Hc. reflexivity.
  - unfold get_infected_from_cell, on_agent. rewrite Hi. reflexivity.
Qed.

Lemma direct_infections_decay_cell c m :
  direct_infections (decay_cell c m) = direct_infections m.
Proof. unfold decay_cell. by repeat case_match. Qed.

Lemma location_infections_decay_cell c m :
  location_infections (decay_cell c m) = location_infections m.
Proof. unfold decay_cell. by repeat case_match. Qed.

Lemma accounted_decay : respects infections_accounted decay.
Proof.
  unfold decay. repeat respects_step idtac.
  apply accounted_frame.
  - by rewrite agents_decay_cell.
  - apply direct_infections_decay_cell.
  - apply location_infections_decay_cell.
Qed.

Lemma accounted_step_body : respects infections_accounted step_body.
Proof.
  unfold step_body, collect.
  repeat respects_step ltac:(
    first [ apply accounted_decay
          | apply hw_respects_do; [apply _|intros ?]
          | apply accounted_move_around
          | apply accounted_spread_virus
          | apply accounted_get_infected_from_cell ]).
  by apply accounted_frame.
Qed.

Lemma accounted_step : respects infections_accounted step.
Proof.
  apply hw_respects__stop_condition; [apply _| |apply accounted_step_body].
  intros m. by apply accounted_frame.
Qed.

Lemma accounted_ticks n : respects infections_accounted (ticks n).
Proof. apply hw_respects_ticks; [apply _|apply accounted_step]. Qed.

End InfectionAccounting.

(** * Drawing the positions *)

Section Placement.

Lemma randbelow_range n u : 0 < n -> 0 <= randbelow n u < n.
Proof. intros Hn. unfold randbelow. apply Z.mod_pos_bound. lia. Qed.

Lemma integers_spec high n r :
  0 < high ->
  length (integers high n r).1 = n /\
  Forall (fun x => 0 <= x < high) (integers high n r).1.
Proof.
  intros Hh. revert r. induction n as [|n IH]; intros r; simpl.
  - split; [done|constructor].
  - specialize (IH (advance r)).
    destruct (integers high n (advance r)) as [xs r'] eqn:E. simpl in *.
    destruct IH as [IH1 IH2]. split; [by rewrite IH1|].
    constructor; [by apply randbelow_range|done].
Qed.

Lemma lookup_zip_Some {A B} (l : list A) (k : list B) i x y :
  zip l k !! i = Some (x, y) <-> l !! i = Some x /\ k !! i = Some y.
Proof.
  revert k i. induction l as [|a l IH]; intros [|b k] [|i]; simpl;
    try (split; [done|by intros [??]]).
  - split; [by intros [= -> ->]|by intros [[= ->] [= ->]]].
  - apply IH.
Qed.

Lemma elem_of_all_cells w h c : c ∈ Grid.all_cells w h <-> Grid.in_grid w h c.
Proof.
  unfold Grid.all_cells, Grid.in_grid. destruct c as [x y]. simpl.
  rewrite list_elem_of_bind. split.
  - intros (x' & Hin & Hx). apply list_elem_of_bind in Hin as (y' & Hin & Hy).
    apply list_elem_of_singleton in Hin as [= -> ->].
    apply elem_of_seqZ in Hx, Hy. lia.
  - intros [Hx Hy]. exists x. split; [|apply elem_of_seqZ; lia].
    apply list_elem_of_bind. exists y. split; [by apply list_elem_of_singleton|].
    apply elem_of_seqZ. lia.
Qed.

Lemma lookup_list_to_map_cells {V} (v : Coord -> V) (cells : list Coord) c :
  (list_to_map (map (fun c => (c, v c)) cells) : gmap Coord V) !! c =
  if decide (c ∈ cells) then Some (v c) else None.
Proof.
  induction cells as [|d cells IH].
  - destruct (decide (c ∈ [])) as [H|H]; [by apply elem_of_nil in H|].
    apply lookup_empty.
  - change (map (fun c => (c, v c)) (d :: cells))
      with ((d, v d) :: map (fun c => (c, v c)) cells).
    rewrite list_to_map_cons.
    destruct (decide (d = c)) as [->|Hne].
    + rewrite lookup_insert_eq. rewrite decide_True; [done|left].
    + rewrite lookup_insert_ne by done. rewrite IH.
      destruct (decide (c ∈ cells)) as [Hin|Hin].
      * rewrite decide_True; [done|by right].
      * rewrite decide_False; [done|]. intros Hc.
        apply elem_of_cons in Hc as [->|?]; done.
Qed.

Lemma connections_in_grid w h c t :
  0 < w -> 0 < h -> Grid.in_grid w h c -> t ∈ Grid.connections w h c ->
  Grid.in_grid w h t.
Proof.
  intros Hw Hh [Hx Hy] Ht. unfold Grid.connections in Ht.
  pose proof (Z.mod_pos_bound (c.1 - 1) w Hw).
  pose proof (Z.mod_pos_bound (c.1 + 1) w Hw).
  pose proof (Z.mod_pos_bound (c.2 - 1) h Hh).
  pose proof (Z.mod_pos_bound (c.2 + 1) h Hh).
  repeat (apply elem_of_cons in Ht as [->|Ht]); [split; simpl; lia..|].
  by apply elem_of_nil in Ht.
Qed.

Lemma neighborhood_in_grid w h c t :
  0 < w -> 0 < h -> Grid.in_grid w h c -> t ∈ Grid.neighborhood w h c ->
  Grid.in_grid w h t.
Proof.
  intros Hw Hh Hc Ht. apply neighborhood_adjacent in Ht as [Ht _].
  by eapply connections_in_grid.
Qed.

Lemma neighborhood_nonempty w h c :
  3 <= w -> 3 <= h -> Grid.in_grid w h c -> Grid.neighborhood w h c <> [].
Proof.
  intros Hw Hh Hc. destruct (neighborhood_four w h c Hw Hh Hc) as [-> _].
  done.
Qed.

End Placement.

(** * The disease model: construction *)

Section HomeworkConstruction.
Import Homework.

Lemma hw_assign_fold (l : list (nat * Coord)) m :
  foldl (fun s ixy =>
           set_agents (alter (set_agent_cell ixy.2) ixy.1 (agents s)) s) m l
  = set_agents
      (foldl (fun ags ixy => alter (set_agent_cell ixy.2) ixy.1 ags)
             (agents m) l) m.
Proof.
  revert m. induction l as [|x l IH]; intros m; simpl; [by destruct m|].
  by rewrite IH.
Qed.

Lemma hw_assign_fold_length (l : list (nat * Coord)) (ags : list PersonAgent) :
  length (foldl (fun ags ixy => alter (set_agent_cell ixy.2) ixy.1 ags) ags l)
  = length ags.
Proof.
  revert ags. induction l as [|x l IH]; intros ags; simpl; [done|].
  by rewrite IH, length_alter.
Qed.

Lemma hw_assign_fold_lookup (cs : list Coord) :
  forall k n (ags : list PersonAgent) i,
  foldl (fun ags (ixy : nat * Coord) => alter (set_agent_cell ixy.2) ixy.1 ags)
        ags (zip (seq k n) cs) !! i
  = match (if decide (k <= i < k + n)%nat then cs !! (i - k)%nat else None) with
    | Some c => set_agent_cell c <$> ags !! i
    | None => ags !! i
    end.
Proof.
  induction cs as [|c cs IH]; intros k n ags i.
  - destruct n; simpl; by destruct (decide _).
  - destruct n as [|n]; simpl.
    { rewrite decide_False by lia. done. }
    rewrite IH.
    destruct (decide (Datatypes.S k <= i < Datatypes.S k + n)%nat) as [H1|H1].
    + rewrite decide_True by lia.
      replace (i - k)%nat with (Datatypes.S (i - Datatypes.S k)) by lia. simpl.
      destruct (cs !! _); by rewrite list_lookup_alter_ne by lia.
    + destruct (decide (k <= i < k + Datatypes.S n)%nat) as [H2|H2].
      * assert (i = k) as -> by lia. rewrite Nat.sub_diag. simpl.
        apply list_lookup_alter_eq.
      * by rewrite list_lookup_alter_ne by lia.
Qed.

Lemma hw_place_agents_on_grid_eq m :
  0 < grid_width m -> 0 < grid_height m -> 0 <= population_size m ->
  exists ags r,
    place_agents_on_grid m = Ok tt (set_agents ags (set_rng r m)) /\
    length ags = length (agents m) /\
    forall i a', ags !! i = Some a' ->
      exists a, agents m !! i = Some a /\
        if decide (i < Z.to_nat (population_size m))%nat
        then exists c, a' = set_agent_cell c a /\
                       Grid.in_grid (grid_width m) (grid_height m) c
        else a' = a.
Proof.
  intros Hw Hh Hn.
  unfold place_agents_on_grid, bind, get, rng_integers.
  rewrite (proj2 (Z.leb_gt _ _) Hw), (proj2 (Z.ltb_ge _ _) Hn).
  pose proof (integers_spec (grid_width m) (Z.to_nat (population_size m))
                (rng m) Hw) as [Hlx Hx].
  destruct (integers (grid_width m) _ (rng m)) as [xs r1]. simpl in Hlx, Hx.
  cbn [grid_height population_size set_rng rng].
  rewrite (proj2 (Z.leb_gt _ _) Hh).
  pose proof (integers_spec (grid_height m) (Z.to_nat (population_size m))
                r1 Hh) as [Hly Hy].
  destruct (integers (grid_height m) _ r1) as [ys r2]. simpl in Hly, Hy.
  unfold assign_cell. rewrite forM__modify, hw_assign_fold.
  eexists _, r2. split; [reflexivity|].
  cbn [agents set_rng]. split; [apply hw_assign_fold_length|].
  intros i a'. rewrite hw_assign_fold_lookup.
  destruct (decide (0 <= i < 0 + length (agents m))%nat) as [Hi|Hi].
  - rewrite Nat.sub_0_r.
    match goal with
    | |- context [match ?t with Some _ => _ | None => _ end] =>
        destruct t as [[x y]|] eqn:Hz
    end.
    + apply lookup_zip_Some in Hz as [Hxi Hyi].
      destruct (agents m !! i) as [a|]; [|done]. intros [= <-].
      exists a. split; [done|].
      rewrite decide_True by (apply lookup_lt_Some in Hxi; lia).
      exists (x, y). split; [done|]. split; simpl.
      * eapply (Forall_lookup_1 _ _ _ _ Hx Hxi).
      * eapply (Forall_lookup_1 _ _ _ _ Hy Hyi).
    + intros Ha. exists a'. split; [done|].
      rewrite decide_False; [done|]. intros Hlt.
      destruct (lookup_lt_is_Some_2 xs i) as [x Hxi]; [lia|].
      destruct (lookup_lt_is_Some_2 ys i) as [y Hyi]; [lia|].
      assert (zip xs ys !! i = Some (x, y)) as Hz' by by apply lookup_zip_Some.
      pose proof (eq_trans (eq_sym Hz) Hz'). done.
  - intros Ha. apply lookup_lt_Some in Ha. lia.
Qed.

Lemma hw_init_returns pop inf com p w h rnd gen :
  0 < w -> 0 < h -> 0 <= pop ->
  exists m,
    __init__ pop inf com p w h rnd gen = Ok tt m /\
    grid_width m = w /\ grid_height m = h /\
    direct_infections m = 0 /\ location_infections m = 0 /\
    datacollector m = [(0, 0)] /\ running m = true /\ random m = rnd /\
    (forall c, grid m !! c =
               if decide (c ∈ Grid.all_cells w h)
               then Some {| prop_is_infected := false;
                            prop_virus_persistence := 0 |}
               else None) /\
    (forall c, infected_property_layer m !! c =
               if decide (c ∈ Grid.all_cells w h) then Some false else None) /\
    length (agents m) =
      (Z.to_nat inf + Z.to_nat com + Z.to_nat (pop - inf - com))%nat /\
    placed_before (Z.to_nat pop) m.
Proof.
  intros Hw Hh Hn. unfold __init__.
  rewrite (proj2 (Z.ltb_lt 0 w) Hw), (proj2 (Z.ltb_lt 0 h) Hh). cbn [andb].
  unfold bind at 1. unfold ret at 1.
  unfold bind at 1. unfold generate_person_agents.
  unfold bind at 1. unfold get at 1.
  unfold bind at 1. unfold create_agents at 1. unfold modify at 1.
  unfold bind at 1. unfold create_agents at 1. unfold modify at 1.
  unfold bind at 1. unfold create_agents at 1. unfold modify at 1.
  match goal with
  | |- context [place_agents_on_grid ?m3] =>
      destruct (hw_place_agents_on_grid_eq m3) as (ags & r & -> & Hlen & Hags);
        [simpl; lia..|];
      assert (Hnone : Forall (fun a => cell a = None) (agents m3))
  end.
  { simpl. rewrite !Forall_app, !Forall_fmap. repeat split;
      by apply Forall_forall. }
  eexists. split; [reflexivity|].
  cbn [grid_width grid_height direct_infections location_infections
       datacollector running random grid infected_property_layer agents
       initialize_infected_property_layer initialize_data_collector collect
       modify bind state_of set_agents set_rng set_grid
       set_infected_property_layer set_datacollector].
  repeat (split; [done|]).
  split; [intros c; apply (lookup_list_to_map_cells _ _ c)|].
  split; [intros c; apply (lookup_list_to_map_cells (fun _ => false) _ c)|].
  cbn [agents set_agents population_size grid_width grid_height] in Hlen, Hags.
  split.
  - rewrite Hlen. rewrite !length_app, !length_fmap, !length_seq. simpl. lia.
  - intros i a' Ha'. destruct (Hags i a' Ha') as (a & Ha & Hcase).
    assert (cell a = None) as Hca
      by (eapply (Forall_lookup_1 _ _ _ _ Hnone); exact Ha).
    destruct (decide (i < Z.to_nat pop)%nat) as [Hi|Hi].
    + destruct Hcase as (c & -> & Hc). split; [|lia].
      intros _. exists c. by split.
    + subst a'. split; [lia|done].
Qed.

End HomeworkConstruction.

(** * The disease model: a placed population runs without raising *)

Section HomeworkSafety.
Import Homework.

Lemma set_agent_cell_same a c : cell a = Some c -> set_agent_cell c a = a.
Proof. destruct a. simpl. by intros ->. Qed.

Lemma list_alter_same {A} (f : A -> A) (l : list A) i x :
  l !! i = Some x -> f x = x -> alter f i l = l.
Proof.
  intros Hi Hx. apply list_eq. intros j. rewrite list_lookup_alter.
  destruct (decide (i = j)) as [->|]; [|done]. by rewrite Hi; simpl; rewrite Hx.
Qed.

Lemma hw_move_around_placed m i self c :
  3 <= grid_width m -> 3 <= grid_height m ->
  agents m !! i = Some self -> cell self = Some c ->
  Grid.in_grid (grid_width m) (grid_height m) c ->
  exists m' t,
    move_around i m = Ok tt m' /\
    grid_width m' = grid_width m /\ grid_height m' = grid_height m /\
    grid m' = grid m /\
    Grid.in_grid (grid_width m) (grid_height m) t /\
    agents m' = alter (set_agent_cell t) i (agents m).
Proof.
  intros Hw Hh Hi Hc Hin. rewrite (hw_move_around_eq m i self c Hi Hc).
  destruct (Qltb _ _).
  - destruct (choice_nonempty (neighborhood m c)
                (peek (advance (random m)))) as [t Ht].
    { by apply neighborhood_nonempty. }
    rewrite Ht. eexists _, t. split; [reflexivity|].
    do 3 (split; [done|]). split; [|done].
    eapply (neighborhood_in_grid _ _ c); [lia|lia|done|].
    by eapply choice_elem.
  - eexists _, c. split; [reflexivity|].
    do 3 (split; [done|]). split; [done|].
    simpl. symmetry. eapply list_alter_same; [done|].
    by apply set_agent_cell_same.
Qed.

Lemma placed_cell m m' a a' :
  grid_width m' = grid_width m -> grid_height m' = grid_height m ->
  cell a' = cell a -> placed m a -> placed m' a'.
Proof. intros Hw Hh Hc (c & ? & ?). exists c. rewrite Hw, Hh, Hc. done. Qed.

Lemma well_placed_frame m m' :
  grid_width m' = grid_width m -> grid_height m' = grid_height m ->
  (forall c, is_Some (grid m' !! c) <-> is_Some (grid m !! c)) ->
  cell <$> agents m' = cell <$> agents m ->
  well_placed m -> well_placed m'.
Proof.
  intros Hw Hh Hg Ha (H1 & H2 & H3 & H4 & H5).
  unfold well_placed, cells_initialized. rewrite Hw, Hh.
  split; [done|]. split; [done|]. split; [|split].
  - intros c. rewrite Hg. apply H3.
  - intros Hnil. rewrite Hnil in Ha. destruct (agents m); done.
  - apply Forall_forall. intros a' Ha'.
    apply list_elem_of_lookup in Ha' as [i Hi].
    assert ((cell <$> agents m') !! i = Some (cell a')) as Hci
      by by rewrite list_lookup_fmap, Hi.
    rewrite Ha, list_lookup_fmap in Hci.
    destruct (agents m !! i) as [a|] eqn:Hai; [|done].
    injection Hci as Hci.
    eapply (placed_cell m m' a a'); [done..|].
    by eapply (Forall_lookup_1 _ _ _ _ H5).
Qed.

Lemma well_placed_lookup m i a :
  well_placed m -> agents m !! i = Some a ->
  exists c, cell a = Some c /\ Grid.in_grid (grid_width m) (grid_height m) c.
Proof.
  intros (_ & _ & _ & _ & H) Hi. by apply (Forall_lookup_1 _ _ _ _ H Hi).
Qed.

Lemma hw_returns_move_around i :
  returns well_placed (move_around i) (fun _ => well_placed).
Proof.
  intros m Hm. destruct (agents m !! i) as [self|] eqn:Hi.
  - destruct (well_placed_lookup m i self Hm Hi) as (c & Hc & Hin).
    destruct Hm as (H1 & H2 & H3 & H4 & H5).
    destruct (hw_move_around_placed m i self c H1 H2 Hi Hc Hin)
      as (m' & t & -> & Hw & Hh & Hg & Ht & Ha).
    exists tt, m'. split; [done|].
    unfold well_placed, cells_initialized. rewrite Hw, Hh, Hg, Ha.
    do 3 (split; [done|]). split.
    + intros Hnil. apply (f_equal length) in Hnil.
      rewrite length_alter in Hnil. destruct (agents m); done.
    + apply Forall_alter.
      * eapply Forall_impl; [exact H5|]. intros a Hpa.
        by eapply placed_cell; [..|exact Hpa].
      * intros a _ _. exists t. split; [done|]. by rewrite Hw, Hh.
  - exists tt, m. unfold move_around, on_agent. by rewrite Hi.
Qed.

Lemma hw_returns_infect_encountered j :
  returns well_placed (infect_encountered j) (fun _ => well_placed).
Proof.
  intros m Hm. destruct (agents m !! j) as [a|] eqn:Hj.
  - rewrite (hw_infect_encountered_eq m j a Hj).
    destruct (is_infected a); [by exists tt, m|].
    cbv zeta. destruct (Qltb _ _); eexists tt, _; (split; [reflexivity|]);
      (eapply well_placed_frame; [..|exact Hm]); try done.
    simpl. by apply fmap_alter_same.
  - exists tt, m. unfold infect_encountered, on_agent. by rewrite Hj.
Qed.

Lemma hw_returns_spread_virus i :
  returns well_placed (spread_virus i) (fun _ => well_placed).
Proof.
  intros m Hm. destruct (agents m !! i) as [self|] eqn:Hi.
  - destruct (well_placed_lookup m i self Hm Hi) as (c & Hc & Hin).
    rewrite (hw_spread_virus_eq m i self c Hi Hc).
    destruct (is_infected self); [|by exists tt, m].
    eapply (returns_forM_ well_placed).
    + intros j _. apply hw_returns_infect_encountered.
    + destruct (prop_is_infected _); [done|].
      eapply well_placed_frame; [..|exact Hm]; try done.
      intros d. simpl. destruct (decide (c = d)) as [<-|Hne].
      * rewrite lookup_insert_eq. split; [intros _|by eauto].
        by apply Hm.
      * by rewrite lookup_insert_ne.
  - exists tt, m. unfold spread_virus, on_agent. by rewrite Hi.
Qed.

Lemma hw_returns_get_infected_from_cell i :
  returns well_placed (get_infected_from_cell i) (fun _ => well_placed).
Proof.
  intros m Hm. destruct (agents m !! i) as [self|] eqn:Hi.
  - destruct (well_placed_lookup m i self Hm Hi) as (c & Hc & Hin).
    destruct (is_infected self) eqn:Hinf.
    + exists tt, m. split; [|done].
      unfold get_infected_from_cell, on_agent. rewrite Hi.
      unfold bind, check_grid_initialization. rewrite Hc. simpl.
      by rewrite Hinf.
    + destruct (get_infected_from_cell_placed m i self c Hi Hc Hinf)
        as (p & _ & ->).
      cbv zeta. destruct (Qltb _ _); eexists tt, _; (split; [reflexivity|]);
        (eapply well_placed_frame; [..|exact Hm]); try done.
      simpl. by apply fmap_alter_same.
  - exists tt, m. unfold get_infected_from_cell, on_agent. by rewrite Hi.
Qed.

Lemma hw_decay_dims m :
  grid_width (state_of (decay m)) = grid_width m /\
  grid_height (state_of (decay m)) = grid_height m.
Proof.
  unfold decay, bind, get. rewrite forM__modify. simpl.
  generalize ((map_to_list (grid m)).*1). intros l. revert m.
  induction l as [|c l IH]; intros m; simpl; [done|].
  destruct (IH (decay_cell c m)) as [-> ->].
  unfold decay_cell. by repeat case_match.
Qed.

Lemma hw_returns_decay : returns well_placed decay (fun _ => well_placed).
Proof.
  intros m Hm. destruct (decay_lookup m) as (m' & Hd & Ha & Hg).
  pose proof (hw_decay_dims m) as [Hw Hh]. rewrite Hd in Hw, Hh. simpl in *.
  exists tt, m'. split; [done|].
  eapply well_placed_frame; [..|exact Hm]; try done.
  - intros c. rewrite Hg. by rewrite fmap_is_Some.
  - by rewrite Ha.
Qed.

Lemma hw_returns_do (I : Model -> Prop) method :
  (forall i, returns I (method i) (fun _ => I)) ->
  returns I (do method) (fun _ => I).
Proof.
  intros H. unfold do. eapply returns_bind.
  - apply (returns_get I (fun _ => I)). auto.
  - intros m. apply returns_forM_. intros i _. apply H.
Qed.

Lemma hw_returns_step_body :
  returns well_placed step_body (fun _ => well_placed).
Proof.
  unfold step_body.
  eapply returns_bind.
  { apply (returns_modify well_placed _ (fun _ => well_placed)).
    intros m Hm. by eapply well_placed_frame; [..|exact Hm]. }
  intros ?. simpl. eapply returns_bind.
  { apply hw_returns_do. apply hw_returns_move_around. }
  intros ?. simpl. eapply returns_bind.
  { apply hw_returns_do. apply hw_returns_spread_virus. }
  intros ?. simpl. eapply returns_bind.
  { apply hw_returns_do. apply hw_returns_get_infected_from_cell. }
  intros ?. simpl. apply hw_returns_decay.
Qed.

Lemma hw_returns_step : returns well_placed step (fun _ => well_placed).
Proof.
  intros m Hm. unfold step, _stop_condition, bind, get.
  destruct (decide _).
  - eexists tt, _. split; [reflexivity|].
    by eapply well_placed_frame; [..|exact Hm].
  - by apply hw_returns_step_body.
Qed.

Lemma hw_returns_ticks n : returns well_placed (ticks n) (fun _ => well_placed).
Proof.
  induction n as [|n IH]; simpl.
  - apply returns_ret. auto.
  - eapply returns_bind; [apply hw_returns_step|]. intros ?. simpl. apply IH.
Qed.

End HomeworkSafety.

(** * The disease model: agents left without a cell *)

Section HomeworkUnplaced.
Import Homework.

Lemma hw_move_around_unplaced m i self :
  agents m !! i = Some self -> cell self = None ->
  move_around i m =
  Raise (grid_not_initialized "The agent cannot move around the grid.") m.
Proof.
  intros Hi Hc. unfold move_around, on_agent. rewrite Hi.
  unfold bind, check_grid_initialization. by rewrite Hc.
Qed.

Lemma placed_before_move k m m' i t :
  (i < k)%nat ->
  grid_width m' = grid_width m -> grid_height m' = grid_height m ->
  Grid.in_grid (grid_width m) (grid_height m) t ->
  agents m' = alter (set_agent_cell t) i (agents m) ->
  placed_before k m -> placed_before k m'.
Proof.
  intros Hik Hw Hh Ht Ha Hm j a'. rewrite Ha, list_lookup_alter.
  destruct (decide (i = j)) as [<-|Hne].
  - destruct (agents m !! i) as [a|] eqn:Hi; [|done]. intros [= <-].
    split; [|lia]. intros _. exists t. split; [done|]. by rewrite Hw, Hh.
  - intros Hj. destruct (Hm j a' Hj) as [H1 H2]. split; [|done].
    intros Hjk. by eapply placed_cell; [..|apply (H1 Hjk)].
Qed.

Lemma hw_move_loop_placed_before k (l : list nat) :
  (forall i, i ∈ l -> (i < k)%nat) ->
  returns (fun m => 3 <= grid_width m /\ 3 <= grid_height m /\
                    placed_before k m)
          (forM_ l move_around)
          (fun _ m => 3 <= grid_width m /\ 3 <= grid_height m /\
                      placed_before k m).
Proof.
  intros Hl. apply (returns_forM_ (fun m => 3 <= grid_width m /\
    3 <= grid_height m /\ placed_before k m)).
  intros i Hi m (Hw & Hh & Hm).
  destruct (agents m !! i) as [self|] eqn:Hai.
  - destruct (proj1 (Hm i self Hai) (Hl i Hi)) as (c & Hc & Hin).
    destruct (hw_move_around_placed m i self c Hw Hh Hai Hc Hin)
      as (m' & t & -> & Hw' & Hh' & _ & Ht & Ha).
    exists tt, m'. split; [done|]. rewrite Hw', Hh'.
    split; [done|]. split; [done|].
    by eapply (placed_before_move k m m' i t); [apply Hl|..].
  - exists tt, m. unfold move_around, on_agent. by rewrite Hai.
Qed.

Lemma hw_step_raises_unplaced m k :
  3 <= grid_width m -> 3 <= grid_height m ->
  placed_before k m -> (k < length (agents m))%nat ->
  not_infected_count m <> 0%nat ->
  raised (step m) =
  Some (grid_not_initialized "The agent cannot move around the grid.").
Proof.
  intros Hw Hh Hm Hk Hcount.
  unfold step, _stop_condition, bind at 1, get.
  rewrite decide_False by done.
  unfold step_body. unfold bind at 1, collect, modify.
  set (m1 := set_datacollector _ m).
  assert (do move_around m1 =
          forM_ (seq 0 k ++ k :: seq (Datatypes.S k) (length (agents m) - Datatypes.S k))
                move_around m1) as Hdo.
  { unfold do, bind, get. f_equal. simpl.
    replace (length (agents m)) with (k + Datatypes.S (length (agents m) - Datatypes.S k))%nat
      at 1 by lia.
    by rewrite seq_app. }
  destruct (hw_move_loop_placed_before k (seq 0 k)) with (s := m1)
    as ([] & m2 & Hloop & Hw2 & Hh2 & Hm2).
  { intros i Hi. apply elem_of_seq in Hi. lia. }
  { done. }
  destruct (lookup_lt_is_Some_2 (agents m2) k) as [a Ha].
  { assert (length (agents m2) = length (agents m1)) as ->; [|done].
    pose proof (respects_forM_ population_evolves (seq 0 k) move_around) as Hr.
    specialize (Hr (fun i => respects_weaken _ _ _ evolves_population
                               (respects_move_around i)) m1).
    rewrite Hloop in Hr. simpl in Hr. symmetry. by eapply Forall2_length. }
  pose proof (proj2 (Hm2 k a Ha) (le_n k)) as Hc.
  unfold bind at 1. rewrite Hdo.
  by rewrite (forM__raise _ _ _ _ _ _ _ _ Hloop
                (hw_move_around_unplaced m2 k a Ha Hc)).
Qed.

Lemma hw_not_infected_count_pos m i a :
  agents m !! i = Some a -> is_infected a = false ->
  not_infected_count m <> 0%nat.
Proof.
  intros Hi Ha Hz. unfold not_infected_count in Hz.
  apply length_zero_iff_nil in Hz.
  assert (a ∈ filter (fun a : PersonAgent => is_infected a = false) (agents m))
    as Hin.
  { apply list_elem_of_filter. split; [done|]. by eapply list_elem_of_lookup_2. }
  rewrite Hz in Hin. by apply elem_of_nil in Hin.
Qed.

End HomeworkUnplaced.

(** * The disease model: the cells and the property layer *)

Section HomeworkCells.
Import Homework.

Lemma contaminate_contaminate p : contaminate (contaminate p) = contaminate p.
Proof. done. Qed.

#[local] Instance contaminates_only_preorder : PreOrder contaminates_only.
Proof.
  split.
  - intros m. split; [done|]. intros c. by left.
  - intros m1 m2 m3 [Hl12 Hg12] [Hl23 Hg23]. split; [congruence|].
    intros c. destruct (Hg23 c) as [H23|H23], (Hg12 c) as [H12|H12].
    + left. congruence.
    + right. congruence.
    + right. rewrite H23. by rewrite !lookup_total_alt, H12.
    + right. rewrite H23. rewrite (lookup_total_correct _ _ _ H12).
      by rewrite contaminate_contaminate.
Qed.

Lemma contaminates_frame m m' :
  infected_property_layer m' = infected_property_layer m ->
  grid m' = grid m -> contaminates_only m m'.
Proof. intros Hl Hg. split; [done|]. intros c. left. by rewrite Hg. Qed.

Lemma contaminates_random_random : respects contaminates_only random_random.
Proof. intros m. by apply contaminates_frame. Qed.

Lemma contaminates_select_random_cell cells :
  respects contaminates_only (select_random_cell cells).
Proof.
  intros m. unfold select_random_cell.
  destruct (Grid.choice _ _); by apply contaminates_frame.
Qed.

Lemma contaminates_check self msg :
  respects contaminates_only (check_grid_initialization self msg).
Proof.
  unfold check_grid_initialization. destruct (cell self);
    [apply respects_ret|apply respects_raise]; apply _.
Qed.

Ltac cells_only :=
  repeat respects_step ltac:(
    first [ apply contaminates_random_random
          | apply contaminates_select_random_cell
          | apply contaminates_check
          | apply respects_on_agent; [apply _|intros ?]
          | by apply contaminates_frame ]).

Lemma contaminates_move_around i : respects contaminates_only (move_around i).
Proof. unfold move_around, move_to, assign_cell. cells_only. Qed.

Lemma contaminates__get_infected i d :
  respects contaminates_only (_get_infected i d).
Proof. unfold _get_infected. cells_only. Qed.

Lemma contaminates_infect_encountered j :
  respects contaminates_only (infect_encountered j).
Proof.
  unfold infect_encountered.
  repeat respects_step ltac:(
    first [ apply contaminates_random_random
          | apply contaminates__get_infected
          | apply respects_on_agent; [apply _|intros ?] ]).
Qed.

Lemma contaminates_spread_virus i : respects contaminates_only (spread_virus i).
Proof.
  intros m. destruct (agents m !! i) as [self|] eqn:Hi.
  - destruct (cell self) as [c|] eqn:Hc.
    + rewrite (hw_spread_virus_eq m i self c Hi Hc).
      destruct (is_infected self); [|reflexivity].
      set (m1 := if prop_is_infected (grid m !!! c) then m else _).
      transitivity m1.
      * subst m1. destruct (prop_is_infected _); [reflexivity|].
        split; [done|]. intros d. simpl.
        destruct (decide (c = d)) as [<-|Hne].
        -- right. by rewrite lookup_insert_eq.
        -- left. by rewrite lookup_insert_ne.
      * apply (respects_forM_ contaminates_only). intros j.
        apply contaminates_infect_encountered.
    + unfold spread_virus, on_agent. rewrite Hi.
      unfold bind, check_grid_initialization. rewrite Hc. reflexivity.
  - unfold spread_virus, on_agent. rewrite Hi. reflexivity.
Qed.

Lemma contaminates_get_infected_from_cell i :
  respects contaminates_only (get_infected_from_cell i).
Proof.
  unfold get_infected_from_cell, _get_infection_probabilty,
    _in_neighbourhood_of_infection.
  repeat respects_step ltac:(
    first [ apply contaminates_random_random
          | apply contaminates_check
          | apply contaminates__get_infected
          | apply respects_on_agent; [apply _|intros ?] ]).
Qed.

Lemma contaminates_collect : respects contaminates_only collect.
Proof. intros m. by apply contaminates_frame. Qed.

Lemma persistence_contaminates m m' :
  contaminates_only m m' -> persistence_bounded m -> persistence_bounded m'.
Proof.
  intros [_ Hg] Hm c p Hp. destruct (Hg c) as [H|H]; rewrite H in Hp.
  - by apply (Hm c).
  - injection Hp as <-. simpl. split; [|done].
    rewrite lookup_total_alt. destruct (grid m !! c) as [q|] eqn:Hq; simpl.
    + by apply (Hm c q).
    + lia.
Qed.

Lemma unmarked_contaminates m m' :
  contaminates_only m m' -> clean_cells_unmarked m -> clean_cells_unmarked m'.
Proof.
  intros [Hl Hg] Hm c p Hp Hclean. rewrite Hl.
  destruct (Hg c) as [H|H]; rewrite H in Hp.
  - by apply (Hm c p).
  - by injection Hp as <-.
Qed.

Lemma mirrors_unmarked m : layer_mirrors_grid m -> clean_cells_unmarked m.
Proof. intros Hm c p Hp Hclean. rewrite (Hm c p Hp). by rewrite Hclean. Qed.

Lemma decay_with_threshold_bounded occ p :
  0 <= prop_virus_persistence p <= 2 ->
  (prop_is_infected p = false -> prop_virus_persistence p = 0) ->
  0 <= prop_virus_persistence (decay_with_threshold 2 occ p) <= 2 /\
  (prop_is_infected (decay_with_threshold 2 occ p) = false ->
   prop_virus_persistence (decay_with_threshold 2 occ p) = 0).
Proof.
  intros Hb Hc. unfold decay_with_threshold.
  destruct (prop_is_infected p) eqn:Hp; [|split; [done|auto]].
  destruct occ; simpl.
  - split; [lia|done].
  - destruct (2 <? prop_virus_persistence p + 1) eqn:Hlt; simpl.
    + split; [lia|done].
    + apply Z.ltb_ge in Hlt. split; [lia|done].
Qed.

Lemma persistence_decay : keeps persistence_bounded decay.
Proof.
  intros m Hm. destruct (decay_lookup m) as (m' & -> & _ & Hg). simpl.
  intros c p'. rewrite Hg. destruct (grid m !! c) as [p|] eqn:Hp; [|done].
  intros [= <-]. destruct (Hm c p Hp) as [H1 H2].
  by apply decay_with_threshold_bounded.
Qed.

Lemma layer_decay_cell c c' m p :
  grid m !! c = Some p ->
  infected_property_layer (decay_cell c m) !! c' =
  if decide (c = c')
  then if prop_is_infected p
       then Some (prop_is_infected
                    (decay_with_threshold 2 (occupied_by_infected m c) p))
       else infected_property_layer m !! c'
  else infected_property_layer m !! c'.
Proof.
  intros Hp. unfold decay_cell, decay_with_threshold.
  rewrite (lookup_total_correct _ _ _ Hp).
  fold (occupied_by_infected m c).
  destruct (prop_is_infected p) eqn:Hi.
  - simpl. fold (occupied_by_infected m c).
    destruct (2 <? _); simpl; destruct (decide (c = c')) as [->|Hne];
      by rewrite ?lookup_insert_eq, ?lookup_insert_ne.
  - by destruct (decide (c = c')).
Qed.

Lemma decay_fold_layer l : forall m,
  NoDup l -> (forall c, c ∈ l -> is_Some (grid m !! c)) ->
  let m' := foldl (fun m c => decay_cell c m) m l in
  forall c, infected_property_layer m' !! c =
            match (if decide (c ∈ l) then grid m !! c else None) with
            | Some p =>
                if prop_is_infected p
                then Some (prop_is_infected
                             (decay_with_threshold 2 (occupied_by_infected m c) p))
                else infected_property_layer m !! c
            | None => infected_property_layer m !! c
            end.
Proof.
  induction l as [|c0 l IH]; intros m Hnd Hdom; cbn [foldl].
  - intros c. case_decide as H; [|done]. by apply elem_of_nil in H.
  - apply NoDup_cons in Hnd as [Hc0 Hnd].
    destruct (Hdom c0) as [p0 Hp0]; [by left|].
    assert (Hdom' : forall c, c ∈ l -> is_Some (grid (decay_cell c0 m) !! c)).
    { intros c Hc. rewrite (grid_decay_cell _ _ _ _ Hp0).
      case_decide; [done|]. apply Hdom. by right. }
    intros c. rewrite (IH (decay_cell c0 m) Hnd Hdom' c).
    rewrite occupied_decay_cell, (grid_decay_cell _ _ _ _ Hp0),
      (layer_decay_cell _ _ _ _ Hp0).
    destruct (decide (c ∈ l)) as [Hl|Hl].
    + destruct (decide (c0 = c)) as [->|Hne]; [done|].
      rewrite decide_True by by right. done.
    + destruct (decide (c0 = c)) as [->|Hne].
      * rewrite decide_True by by left. by rewrite Hp0.
      * rewrite decide_False; [done|].
        intros Hin. apply elem_of_cons in Hin as [->|?]; done.
Qed.

Lemma decay_mirrors m m' :
  decay m = Ok tt m' -> clean_cells_unmarked m -> layer_mirrors_grid m'.
Proof.
  intros Hd Hm. destruct (decay_lookup m) as (m'' & Hd' & _ & Hg).
  rewrite Hd in Hd'. injection Hd' as <-.
  assert (m' = foldl (fun m c => decay_cell c m) m (map_to_list (grid m)).*1)
    as Hm'.
  { unfold decay, bind, get in Hd. rewrite forM__modify in Hd. congruence. }
  pose proof (decay_fold_layer (map_to_list (grid m)).*1 m) as Hl.
  cbv zeta in Hl. rewrite <-Hm' in Hl.
  intros c p'. rewrite Hg. destruct (grid m !! c) as [p|] eqn:Hp; [|done].
  intros [= <-]. rewrite Hl.
  - rewrite decide_True.
    2:{ apply list_elem_of_fmap. exists (c, p).
        split; [done|]. by apply elem_of_map_to_list. }
    rewrite Hp. destruct (prop_is_infected p) eqn:Hi; [done|].
    rewrite (Hm c p Hp Hi). unfold decay_with_threshold. by rewrite Hi, Hi.
  - apply NoDup_fst_map_to_list.
  - intros d Hd'. apply list_elem_of_fmap in Hd' as ([d' q] & -> & Hdq).
    apply elem_of_map_to_list in Hdq. by exists q.
Qed.

Lemma step_body_mirrors m m' :
  step_body m = Ok tt m' -> clean_cells_unmarked m -> layer_mirrors_grid m'.
Proof.
  unfold step_body. intros Hs Hm.
  apply bind_Ok_inv in Hs as ([] & m1 & H1 & Hs).
  apply bind_Ok_inv in Hs as ([] & m2 & H2 & Hs).
  apply bind_Ok_inv in Hs as ([] & m3 & H3 & Hs).
  apply bind_Ok_inv in Hs as ([] & m4 & H4 & Hs).
  apply (decay_mirrors m4 m' Hs).
  pose proof (contaminates_collect m) as R1. rewrite H1 in R1.
  pose proof (hw_respects_do contaminates_only _ contaminates_move_around m1)
    as R2. rewrite H2 in R2.
  pose proof (hw_respects_do contaminates_only _ contaminates_spread_virus m2)
    as R3. rewrite H3 in R3.
  pose proof (hw_respects_do contaminates_only _
                contaminates_get_infected_from_cell m3) as R4.
  rewrite H4 in R4. simpl in *.
  eapply unmarked_contaminates; [|exact Hm].
  etrans; [exact R1|]. etrans; [exact R2|]. etrans; [exact R3|exact R4].
Qed.

Lemma step_mirrors m m' :
  step m = Ok tt m' -> layer_mirrors_grid m -> layer_mirrors_grid m'.
Proof.
  unfold step, _stop_condition, bind at 1, get. destruct (decide _).
  - intros [= <-]. done.
  - intros Hs Hm. apply (step_body_mirrors m m' Hs). by apply mirrors_unmarked.
Qed.

Lemma ticks_mirrors n : forall m m',
  ticks n m = Ok tt m' -> layer_mirrors_grid m -> layer_mirrors_grid m'.
Proof.
  induction n as [|n IH]; intros m m'; simpl.
  - by intros [= <-].
  - intros Hs Hm. apply bind_Ok_inv in Hs as ([] & m1 & H1 & Hs).
    apply (IH m1 m' Hs). by apply (step_mirrors m m1).
Qed.

End HomeworkCells.

(** * The disease model: the persistence counters and the collected rows *)

Section HomeworkRows.
Import Homework.

Lemma hw_keeps_do (I : Model -> Prop) method :
  (forall i, keeps I (method i)) -> keeps I (do method).
Proof.
  intros H. unfold do. apply keeps_bind; [apply keeps_get|].
  intros m. by apply keeps_forM_.
Qed.

Lemma persistence_step_body : keeps persistence_bounded step_body.
Proof.
  unfold step_body.
  apply keeps_bind.
  { eapply keeps_respects; [apply persistence_contaminates|].
    apply contaminates_collect. }
  intros _. apply keeps_bind.
  { apply hw_keeps_do. intros i.
    eapply keeps_respects; [apply persistence_contaminates|].
    apply contaminates_move_around. }
  intros _. apply keeps_bind.
  { apply hw_keeps_do. intros i.
    eapply keeps_respects; [apply persistence_contaminates|].
    apply contaminates_spread_virus. }
  intros _. apply keeps_bind.
  { apply hw_keeps_do. intros i.
    eapply keeps_respects; [apply persistence_contaminates|].
    apply contaminates_get_infected_from_cell. }
  intros _. apply persistence_decay.
Qed.

Lemma persistence_step : keeps persistence_bounded step.
Proof.
  unfold step, _stop_condition. apply keeps_bind; [apply keeps_get|].
  intros m. destruct (decide _).
  - by apply keeps_modify.
  - apply persistence_step_body.
Qed.

Lemma persistence_ticks n : keeps persistence_bounded (ticks n).
Proof.
  induction n as [|n IH]; simpl; [apply keeps_ret|].
  apply keeps_bind; [apply persistence_step|]. intros _. apply IH.
Qed.

#[local] Instance same_rows_preorder : PreOrder same_rows.
Proof.
  split; [done|]. intros m1 m2 m3. unfold same_rows. congruence.
Qed.

Lemma rows_random_random : respects same_rows random_random.
Proof. by intros m. Qed.

Lemma rows_select_random_cell cells :
  respects same_rows (select_random_cell cells).
Proof. intros m. unfold select_random_cell. by destruct (Grid.choice _ _). Qed.

Lemma rows_check self msg :
  respects same_rows (check_grid_initialization self msg).
Proof.
  unfold check_grid_initialization. destruct (cell self);
    [apply respects_ret|apply respects_raise]; apply _.
Qed.

Ltac rows :=
  repeat respects_step ltac:(
    first [ apply rows_random_random
          | apply rows_select_random_cell
          | apply rows_check
          | apply respects_on_agent; [apply _|intros ?]
          | apply hw_respects_do; [apply _|intros ?]
          | done ]).

Lemma rows_move_around i : respects same_rows (move_around i).
Proof. unfold move_around, move_to, assign_cell. rows. Qed.

Lemma rows_spread_virus i : respects same_rows (spread_virus i).
Proof. unfold spread_virus, infect_encountered, _get_infected. rows. Qed.

Lemma rows_get_infected_from_cell i :
  respects same_rows (get_infected_from_cell i).
Proof.
  unfold get_infected_from_cell, _get_infection_probabilty,
    _in_neighbourhood_of_infection, _get_infected. rows.
Qed.

Lemma rows_decay : respects same_rows decay.
Proof.
  unfold decay. rows. unfold same_rows, decay_cell. by repeat case_match.
Qed.

Lemma rows_after_collect :
  respects same_rows
    (do move_around ;; do spread_virus ;; do get_infected_from_cell ;; decay).
Proof.
  repeat respects_step ltac:(
    first [ apply rows_decay
          | apply hw_respects_do; [apply _|intros ?]
          | apply rows_move_around
          | apply rows_spread_virus
          | apply rows_get_infected_from_cell ]).
Qed.

Lemma rows_step_body m :
  datacollector (state_of (step_body m)) =
  (direct_infections m, location_infections m) :: datacollector m.
Proof.
  unfold step_body. unfold bind at 1, collect, modify.
  apply (rows_after_collect (set_datacollector _ m)).
Qed.

Lemma rows_ticks n : forall m,
  exists rows,
    datacollector (state_of (ticks n m)) = rows ++ datacollector m /\
    (length rows <= n)%nat.
Proof.
  induction n as [|n IH]; intros m; simpl.
  - exists []. split; [done|simpl; lia].
  - unfold bind. destruct (step m) as [[] m1|e m1] eqn:Hs.
    + destruct (IH m1) as (rows & -> & Hlen).
      assert (exists r, datacollector m1 = r ++ datacollector m /\
                        (length r <= 1)%nat) as (r & -> & Hr).
      { pose proof (f_equal state_of Hs) as Hm1. simpl in Hm1. subst m1.
        unfold step, _stop_condition, bind at 1, get.
        destruct (decide _).
        - exists []. split; [done|simpl; lia].
        - exists [(direct_infections m, location_infections m)].
          split; [apply rows_step_body|simpl; lia]. }
      exists (rows ++ r). rewrite length_app. split; [by rewrite app_assoc|lia].
    + simpl. pose proof (f_equal state_of Hs) as Hm1. simpl in Hm1. subst m1.
      unfold step, _stop_condition, bind at 1, get.
      destruct (decide _).
      * exists []. split; [done|simpl; lia].
      * exists [(direct_infections m, location_infections m)].
        split; [apply rows_step_body|simpl; lia].
Qed.

End HomeworkRows.

(** * The disease model: what the constructor refuses, and what it builds *)

Section HomeworkConstructed.
Import Homework.

Lemma hw_init_bad_dimensions pop inf com p w h rnd gen :
  ~ (0 < w /\ 0 < h) ->
  raised (__init__ pop inf com p w h rnd gen) =
  Some (ValueError "Dimensions must be a list of positive integers.").
Proof.
  intros Hd. unfold __init__.
  destruct ((0 <? w) && (0 <? h)) eqn:E; [|done].
  apply andb_true_iff in E as [?%Z.ltb_lt ?%Z.ltb_lt]. by destruct Hd.
Qed.

Lemma hw_init_negative_population pop inf com p w h rnd gen :
  0 < w -> 0 < h -> pop < 0 ->
  raised (__init__ pop inf com p w h rnd gen) =
  Some (ValueError "negative dimensions are not allowed").
Proof.
  intros Hw Hh Hn. unfold __init__.
  rewrite (proj2 (Z.ltb_lt 0 w) Hw), (proj2 (Z.ltb_lt 0 h) Hh). cbn [andb].
  unfold bind at 1. unfold ret at 1.
  unfold bind at 1. unfold generate_person_agents.
  unfold bind at 1. unfold get at 1.
  unfold bind at 1. unfold create_agents at 1. unfold modify at 1.
  unfold bind at 1. unfold create_agents at 1. unfold modify at 1.
  unfold bind at 1. unfold create_agents at 1. unfold modify at 1.
  unfold place_agents_on_grid. unfold bind at 1. unfold get at 1.
  unfold bind at 1. unfold rng_integers at 1.
  cbn [grid_width population_size set_agents].
  rewrite (proj2 (Z.leb_gt _ _) Hw), (proj2 (Z.ltb_lt _ _) Hn). done.
Qed.

Lemma hw_init_Ok_inv pop inf com p w h rnd gen m :
  __init__ pop inf com p w h rnd gen = Ok tt m -> 0 < w /\ 0 < h /\ 0 <= pop.
Proof.
  intros Hm.
  destruct (decide (0 < w /\ 0 < h)) as [[Hw Hh]|Hd].
  - split; [done|]. split; [done|].
    destruct (decide (0 <= pop)) as [|Hn]; [done|].
    pose proof (hw_init_negative_population pop inf com p w h rnd gen Hw Hh
                  ltac:(lia)) as Hr.
    by rewrite Hm in Hr.
  - pose proof (hw_init_bad_dimensions pop inf com p w h rnd gen Hd) as Hr.
    by rewrite Hm in Hr.
Qed.

Lemma length_filter_replicate {A} (P : A -> Prop) `{!forall x, Decision (P x)}
    (x : A) n :
  length (filter P (replicate n x)) = if decide (P x) then n else 0%nat.
Proof.
  induction n as [|n IH]; simpl; [by destruct (decide _)|].
  rewrite filter_cons. destruct (decide (P x)); simpl; by rewrite IH.
Qed.

Lemma hw_init_infected_count pop inf com p w h rnd gen m :
  __init__ pop inf com p w h rnd gen = Ok tt m ->
  infected_count m = Z.to_nat inf.
Proof.
  intros Hm. unfold infected_count.
  pose proof (length_filter_fmap bucket (fun b => b.1 = true)
                (HQ:=fun y => decide_rel eq y.1 true) (agents m)) as H.
  etrans; [symmetry; apply H|].
  rewrite (hw_init_buckets _ _ _ _ _ _ _ _ _ Hm).
  rewrite !filter_app, !length_app, !length_filter_replicate.
  rewrite decide_True by done. rewrite !decide_False by done. lia.
Qed.

Lemma hw_init_well_placed pop inf com p w h rnd gen :
  3 <= w -> 3 <= h -> 0 <= inf -> 0 <= com -> inf + com <= pop -> 0 < pop ->
  exists m, __init__ pop inf com p w h rnd gen = Ok tt m /\ well_placed m.
Proof.
  intros Hw Hh Hi Hc Hs Hp.
  destruct (hw_init_returns pop inf com p w h rnd gen)
    as (m & Hm & Hgw & Hgh & _ & _ & _ & _ & _ & Hg & _ & Hlen & Hpl);
    [lia..|].
  exists m. split; [done|]. unfold well_placed, cells_initialized.
  rewrite Hgw, Hgh. split; [done|]. split; [done|]. split; [|split].
  - intros c. rewrite Hg, <-elem_of_all_cells.
    destruct (decide (c ∈ Grid.all_cells w h)); [by eauto|].
    split; [by intros []|done].
  - intros Hnil. rewrite Hnil in Hlen. simpl in Hlen. lia.
  - apply Forall_forall. intros a Ha.
    apply list_elem_of_lookup in Ha as [i Hai].
    apply (Hpl i a Hai). apply lookup_lt_Some in Hai. lia.
Qed.

End HomeworkConstructed.

(** * The disease model: further properties *)

(** X1.  Every infection is counted once.  Moving, spreading the virus,
    passive acquisition, the decay, a step and any run of ticks never lower
    the two infection counters, and the number of infected agents grows by
    exactly what the two counters grow by together, also when the call
    raises; so after construction and any number of ticks the infected
    agents are the initially infected ones plus [direct_infections] plus
    [location_infections]. *)
Theorem X1_every_infection_is_counted_once :
  (forall (i : nat) (m : Homework.Model),
     Homework.infections_accounted m (state_of (Homework.move_around i m)) /\
     Homework.infections_accounted m (state_of (Homework.spread_virus i m)) /\
     Homework.infections_accounted m
       (state_of (Homework.get_infected_from_cell i m))) /\
  (forall m : Homework.Model,
     Homework.infections_accounted m (state_of (Homework.decay m)) /\
     Homework.infections_accounted m (state_of (Homework.step m))) /\
  (forall (n : nat) (m : Homework.Model),
     Homework.infections_accounted m (state_of (Homework.ticks n m))) /\
  (forall pop inf com p w h rnd gen (m : Homework.Model) (n : nat),
     Homework.__init__ pop inf com p w h rnd gen = Ok tt m ->
     let m' := state_of (Homework.ticks n m) in
     Z.of_nat (Homework.infected_count m') =
     Z.of_nat (Z.to_nat inf) + Homework.direct_infections m'
     + Homework.location_infections m').
Proof.
  split; [|split; [|split]].
  - intros i m. split; [apply accounted_move_around|].
    split; [apply accounted_spread_virus|apply accounted_get_infected_from_cell].
  - intros m. split; [apply accounted_decay|apply accounted_step].
  - intros n m. apply accounted_ticks.
  - intros pop inf com p w h rnd gen m n Hm m'.
    destruct (hw_init_Ok_inv _ _ _ _ _ _ _ _ _ Hm) as (Hw & Hh & Hp).
    destruct (hw_init_returns pop inf com p w h rnd gen Hw Hh Hp)
      as (m0 & Hm0 & _ & _ & Hd & Hl & _).
    rewrite Hm in Hm0. injection Hm0 as <-.
    pose proof (hw_init_infected_count _ _ _ _ _ _ _ _ _ Hm) as Hc.
    destruct (accounted_ticks n m) as (_ & _ & Hacc). fold m' in Hacc.
    rewrite Hc, Hd, Hl in Hacc. lia.
Qed.

Lemma X1_witness_disease_model_after_two_ticks :
  Z.of_nat (Homework.infected_count
              (state_of (Homework.ticks 2 Examples.disease_model))) =
  Z.of_nat (Z.to_nat 1)
  + Homework.direct_infections
      (state_of (Homework.ticks 2 Examples.disease_model))
  + Homework.location_infections
      (state_of (Homework.ticks 2 Examples.disease_model)).
Proof.
  apply (proj2 (proj2 (proj2 X1_every_infection_is_counted_once))
           2 1 1 (1 # 2)%Q 3 3 (Examples.constant_tape (9 # 10))
           (Examples.constant_tape (1 # 2)) Examples.disease_model 2%nat).
  vm_compute. reflexivity.
Defined.

(** X2.  What the constructor refuses and what it builds.  Grid dimensions
    that are not both positive and a negative [population_size] raise a
    [ValueError].  Otherwise, when at least one agent is asked for, the
    constructor returns: the counters are zero, one row is collected, the
    cells of the grid are exactly the cells that carry the two properties,
    all clean with persistence 0, and [place_agents_on_grid] gives a cell
    of the grid to the agents registered before index [population_size]
    and to no other agent. *)
Theorem X2_constructor_places_the_first_population_size_agents :
  forall pop inf com p w h rnd gen,
    (~ (0 < w /\ 0 < h) ->
     exists msg,
       raised (Homework.__init__ pop inf com p w h rnd gen)
       = Some (ValueError msg)) /\
    (0 < w -> 0 < h -> pop < 0 ->
     exists msg,
       raised (Homework.__init__ pop inf com p w h rnd gen)
       = Some (ValueError msg)) /\
    (0 < w -> 0 < h -> 0 <= pop -> 0 < inf \/ 0 < com \/ inf + com < pop ->
     exists m,
       Homework.__init__ pop inf com p w h rnd gen = Ok tt m /\
       Homework.grid_width m = w /\ Homework.grid_height m = h /\
       Homework.get_direct_infections m = 0 /\
       Homework.get_location_infections m = 0 /\
       Homework.datacollector m = [(0, 0)] /\
       Homework.running m = true /\
       Homework.cells_initialized m /\
       (forall c q, Homework.grid m !! c = Some q ->
                    q = {| Homework.prop_is_infected := false;
                           Homework.prop_virus_persistence := 0 |}) /\
       length (Homework.agents m) =
         (Z.to_nat inf + Z.to_nat com + Z.to_nat (pop - inf - com))%nat /\
       Homework.placed_before (Z.to_nat pop) m).
Proof.
  intros pop inf com p w h rnd gen. split; [|split].
  - intros Hd. eexists. by apply hw_init_bad_dimensions.
  - intros Hw Hh Hn. eexists. by apply hw_init_negative_population.
  - intros Hw Hh Hn _.
    destruct (hw_init_returns pop inf com p w h rnd gen Hw Hh Hn)
      as (m & Hm & Hgw & Hgh & Hdi & Hli & Hdc & Hr & _ & Hg & _ & Hlen & Hpl).
    exists m. do 7 (split; [done|]). split; [|split; [|done]].
    + intros c. rewrite Hg, Hgw, Hgh, <-elem_of_all_cells.
      destruct (decide (c ∈ Grid.all_cells w h)); [by eauto|].
      split; [by intros []|done].
    + intros c q. rewrite Hg. destruct (decide _); [|done]. by intros [= <-].
Qed.

Lemma X2_witness_misconfigured_model :
  exists m,
    Homework.__init__ 1 1 1 (1 # 2) 3 3 (Examples.constant_tape (9 # 10))
      (Examples.constant_tape (1 # 2)) = Ok tt m /\
    length (Homework.agents m) = 2%nat /\
    Homework.placed_before 1 m.
Proof.
  destruct (X2_constructor_places_the_first_population_size_agents
              1 1 1 (1 # 2)%Q 3 3 (Examples.constant_tape (9 # 10))
              (Examples.constant_tape (1 # 2))) as (_ & _ & H).
  destruct H as (m & Hm & _ & _ & _ & _ & _ & _ & _ & _ & Hlen & Hpl);
    [lia|lia|lia|left; lia|].
  exists m. split; [exact Hm|]. split; [exact Hlen|exact Hpl].
Defined.

(** X3.  A placed population runs without raising.  On a grid of at least
    3 x 3 cells, a model whose agents all stand on cells of the grid
    returns from every agent method, from the decay, from a step and from
    any number of ticks, and its agents still all stand on cells of the
    grid afterwards; the constructor builds such a model when the infected
    and comorbid agents asked for fit in a positive [population_size]. *)
Theorem X3_placed_population_runs_without_raising :
  (forall pop inf com p w h rnd gen,
     3 <= w -> 3 <= h -> 0 <= inf -> 0 <= com -> inf + com <= pop -> 0 < pop ->
     exists m,
       Homework.__init__ pop inf com p w h rnd gen = Ok tt m /\
       Homework.well_placed m) /\
  (forall i : nat,
     returns Homework.well_placed (Homework.move_around i)
       (fun _ => Homework.well_placed) /\
     returns Homework.well_placed (Homework.spread_virus i)
       (fun _ => Homework.well_placed) /\
     returns Homework.well_placed (Homework.get_infected_from_cell i)
       (fun _ => Homework.well_placed)) /\
  returns Homework.well_placed Homework.decay
    (fun _ => Homework.well_placed) /\
  returns Homework.well_placed Homework.step
    (fun _ => Homework.well_placed) /\
  (forall (m : Homework.Model) (n : nat),
     Homework.well_placed m ->
     exists m', Homework.ticks n m = Ok tt m' /\ Homework.well_placed m').
Proof.
  split; [|split; [|split; [|split]]].
  - apply hw_init_well_placed.
  - intros i. split; [apply hw_returns_move_around|].
    split; [apply hw_returns_spread_virus|
            apply hw_returns_get_infected_from_cell].
  - apply hw_returns_decay.
  - apply hw_returns_step.
  - intros m n Hm.
    by apply (returns_unit _ _ _ m (hw_returns_ticks n)).
Qed.

Lemma X3_witness_disease_model_runs :
  exists m m',
    Homework.__init__ 2 1 1 (1 # 2) 3 3 (Examples.constant_tape (9 # 10))
      (Examples.constant_tape (1 # 2)) = Ok tt m /\
    Homework.ticks 5 m = Ok tt m' /\ Homework.well_placed m'.
Proof.
  destruct (proj1 X3_placed_population_runs_without_raising
              2 1 1 (1 # 2)%Q 3 3 (Examples.constant_tape (9 # 10))
              (Examples.constant_tape (1 # 2)))
    as (m & Hm & Hwp); [lia..|].
  destruct (proj2 (proj2 (proj2 (proj2
              X3_placed_population_runs_without_raising))) m 5%nat Hwp)
    as (m' & Hm' & Hwp').
  exists m, m'. split; [exact Hm|]. split; [exact Hm'|exact Hwp'].
Defined.

(** X4.  Agents beyond [population_size] stop the first step.  When more
    infected and comorbid agents are asked for than [population_size], the
    constructor still returns, with all of them registered and only the
    first [population_size] placed; the first step then raises the error of
    [check_grid_initialization] from [move_around], at the first agent
    without a cell. *)
Theorem X4_agents_beyond_population_size_stop_the_first_step :
  forall pop inf com p w h rnd gen,
    3 <= w -> 3 <= h -> 0 <= pop -> 0 <= inf -> 0 < com -> pop < inf + com ->
    exists m,
      Homework.__init__ pop inf com p w h rnd gen = Ok tt m /\
      length (Homework.agents m) = Z.to_nat (inf + com) /\
      Homework.placed_before (Z.to_nat pop) m /\
      raised (Homework.step m) =
      Some (grid_not_initialized "The agent cannot move around the grid.").
Proof.
  intros pop inf com p w h rnd gen Hw Hh Hp Hi Hc Hs.
  destruct (hw_init_returns pop inf com p w h rnd gen)
    as (m & Hm & Hgw & Hgh & _ & _ & _ & _ & _ & _ & _ & Hlen & Hpl);
    [lia..|].
  exists m. split; [done|].
  assert (length (Homework.agents m) = Z.to_nat (inf + com)) as Hlen'.
  { rewrite Hlen. rewrite (Z2Nat.inj_add inf com) by lia.
    replace (Z.to_nat (pop - inf - com)) with 0%nat by lia. lia. }
  split; [done|]. split; [done|].
  apply (hw_step_raises_unplaced m (Z.to_nat pop)); [lia|lia|done|lia|].
  pose proof (hw_init_buckets _ _ _ _ _ _ _ _ _ Hm) as Hb.
  assert ((Homework.bucket <$> Homework.agents m) !! Z.to_nat inf
          = Some (false, true)) as Hk.
  { rewrite Hb. rewrite lookup_app_r by (rewrite length_replicate; lia).
    rewrite length_replicate, Nat.sub_diag.
    rewrite lookup_app_l by (rewrite length_replicate; lia).
    apply lookup_replicate_2. lia. }
  rewrite list_lookup_fmap in Hk.
  destruct (Homework.agents m !! Z.to_nat inf) as [a|] eqn:Ha; [|done].
  injection Hk as Hk. apply (hw_not_infected_count_pos m _ a Ha).
  unfold Homework.bucket in Hk. unfold Homework.is_infected. congruence.
Qed.

Lemma X4_witness_misconfigured_model_raises :
  exists m,
    Homework.__init__ 1 1 1 (1 # 2) 3 3 (Examples.constant_tape (9 # 10))
      (Examples.constant_tape (1 # 2)) = Ok tt m /\
    raised (Homework.step m) =
    Some (grid_not_initialized "The agent cannot move around the grid.").
Proof.
  destruct (X4_agents_beyond_population_size_stop_the_first_step
              1 1 1 (1 # 2)%Q 3 3 (Examples.constant_tape (9 # 10))
              (Examples.constant_tape (1 # 2)))
    as (m & Hm & _ & _ & Hr); [lia..|].
  exists m. split; [exact Hm|exact Hr].
Defined.

(** X5.  The property layer shows the contaminated cells.  After
    construction, and after every step and every run of ticks that
    returns, the [infected_property_layer] holds for every cell of the grid
    the value of the cell's [is_infected] property. *)
Theorem X5_property_layer_mirrors_the_cells :
  (forall pop inf com p w h rnd gen (m : Homework.Model),
     Homework.__init__ pop inf com p w h rnd gen = Ok tt m ->
     Homework.layer_mirrors_grid m) /\
  (forall m m' : Homework.Model,
     Homework.layer_mirrors_grid m -> Homework.step m = Ok tt m' ->
     Homework.layer_mirrors_grid m') /\
  (forall (n : nat) (m m' : Homework.Model),
     Homework.layer_mirrors_grid m -> Homework.ticks n m = Ok tt m' ->
     Homework.layer_mirrors_grid m').
Proof.
  split; [|split].
  - intros pop inf com p w h rnd gen m Hm.
    destruct (hw_init_Ok_inv _ _ _ _ _ _ _ _ _ Hm) as (Hw & Hh & Hp).
    destruct (hw_init_returns pop inf com p w h rnd gen Hw Hh Hp)
      as (m0 & Hm0 & _ & _ & _ & _ & _ & _ & _ & Hg & Hl & _).
    rewrite Hm in Hm0. injection Hm0 as <-.
    intros c q. rewrite Hg, Hl. destruct (decide _); [|done].
    by intros [= <-].
  - intros m m' Hm Hs. by apply (step_mirrors m m').
  - intros n m m' Hm Hs. by apply (ticks_mirrors n m m').
Qed.

Lemma X5_witness_disease_model_layer :
  exists m',
    Homework.ticks 3 Examples.disease_model = Ok tt m' /\
    Homework.layer_mirrors_grid m'.
Proof.
  destruct (Homework.ticks 3 Examples.disease_model) as [[] m'|e m'] eqn:E.
  - exists m'. split; [reflexivity|].
    apply (proj2 (proj2 X5_property_layer_mirrors_the_cells)
             3%nat Examples.disease_model m'); [|exact E].
    apply (proj1 X5_property_layer_mirrors_the_cells
             2 1 1 (1 # 2)%Q 3 3 (Examples.constant_tape (9 # 10))
             (Examples.constant_tape (1 # 2))).
    vm_compute. reflexivity.
  - vm_compute in E. discriminate E.
Defined.

(** X6.  A tick that runs collects the counters it started with.  A step
    taken while some agent is not infected adds one row to the data
    collector, holding the values the two reporters had when the step
    began, also when the step raises later on; a step that finds every
    agent infected adds no row, so the infections of the last running tick
    are not collected by the tick that stops the run.  Rows are only added
    in front, at most one per tick. *)
Theorem X6_running_tick_collects_the_counters_it_started_with :
  (forall m : Homework.Model,
     Homework.datacollector (state_of (Homework.step m)) =
     if decide (Homework.not_infected_count m = 0%nat)
     then Homework.datacollector m
     else (Homework.get_direct_infections m,
           Homework.get_location_infections m) :: Homework.datacollector m) /\
  (forall (i : nat) (m : Homework.Model),
     Homework.same_rows m (state_of (Homework.move_around i m)) /\
     Homework.same_rows m (state_of (Homework.spread_virus i m)) /\
     Homework.same_rows m (state_of (Homework.get_infected_from_cell i m)) /\
     Homework.same_rows m (state_of (Homework.decay m))) /\
  (forall (n : nat) (m : Homework.Model),
     exists rows,
       Homework.datacollector (state_of (Homework.ticks n m)) =
       rows ++ Homework.datacollector m /\
       (length rows <= n)%nat).
Proof.
  split; [|split].
  - intros m. unfold Homework.step, Homework._stop_condition, bind at 1, get.
    destruct (decide _); [done|]. apply rows_step_body.
  - intros i m. split; [apply rows_move_around|].
    split; [apply rows_spread_virus|].
    split; [apply rows_get_infected_from_cell|apply rows_decay].
  - apply rows_ticks.
Qed.

(** X7.  The persistence counters stay small.  The constructor leaves every
    cell with persistence 0, and no operation of the model or of an agent
    takes a counter outside 0..2 or leaves a positive counter on a cell that
    is not contaminated, also when the call raises. *)
Theorem X7_persistence_counters_stay_between_zero_and_two :
  (forall pop inf com p w h rnd gen (m : Homework.Model),
     Homework.__init__ pop inf com p w h rnd gen = Ok tt m ->
     Homework.persistence_bounded m) /\
  (forall (o : Homework.Operation) (m : Homework.Model),
     Homework.persistence_bounded m ->
     Homework.persistence_bounded (state_of (Homework.call o m))).
Proof.
  split.
  - intros pop inf com p w h rnd gen m Hm.
    destruct (hw_init_Ok_inv _ _ _ _ _ _ _ _ _ Hm) as (Hw & Hh & Hp).
    destruct (hw_init_returns pop inf com p w h rnd gen Hw Hh Hp)
      as (m0 & Hm0 & _ & _ & _ & _ & _ & _ & _ & Hg & _).
    rewrite Hm in Hm0. injection Hm0 as <-.
    intros c q. rewrite Hg. destruct (decide _); [|done].
    intros [= <-]. simpl. split; [lia|done].
  - intros o. destruct o; simpl.
    + eapply keeps_respects; [apply persistence_contaminates|].
      apply contaminates_move_around.
    + eapply keeps_respects; [apply persistence_contaminates|].
      apply contaminates_spread_virus.
    + eapply keeps_respects; [apply persistence_contaminates|].
      apply contaminates_get_infected_from_cell.
    + eapply keeps_respects; [apply persistence_contaminates|].
      apply contaminates__get_infected.
    + apply persistence_decay.
    + apply persistence_step.
    + apply persistence_ticks.
Qed.

Lemma X7_witness_disease_model_counters :
  Homework.persistence_bounded
    (state_of (Homework.call (Homework.Ticks 2) Examples.disease_model)).
Proof.
  apply (proj2 X7_persistence_counters_stay_between_zero_and_two).
  apply (proj1 X7_persistence_counters_stay_between_zero_and_two
           2 1 1 (1 # 2)%Q 3 3 (Examples.constant_tape (9 # 10))
           (Examples.constant_tape (1 # 2))).
  vm_compute. reflexivity.
Defined.

(** * The second trend model: calls, sums and counts *)

Section Laboratory2Calls.
Import Laboratory2.
Context (R : relation Model) `{!PreOrder R}.

Lemma l2_respects_do method :
  (forall i, respects R (method i)) -> respects R (do method).
Proof.
  intros H. unfold do. apply respects_bind; [apply _|apply respects_get; apply _|].
  intros m. apply respects_forM_; [apply _|done].
Qed.

Lemma l2_respects__stop_condition body :
  (forall m, R m (set_running false m)) -> respects R body ->
  respects R (_stop_condition body).
Proof.
  intros Hstop Hbody. unfold _stop_condition.
  apply respects_bind; [apply _|apply respects_get; apply _|].
  intros m. destruct (decide _); [by apply respects_modify|done].
Qed.

Lemma l2_respects_ticks n : respects R step -> respects R (ticks n).
Proof.
  intros Hstep. induction n as [|n IH]; simpl.
  - apply respects_ret; apply _.
  - apply respects_bind; [apply _|done|done].
Qed.

Lemma l2_respects_influencer_agents_step_with :
  (forall followers f,
     respects R (spread_news_among_random_followers followers f)) ->
  (forall i, respects R (move_around i)) ->
  respects R influencer_agents_step.
Proof.
  intros Hs Hm. unfold influencer_agents_step.
  apply respects_bind; [apply _|apply respects_get; apply _|]. intros m.
  apply respects_forM_; [apply _|]. intros [[] l]; simpl;
    (apply respects_forM_; [apply _|]); intros x; [apply Hs|apply Hm].
Qed.

Lemma l2_respects_step_with :
  (forall i, respects R (move_around i)) ->
  (forall i, respects R (spread_news i)) ->
  (forall followers f,
     respects R (spread_news_among_random_followers followers f)) ->
  (forall m, R m (set_running false m)) ->
  respects R step.
Proof.
  intros Hm Hn Hs Hstop. apply l2_respects__stop_condition; [done|].
  unfold step_body.
  apply respects_bind; [apply _|by apply l2_respects_do|intros _].
  apply respects_bind; [apply _|by apply l2_respects_do|intros _].
  by apply l2_respects_influencer_agents_step_with.
Qed.

End Laboratory2Calls.

Section Sums.

Lemma sum_alter {A} (h : A -> Z) (f : A -> A) (l : list A) i :
  foldr Z.add 0 (h <$> alter f i l) =
  foldr Z.add 0 (h <$> l)
  + match l !! i with Some x => h (f x) - h x | None => 0 end.
Proof.
  revert i. induction l as [|y l IH]; intros [|i]; try (cbn; lia).
  change (alter f (Datatypes.S i) (y :: l)) with (y :: alter f i l).
  rewrite !fmap_cons. cbn [foldr]. rewrite IH.
  change ((y :: l) !! Datatypes.S i) with (l !! i). lia.
Qed.

Lemma length_filter_alter_keep {A} (P : A -> Prop) `{!forall x, Decision (P x)}
    (f : A -> A) (l : list A) i :
  (forall x, l !! i = Some x -> (P (f x) <-> P x)) ->
  length (filter P (alter f i l)) = length (filter P l).
Proof.
  revert i. induction l as [|y l IH]; intros [|i] Hf; try done.
  - change (alter f 0%nat (y :: l)) with (f y :: l). rewrite !filter_cons.
    specialize (Hf y eq_refl).
    destruct (decide (P (f y))) as [H1|H1], (decide (P y)) as [H2|H2];
      try done; exfalso; [apply H2|apply H1]; by apply Hf.
  - change (alter f (Datatypes.S i) (y :: l)) with (y :: alter f i l).
    rewrite !filter_cons.
    destruct (decide (P y)); rewrite ?length_cons; by rewrite (IH i).
Qed.

End Sums.

Section Laboratory2Persons.
Import Laboratory2.

Lemma l2_persons_filter_length (P : PersonAgent -> Prop)
    {DP : forall p, Decision (P p)} (Q : Agent -> Prop)
    {DQ : forall a, Decision (Q a)} (ags : list Agent) :
  (forall p, Q (RegularPerson p) <-> P p) ->
  (forall f, ~ Q (SportInfluencer f)) ->
  length (filter (fun ip : nat * PersonAgent => P ip.2) (persons ags))
  = length (filter Q ags).
Proof.
  intros HP HQ. unfold persons.
  change (imap pair ags) with (imap (fun i a => (id i, a)) ags).
  generalize (@id nat). revert ags.
  induction ags as [|a ags IH]; intros g; [done|].
  rewrite imap_cons. simpl. rewrite filter_cons.
  destruct a as [p|f]; simpl.
  - rewrite filter_cons. simpl.
    destruct (decide (P p)) as [H1|H1],
             (decide (Q (RegularPerson p))) as [H2|H2];
      rewrite ?length_cons.
    + f_equal. apply (IH (g ∘ Datatypes.S)).
    + exfalso. apply H2. by apply HP.
    + exfalso. apply H1. by apply HP.
    + apply (IH (g ∘ Datatypes.S)).
  - destruct (decide (Q (SportInfluencer f))) as [H2|H2];
      [by destruct (HQ f)|]. apply (IH (g ∘ Datatypes.S)).
Qed.

Lemma l2_count_knowing m :
  count_agents_knowing_trend m =
  length (filter (fun a => informed a = true) (agents m)).
Proof.
  unfold count_agents_knowing_trend.
  apply (l2_persons_filter_length (fun p => knows_about_trend p = true)
           (DP:=fun p => decide_rel eq (knows_about_trend p) true)
           (fun a => informed a = true)
           (DQ:=fun a => decide_rel eq (informed a) true)); [done|].
  by intros f.
Qed.

Lemma l2_elem_of_influencers ags f :
  f ∈ influencers ags <-> exists g, ags !! f = Some (SportInfluencer g).
Proof.
  unfold influencers. rewrite list_elem_of_omap. split.
  - intros ([i a] & Hin & Heq). apply elem_of_lookup_imap in Hin
      as (i' & a' & [= -> ->] & Hi). simpl in Heq.
    destruct a' as [p|g]; [done|]. injection Heq as <-. by exists g.
  - intros (g & Hf). exists (f, SportInfluencer g). split; [|done].
    apply elem_of_lookup_imap. by exists f, (SportInfluencer g).
Qed.

Lemma l2_person_at_None m j :
  person_at m j = None -> forall d, learn_about_trend j d m = Ok tt m.
Proof.
  intros Hj d. unfold learn_about_trend, on_person. unfold person_at in Hj.
  by destruct (agents m !! j) as [[p|f]|].
Qed.

Lemma l2_groupby_elem l g j :
  g ∈ groupby l -> j ∈ g.2 -> j ∈ l.*1.
Proof.
  unfold groupby. destruct l as [|ip l]; [by intros ?%elem_of_nil|].
  set (L := ip :: l). intros Hg Hj.
  apply elem_of_cons in Hg as [->|Hg].
  - simpl in Hj. apply list_elem_of_fmap in Hj as (x & -> & Hx).
    apply list_elem_of_filter in Hx as [_ Hx].
    apply list_elem_of_fmap. by exists x.
  - destruct (filter _ L) as [|x xs] eqn:E in Hg; [by apply elem_of_nil in Hg|].
    apply list_elem_of_singleton in Hg as ->. cbn [snd] in Hj.
    change (j ∈ (x :: xs).*1) in Hj.
    apply list_elem_of_fmap in Hj as (y & -> & Hy).
    rewrite <-E in Hy. apply list_elem_of_filter in Hy as [_ Hy].
    apply list_elem_of_fmap. by exists y.
Qed.

End Laboratory2Persons.

(** * The second trend model: the interaction counters *)

Section InteractionAccounting.
Import Laboratory2.

#[local] Instance interactions_accounted_preorder :
  PreOrder interactions_accounted.
Proof.
  split.
  - intros m. unfold interactions_accounted. lia.
  - intros m1 m2 m3. unfold interactions_accounted. lia.
Qed.

Lemma ia_frame m m' :
  direct_interactions_count m' = direct_interactions_count m ->
  indirect_interactions_count m' = indirect_interactions_count m ->
  successful_direct_interactions_count m'
    = successful_direct_interactions_count m ->
  successful_indirect_interactions_count m'
    = successful_indirect_interactions_count m ->
  interactions_accounted m m'.
Proof. intros H1 H2 H3 H4. unfold interactions_accounted. lia. Qed.

Lemma ia_random_random : respects interactions_accounted random_random.
Proof. intros m. by apply ia_frame. Qed.

Lemma ia_select_random_cell cells :
  respects interactions_accounted (select_random_cell cells).
Proof.
  intros m. unfold select_random_cell.
  destruct (Grid.choice _ _); by apply ia_frame.
Qed.

Lemma ia_check self msg :
  respects interactions_accounted (check_grid_initialization self msg).
Proof.
  unfold check_grid_initialization. destruct (cell self);
    [apply respects_ret|apply respects_raise]; apply _.
Qed.

Lemma ia_move_around i : respects interactions_accounted (move_around i).
Proof.
  unfold move_around, move_to, assign_cell, update_person.
  repeat respects_step ltac:(
    first [ apply ia_random_random
          | apply ia_select_random_cell
          | apply ia_check
          | apply l2_respects_on_person; [apply _|intros ?]
          | by apply ia_frame ]).
Qed.

(** An interaction is counted, then the person is told. *)
Lemma ia_learn_after_direct j :
  respects interactions_accounted
    (modify (fun m => set_direct_interactions_count
                        (direct_interactions_count m + 1) m) ;;
     learn_about_trend j true).
Proof.
  intros m. unfold bind at 1, modify.
  set (m1 := set_direct_interactions_count _ m).
  destruct (person_at m1 j) as [p|] eqn:Hj.
  - rewrite (learn_about_trend_person m1 j true p Hj). cbv zeta.
    destruct (Qltb _ _); unfold interactions_accounted; simpl; lia.
  - rewrite (l2_person_at_None m1 j Hj).
    unfold interactions_accounted; simpl; lia.
Qed.

Lemma ia_learn_after_indirect j f :
  respects interactions_accounted
    (update_influencer f reach_follower ;;
     modify (fun m => set_indirect_interactions_count
                        (indirect_interactions_count m + 1) m) ;;
     learn_about_trend j false).
Proof.
  intros m. unfold bind at 1, update_influencer, modify at 1.
  unfold bind at 1, modify.
  set (m1 := set_indirect_interactions_count _ _).
  destruct (person_at m1 j) as [p|] eqn:Hj.
  - rewrite (learn_about_trend_person m1 j false p Hj). cbv zeta.
    destruct (Qltb _ _); unfold interactions_accounted; simpl; lia.
  - rewrite (l2_person_at_None m1 j Hj).
    unfold interactions_accounted; simpl; lia.
Qed.

Lemma ia_gossip_to g j : respects interactions_accounted (gossip_to g j).
Proof.
  unfold gossip_to.
  repeat first
    [ apply ia_learn_after_direct
    | respects_step ltac:(
        first [ apply ia_random_random
              | apply l2_respects_on_person; [apply _|intros ?] ]) ].
Qed.

Lemma ia_spread_news i : respects interactions_accounted (spread_news i).
Proof.
  unfold spread_news.
  repeat respects_step ltac:(
    first [ apply ia_check
          | apply ia_gossip_to
          | apply l2_respects_on_person; [apply _|intros ?] ]).
Qed.

Lemma ia_spread_news_among_random_followers followers f :
  respects interactions_accounted
    (spread_news_among_random_followers followers f).
Proof.
  unfold spread_news_among_random_followers.
  repeat first
    [ apply ia_learn_after_indirect
    | respects_step ltac:(apply ia_random_random) ].
Qed.

Lemma ia_step : respects interactions_accounted step.
Proof.
  apply l2_respects_step_with; [apply _|..].
  - apply ia_move_around.
  - apply ia_spread_news.
  - apply ia_spread_news_among_random_followers.
  - intros m. by apply ia_frame.
Qed.

Lemma ia_ticks n : respects interactions_accounted (ticks n).
Proof. apply l2_respects_ticks; [apply _|apply ia_step]. Qed.

Lemma ratio_between_0_and_1 (s t : Z) :
  0 <= s <= t -> t <> 0 -> (0 <= inject_Z s / inject_Z t <= 1)%Q.
Proof.
  intros Hs Ht. assert (0 < inject_Z t)%Q as Hpos.
  { change 0%Q with (inject_Z 0). rewrite <-Zlt_Qlt. lia. }
  split.
  - apply Qle_shift_div_l; [done|]. rewrite Qmult_0_l.
    change 0%Q with (inject_Z 0). rewrite <-Zle_Qle. lia.
  - apply Qle_shift_div_r; [done|]. rewrite Qmult_1_l.
    rewrite <-Zle_Qle. lia.
Qed.

End InteractionAccounting.

(** * The second trend model: who knows the trend *)

Section KnowledgeAccounting.
Import Laboratory2.

#[local] Instance knowledge_accounted_preorder : PreOrder knowledge_accounted.
Proof.
  split.
  - intros m. unfold knowledge_accounted. lia.
  - intros m1 m2 m3. unfold knowledge_accounted. lia.
Qed.

Lemma ka_frame m m' :
  informed <$> agents m' = informed <$> agents m ->
  successful_direct_interactions_count m'
    = successful_direct_interactions_count m ->
  successful_indirect_interactions_count m'
    = successful_indirect_interactions_count m ->
  knowledge_accounted m m'.
Proof.
  intros Ha Hd Hi. unfold knowledge_accounted. rewrite Hd, Hi.
  assert (count_agents_knowing_trend m' = count_agents_knowing_trend m)
    as ->; [|lia].
  rewrite !l2_count_knowing.
  pose proof (length_filter_fmap informed (fun b => b = true)
                (HQ:=fun y => decide_rel eq y true)) as H.
  etrans; [symmetry; apply H|]. rewrite Ha. apply H.
Qed.

Lemma ka_learn_about_trend i d :
  respects knowledge_accounted (learn_about_trend i d).
Proof.
  intros m. destruct (person_at m i) as [p|] eqn:Hi.
  - rewrite (learn_about_trend_person m i d p Hi). cbv zeta.
    apply person_at_lookup in Hi.
    destruct (Qltb _ _).
    + assert (length (filter (fun a => informed a = true)
                (alter (alter_person set_knows_about_trend) i
                   (alter (alter_person hear_gossip) i (agents m))))
              = (length (filter (fun a => informed a = true) (agents m))
                 + (if knows_about_trend p then 0 else 1))%nat) as Hc.
      { rewrite list_alter_alter_eq.
        destruct (knows_about_trend p) eqn:Hk.
        - rewrite Nat.add_0_r. apply length_filter_alter_keep.
          intros x Hx. rewrite Hi in Hx. injection Hx as <-. simpl.
          by rewrite Hk.
        - rewrite Nat.add_1_r.
          apply (length_filter_alter_new _ _ _ _ (RegularPerson p));
            [done| |done].
          simpl. by rewrite Hk. }
      unfold knowledge_accounted. rewrite !l2_count_knowing.
      destruct d; simpl; rewrite Hc; destruct (knows_about_trend p); lia.
    + apply ka_frame; [|done..]. simpl. apply fmap_alter_same.
      by intros [q|f].
  - rewrite (l2_person_at_None m i Hi). reflexivity.
Qed.

Lemma ka_random_random : respects knowledge_accounted random_random.
Proof. intros m. by apply ka_frame. Qed.

Lemma ka_select_random_cell cells :
  respects knowledge_accounted (select_random_cell cells).
Proof.
  intros m. unfold select_random_cell.
  destruct (Grid.choice _ _); by apply ka_frame.
Qed.

Lemma ka_check self msg :
  respects knowledge_accounted (check_grid_initialization self msg).
Proof.
  unfold check_grid_initialization. destruct (cell self);
    [apply respects_ret|apply respects_raise]; apply _.
Qed.

Lemma ka_update_cell i c :
  respects knowledge_accounted (update_person i (set_person_cell c)).
Proof.
  intros m. apply ka_frame; [|done..]. simpl. apply fmap_alter_same.
  by intros [q|f].
Qed.

Lemma ka_update_influencer f g :
  respects knowledge_accounted (update_influencer f g).
Proof.
  intros m. apply ka_frame; [|done..]. simpl. apply fmap_alter_same.
  by intros [q|h].
Qed.

Ltac knowledge :=
  repeat respects_step ltac:(
    first [ apply ka_random_random
          | apply ka_select_random_cell
          | apply ka_check
          | apply ka_learn_about_trend
          | apply ka_update_cell
          | apply ka_update_influencer
          | apply l2_respects_on_person; [apply _|intros ?]
          | by apply ka_frame ]).

Lemma ka_move_around i : respects knowledge_accounted (move_around i).
Proof. unfold move_around, move_to, assign_cell. knowledge. Qed.

Lemma ka_spread_news i : respects knowledge_accounted (spread_news i).
Proof. unfold spread_news, gossip_to. knowledge. Qed.

Lemma ka_spread_news_among_random_followers followers f :
  respects knowledge_accounted
    (spread_news_among_random_followers followers f).
Proof. unfold spread_news_among_random_followers. knowledge. Qed.

Lemma ka_influencer_agents_step :
  respects knowledge_accounted influencer_agents_step.
Proof.
  apply l2_respects_influencer_agents_step_with; [apply _|..].
  - apply ka_spread_news_among_random_followers.
  - apply ka_move_around.
Qed.

Lemma ka_step : respects knowledge_accounted step.
Proof.
  apply l2_respects_step_with; [apply _|..].
  - apply ka_move_around.
  - apply ka_spread_news.
  - apply ka_spread_news_among_random_followers.
  - intros m. by apply ka_frame.
Qed.

Lemma ka_ticks n : respects knowledge_accounted (ticks n).
Proof. apply l2_respects_ticks; [apply _|apply ka_step]. Qed.

End KnowledgeAccounting.

(** * The second trend model: the encounters the agents report *)

Section EncounterAccounting.
Import Laboratory2.

#[local] Instance encounters_accounted_preorder : PreOrder encounters_accounted.
Proof.
  split.
  - intros m. unfold encounters_accounted. split; [done|lia].
  - intros m1 m2 m3 (H1 & H2 & H3) (H4 & H5 & H6).
    unfold encounters_accounted. split; [congruence|lia].
Qed.

Lemma ea_frame m m' :
  is_person <$> agents m' = is_person <$> agents m ->
  trend_encounters_of <$> agents m' = trend_encounters_of <$> agents m ->
  followers_influenced_of <$> agents m' = followers_influenced_of <$> agents m ->
  direct_interactions_count m' = direct_interactions_count m ->
  indirect_interactions_count m' = indirect_interactions_count m ->
  encounters_accounted m m'.
Proof.
  intros H1 H2 H3 H4 H5.
  unfold encounters_accounted, trend_encounters, followers_influenced,
    count_all_interactions.
  rewrite H2, H3, H4, H5. split; [done|lia].
Qed.

Lemma ea_random_random : respects encounters_accounted random_random.
Proof. intros m. by apply ea_frame. Qed.

Lemma ea_select_random_cell cells :
  respects encounters_accounted (select_random_cell cells).
Proof.
  intros m. unfold select_random_cell.
  destruct (Grid.choice _ _); by apply ea_frame.
Qed.

Lemma ea_check self msg :
  respects encounters_accounted (check_grid_initialization self msg).
Proof.
  unfold check_grid_initialization. destruct (cell self);
    [apply respects_ret|apply respects_raise]; apply _.
Qed.

Lemma ea_update_cell i c :
  respects encounters_accounted (update_person i (set_person_cell c)).
Proof.
  intros m. apply ea_frame; try done; simpl; apply fmap_alter_same;
    by intros [q|f].
Qed.

Lemma ea_move_around i : respects encounters_accounted (move_around i).
Proof.
  unfold move_around, move_to, assign_cell.
  repeat respects_step ltac:(
    first [ apply ea_select_random_cell
          | apply ea_check
          | apply ea_update_cell
          | apply l2_respects_on_person; [apply _|intros ?] ]).
Qed.

(** A person who is told after the interaction was counted. *)
Lemma ea_learn_counted m0 m1 j d p :
  person_at m1 j = Some p ->
  is_person <$> agents m1 = is_person <$> agents m0 ->
  trend_encounters m1 = trend_encounters m0 ->
  count_all_interactions m1 = count_all_interactions m0 + 1 ->
  followers_influenced m1 - followers_influenced m0 =
    indirect_interactions_count m1 - indirect_interactions_count m0 ->
  encounters_accounted m0 (state_of (learn_about_trend j d m1)).
Proof.
  intros Hj Hc Ht Hn Hf.
  rewrite (learn_about_trend_person m1 j d p Hj). cbv zeta.
  apply person_at_lookup in Hj.
  assert (forall G : Agent -> Agent,
            (forall a, is_person (G a) = is_person a) ->
            is_person <$> alter G j (agents m1)
            = is_person <$> agents m0) as Hc'.
  { intros G HG. rewrite <-Hc. by apply fmap_alter_same. }
  assert (forall G : Agent -> Agent,
            (forall a, followers_influenced_of (G a)
                       = followers_influenced_of a) ->
            foldr Z.add 0 (followers_influenced_of <$> alter G j (agents m1))
            = followers_influenced m1) as Hf'.
  { intros G HG. unfold followers_influenced. f_equal.
    by apply fmap_alter_same. }
  assert (forall G : Agent -> Agent,
            trend_encounters_of (G (RegularPerson p))
            = trend_gossip_counter p + 1 ->
            foldr Z.add 0 (trend_encounters_of <$> alter G j (agents m1))
            = trend_encounters m1 + 1) as Ht'.
  { intros G HG. rewrite sum_alter, Hj, HG. simpl. unfold trend_encounters.
    lia. }
  destruct (Qltb _ _).
  - assert (encounters_accounted m0
              (set_agents (alter (alter_person set_knows_about_trend) j
                             (alter (alter_person hear_gossip) j (agents m1)))
                          m1)) as H.
    { unfold encounters_accounted, trend_encounters at 1,
        followers_influenced at 1, count_all_interactions.
      cbn [agents set_agents direct_interactions_count
           indirect_interactions_count].
      rewrite list_alter_alter_eq.
      rewrite Hc' by (by intros [q|f]).
      rewrite Hf' by (by intros [q|f]).
      rewrite Ht' by done.
      unfold count_all_interactions in Hn. split; [done|lia]. }
    destruct d; exact H.
  - unfold encounters_accounted, trend_encounters at 1,
      followers_influenced at 1, count_all_interactions.
    cbn [state_of agents set_agents set_random direct_interactions_count
         indirect_interactions_count].
    rewrite Hc' by (by intros [q|f]).
    rewrite Hf' by (by intros [q|f]).
    rewrite Ht' by done.
    unfold count_all_interactions in Hn. split; [done|lia].
Qed.

Lemma ea_gossip_to g j : respects encounters_accounted (gossip_to g j).
Proof.
  intros m. destruct (person_at m j) as [p|] eqn:Hj.
  - rewrite (l2_gossip_to_eq g m j p Hj).
    destruct (knows_about_trend p); [reflexivity|].
    destruct (sport_enthusiast p).
    + apply (ea_learn_counted m _ j true p);
        [exact Hj|done|done|unfold count_all_interactions; simpl; lia
        |unfold followers_influenced; simpl; lia].
    + cbv zeta. destruct (Qltb _ _); [|by apply ea_frame].
      apply (ea_learn_counted m _ j true p);
        [exact Hj|done|done|unfold count_all_interactions; simpl; lia
        |unfold followers_influenced; simpl; lia].
  - unfold gossip_to, on_person. unfold person_at in Hj.
    by destruct (agents m !! j) as [[p|f]|].
Qed.

Lemma ea_spread_news i : respects encounters_accounted (spread_news i).
Proof.
  unfold spread_news.
  repeat respects_step ltac:(
    first [ apply ea_check
          | apply ea_gossip_to
          | apply l2_respects_on_person; [apply _|intros ?] ]).
Qed.

Lemma has_classes_stable K m m' :
  has_classes K m -> encounters_accounted m m' -> has_classes K m'.
Proof. unfold has_classes. intros <- (H & _). done. Qed.

Lemma has_classes_person K m j :
  has_classes K m -> K !! j = Some true ->
  exists p, agents m !! j = Some (RegularPerson p).
Proof.
  unfold has_classes. intros <-. rewrite list_lookup_fmap.
  destruct (agents m !! j) as [[p|f]|]; try done. by exists p.
Qed.

Lemma has_classes_influencer K m f :
  has_classes K m -> K !! f = Some false ->
  exists g, agents m !! f = Some (SportInfluencer g).
Proof.
  unfold has_classes. intros <-. rewrite list_lookup_fmap.
  destruct (agents m !! f) as [[p|g]|]; try done. by exists g.
Qed.

Lemma ea_reach_follower K j f :
  K !! j = Some true -> K !! f = Some false ->
  respects_from (has_classes K) encounters_accounted
    (let* u := random_random in
     if Qltb u (1 # 2)%Q
     then
       update_influencer f reach_follower ;;
       modify (fun m => set_indirect_interactions_count
                          (indirect_interactions_count m + 1) m) ;;
       learn_about_trend j false
     else ret tt).
Proof.
  intros Hj Hf m Hm.
  destruct (has_classes_person K m j Hm Hj) as (p & Hp).
  destruct (has_classes_influencer K m f Hm Hf) as (g & Hg).
  unfold bind at 1, random_random.
  destruct (Qltb _ _); [|by apply ea_frame].
  unfold bind at 1, update_influencer, modify at 1.
  unfold bind at 1, modify.
  apply (ea_learn_counted m _ j false p).
  - apply person_at_lookup. simpl. rewrite list_lookup_alter.
    destruct (decide (f = j)) as [->|]; [|done]. by rewrite Hp.
  - simpl. apply fmap_alter_same. by intros [q|h].
  - unfold trend_encounters. simpl. f_equal. apply fmap_alter_same.
    by intros [q|h].
  - unfold count_all_interactions. simpl. lia.
  - unfold followers_influenced. simpl. rewrite sum_alter, Hg. simpl. lia.
Qed.

Lemma ea_spread_news_among_random_followers K followers f :
  (forall j, j ∈ followers -> K !! j = Some true) -> K !! f = Some false ->
  respects_from (has_classes K) encounters_accounted
    (spread_news_among_random_followers followers f).
Proof.
  intros Hfol Hf. unfold spread_news_among_random_followers.
  apply (respects_from_forM_ encounters_accounted).
  - apply has_classes_stable.
  - intros j Hj. apply ea_reach_follower; [by apply Hfol|done].
Qed.

Lemma ea_influencer_agents_step :
  respects encounters_accounted influencer_agents_step.
Proof.
  intros m. unfold influencer_agents_step, bind at 1, get.
  set (K := is_person <$> agents m).
  apply (respects_from_forM_ encounters_accounted (has_classes K));
    [apply has_classes_stable| |done].
  intros [b l] Hg. simpl.
  assert (forall j, j ∈ l -> K !! j = Some true) as Hl.
  { intros j Hj. pose proof (l2_groupby_elem _ _ j Hg Hj) as Hin.
    apply list_elem_of_fmap in Hin as ([j' p] & -> & Hin).
    apply list_elem_of_filter in Hin as [_ Hin].
    apply l2_elem_of_persons in Hin. unfold K. cbn [fst].
    by rewrite list_lookup_fmap, Hin. }
  destruct b.
  - apply (respects_from_forM_ encounters_accounted);
      [apply has_classes_stable|].
    intros f Hf. apply ea_spread_news_among_random_followers; [done|].
    apply l2_elem_of_influencers in Hf as (g & Hf). unfold K.
    by rewrite list_lookup_fmap, Hf.
  - apply respects_respects_from.
    apply respects_forM_; [apply _|]. intros i. apply ea_move_around.
Qed.

Lemma ea_step : respects encounters_accounted step.
Proof.
  apply l2_respects__stop_condition; [apply _|by intros m; apply ea_frame|].
  unfold step_body.
  apply respects_bind; [apply _| |intros _].
  { apply l2_respects_do; [apply _|apply ea_move_around]. }
  apply respects_bind; [apply _| |intros _].
  { apply l2_respects_do; [apply _|apply ea_spread_news]. }
  apply ea_influencer_agents_step.
Qed.

Lemma ea_ticks n : respects encounters_accounted (ticks n).
Proof. apply l2_respects_ticks; [apply _|apply ea_step]. Qed.

End EncounterAccounting.

(** * The second trend model: construction *)

Section AssignFold.
Context {A : Type} (f : Coord -> A -> A).

Lemma assign_fold_length (l : list (nat * Coord)) (ags : list A) :
  length (foldl (fun ags ixy => alter (f ixy.2) ixy.1 ags) ags l) = length ags.
Proof.
  revert ags. induction l as [|x l IH]; intros ags; simpl; [done|].
  by rewrite IH, length_alter.
Qed.

Lemma assign_fold_lookup (cs : list Coord) :
  forall k n (ags : list A) i,
  foldl (fun ags (ixy : nat * Coord) => alter (f ixy.2) ixy.1 ags)
        ags (zip (seq k n) cs) !! i
  = match (if decide (k <= i < k + n)%nat then cs !! (i - k)%nat else None) with
    | Some c => f c <$> ags !! i
    | None => ags !! i
    end.
Proof.
  induction cs as [|c cs IH]; intros k n ags i.
  - destruct n; simpl; by destruct (decide _).
  - destruct n as [|n]; simpl.
    { rewrite decide_False by lia. done. }
    rewrite IH.
    destruct (decide (Datatypes.S k <= i < Datatypes.S k + n)%nat) as [H1|H1].
    + rewrite decide_True by lia.
      replace (i - k)%nat with (Datatypes.S (i - Datatypes.S k)) by lia. simpl.
      destruct (cs !! _); by rewrite list_lookup_alter_ne by lia.
    + destruct (decide (k <= i < k + Datatypes.S n)%nat) as [H2|H2].
      * assert (i = k) as -> by lia. rewrite Nat.sub_diag. simpl.
        apply list_lookup_alter_eq.
      * by rewrite list_lookup_alter_ne by lia.
Qed.

(** Cells drawn for the first [n] of the agents, all inside a [w] x [h]
    grid: the agents before index [n] each get one of them, the others
    are left as they were. *)
Lemma assign_fold_drawn (xs ys : list Z) (ags : list A) w h n i a' :
  length xs = n -> length ys = n ->
  Forall (fun x => 0 <= x < w) xs -> Forall (fun y => 0 <= y < h) ys ->
  foldl (fun ags (ixy : nat * Coord) => alter (f ixy.2) ixy.1 ags)
        ags (zip (seq 0 (length ags)) (zip xs ys)) !! i = Some a' ->
  exists a, ags !! i = Some a /\
    if decide (i < n)%nat
    then exists c, a' = f c a /\ Grid.in_grid w h c
    else a' = a.
Proof.
  intros Hlx Hly Hx Hy. rewrite assign_fold_lookup.
  destruct (decide (0 <= i < 0 + length ags)%nat) as [Hi|Hi].
  - rewrite Nat.sub_0_r.
    match goal with
    | |- context [match ?t with Some _ => _ | None => _ end] =>
        destruct t as [[x y]|] eqn:Hz
    end.
    + apply lookup_zip_Some in Hz as [Hxi Hyi].
      destruct (ags !! i) as [a|]; [|done]. intros [= <-].
      exists a. split; [done|].
      rewrite decide_True by (apply lookup_lt_Some in Hxi; lia).
      exists (x, y). split; [done|]. split; simpl.
      * eapply (Forall_lookup_1 _ _ _ _ Hx Hxi).
      * eapply (Forall_lookup_1 _ _ _ _ Hy Hyi).
    + intros Ha. exists a'. split; [done|].
      rewrite decide_False; [done|]. intros Hlt.
      destruct (lookup_lt_is_Some_2 xs i) as [x Hxi]; [lia|].
      destruct (lookup_lt_is_Some_2 ys i) as [y Hyi]; [lia|].
      assert (zip xs ys !! i = Some (x, y)) as Hz' by by apply lookup_zip_Some.
      pose proof (eq_trans (eq_sym Hz) Hz'). done.
  - intros Ha. apply lookup_lt_Some in Ha. lia.
Qed.

End AssignFold.

Section Laboratory2Construction.
Import Laboratory2.

Lemma l2_assign_fold (l : list (nat * Coord)) m :
  foldl (fun s ixy =>
           set_agents (alter (alter_person (set_person_cell ixy.2)) ixy.1
                             (agents s)) s) m l
  = set_agents
      (foldl (fun ags ixy =>
                alter (alter_person (set_person_cell ixy.2)) ixy.1 ags)
             (agents m) l) m.
Proof.
  revert m. induction l as [|x l IH]; intros m; simpl; [by destruct m|].
  by rewrite IH.
Qed.

Lemma l2_persons_all (ags : list Agent) :
  Forall (fun a => is_person a = true) ags ->
  (persons ags).*1 = seq 0 (length ags).
Proof.
  unfold persons.
  change (imap pair ags) with (imap (fun i a => (0 + i, a)%nat) ags).
  generalize 0%nat. induction ags as [|a ags IH]; intros k Ha; [done|].
  apply Forall_cons in Ha as [Ha Hags].
  rewrite imap_cons. destruct a as [p|f]; [|done]. simpl.
  rewrite Nat.add_0_r. f_equal.
  rewrite <-(IH (Datatypes.S k) Hags). do 2 f_equal.
  apply imap_ext. intros i x _. simpl. f_equal. lia.
Qed.

Lemma l2_place_agents_on_grid_eq m :
  0 < grid_width m -> 0 < grid_height m -> 0 <= population_size m ->
  Forall (fun a => is_person a = true) (agents m) ->
  exists ags r,
    place_agents_on_grid m = Ok tt (set_agents ags (set_rng r m)) /\
    length ags = length (agents m) /\
    forall i a', ags !! i = Some a' ->
      exists a, agents m !! i = Some a /\
        if decide (i < Z.to_nat (population_size m))%nat
        then exists c, a' = alter_person (set_person_cell c) a /\
                       Grid.in_grid (grid_width m) (grid_height m) c
        else a' = a.
Proof.
  intros Hw Hh Hn Hall.
  unfold place_agents_on_grid, bind, get, rng_integers.
  rewrite (proj2 (Z.leb_gt _ _) Hw), (proj2 (Z.ltb_ge _ _) Hn).
  pose proof (integers_spec (grid_width m) (Z.to_nat (population_size m))
                (rng m) Hw) as [Hlx Hx].
  destruct (integers (grid_width m) _ (rng m)) as [xs r1]. simpl in Hlx, Hx.
  cbn [grid_height population_size set_rng rng].
  rewrite (proj2 (Z.leb_gt _ _) Hh).
  pose proof (integers_spec (grid_height m) (Z.to_nat (population_size m))
                r1 Hh) as [Hly Hy].
  destruct (integers (grid_height m) _ r1) as [ys r2]. simpl in Hly, Hy.
  unfold assign_cell, update_person. rewrite forM__modify, l2_assign_fold.
  eexists _, r2. split; [reflexivity|].
  cbn [agents set_rng]. rewrite (l2_persons_all _ Hall).
  split; [apply (assign_fold_length
                   (fun c => alter_person (set_person_cell c)))|].
  intros i a'.
  apply (assign_fold_drawn (fun c => alter_person (set_person_cell c))
           xs ys (agents m) _ _ _ i a' Hlx Hly Hx Hy).
Qed.

End Laboratory2Construction.

Section Laboratory2Constructed.
Import Laboratory2.

Lemma l2_init_bad_dimensions pop g sf w h rnd gen :
  ~ (0 < w /\ 0 < h) ->
  raised (__init__ pop g sf w h rnd gen) =
  Some (ValueError "Dimensions must be a list of positive integers.").
Proof.
  intros Hd. unfold __init__.
  destruct ((0 <? w) && (0 <? h)) eqn:E; [|done].
  apply andb_true_iff in E as [?%Z.ltb_lt ?%Z.ltb_lt]. by destruct Hd.
Qed.

Lemma l2_init_empty_range pop g sf w h rnd gen :
  0 < w -> 0 < h -> pop < 1 ->
  raised (__init__ pop g sf w h rnd gen) =
  Some (ValueError "empty range for randrange()").
Proof.
  intros Hw Hh Hn. unfold __init__.
  rewrite (proj2 (Z.ltb_lt 0 w) Hw), (proj2 (Z.ltb_lt 0 h) Hh). cbn [andb].
  unfold bind at 1. unfold ret at 1.
  unfold bind at 1. unfold generate_person_agents.
  unfold bind at 1. unfold get at 1.
  unfold bind at 1. unfold random_randint at 1. cbn [population_size].
  by rewrite (proj2 (Z.ltb_lt _ _) Hn).
Qed.

Lemma l2_init_returns pop g sf w h rnd gen :
  0 < w -> 0 < h -> 1 <= pop ->
  exists m,
    __init__ pop g sf w h rnd gen = Ok tt m /\
    grid_width m = w /\ grid_height m = h /\
    population_size m = pop + 1 /\ influencer_group_size m = g /\
    direct_interactions_count m = 0 /\ indirect_interactions_count m = 0 /\
    successful_direct_interactions_count m = 0 /\
    successful_indirect_interactions_count m = 0 /\
    running m = true /\
    length (agents m) = (Z.to_nat pop + 1 + Z.to_nat g)%nat /\
    (forall i a, agents m !! i = Some a ->
       match a with
       | RegularPerson p =>
           (i < Z.to_nat pop + 1)%nat /\ placed m p /\
           trend_gossip_counter p = 0
       | SportInfluencer f =>
           (Z.to_nat pop + 1 <= i)%nat /\ reached_followers_counter f = 0
       end).
Proof.
  intros Hw Hh Hn. unfold __init__.
  rewrite (proj2 (Z.ltb_lt 0 w) Hw), (proj2 (Z.ltb_lt 0 h) Hh). cbn [andb].
  unfold bind at 1. unfold ret at 1.
  unfold bind at 1. unfold generate_person_agents.
  unfold bind at 1. unfold get at 1.
  unfold bind at 1. unfold random_randint at 1. cbn [population_size].
  rewrite (proj2 (Z.ltb_ge _ _) Hn).
  pose proof (randbelow_range (pop - 1 + 1) (peek rnd) ltac:(lia)) as Hs.
  set (s := 1 + randbelow (pop - 1 + 1) (peek rnd)) in *.
  unfold bind at 1. unfold create_agents at 1. unfold modify at 1.
  unfold bind at 1. unfold create_agents at 1. unfold modify at 1.
  unfold bind at 1. unfold create_agents at 1. unfold modify at 1.
  unfold bind at 1. unfold modify at 1.
  match goal with
  | |- context [place_agents_on_grid ?m4] =>
      set (M4 := m4);
      assert (Hall : Forall (fun a => is_person a = true) (agents M4));
      [|assert (Hzero : Forall (fun a => trend_encounters_of a = 0) (agents M4));
        [|assert (Hlen4 : length (agents M4) = (Z.to_nat pop + 1)%nat)]]
  end.
  { unfold M4. simpl. rewrite !Forall_app, !Forall_fmap.
    repeat split;
      first [ by repeat constructor
            | apply Forall_forall; intros x _; by simpl ]. }
  { unfold M4. simpl. rewrite !Forall_app, !Forall_fmap.
    repeat split;
      first [ by repeat constructor
            | apply Forall_forall; intros x _; by simpl ]. }
  { unfold M4. simpl. rewrite !length_app, !length_fmap, !length_seq.
    simpl. lia. }
  destruct (l2_place_agents_on_grid_eq M4) as (ags & r & -> & Hlen & Hags);
    [unfold M4; simpl; lia..|done|].
  unfold generate_influencer_agents, create_influencers.
  eexists. split; [reflexivity|].
  assert (population_size M4 = pop + 1) as HpopM by done.
  assert (grid_width M4 = w) as HwM by done.
  assert (grid_height M4 = h) as HhM by done.
  assert (influencer_group_size M4 = g) as HgM by done.
  assert (direct_interactions_count M4 = 0) as H1 by done.
  assert (indirect_interactions_count M4 = 0) as H2 by done.
  assert (successful_direct_interactions_count M4 = 0) as H3 by done.
  assert (successful_indirect_interactions_count M4 = 0) as H4 by done.
  assert (running M4 = true) as H5 by done.
  rewrite HpopM, HwM, HhM in Hags. clearbody M4.
  cbn [grid_width grid_height population_size influencer_group_size
       direct_interactions_count indirect_interactions_count
       successful_direct_interactions_count
       successful_indirect_interactions_count running agents
       modify bind get state_of set_agents set_rng].
  unfold placed.
  cbn [grid_width grid_height population_size influencer_group_size
       direct_interactions_count indirect_interactions_count
       successful_direct_interactions_count
       successful_indirect_interactions_count running agents
       modify bind get state_of set_agents set_rng].
  rewrite HwM, HhM, HpopM.
  rewrite HgM. do 9 (split; [done|]). split.
  - rewrite length_app, length_fmap, length_seq, Hlen, Hlen4. done.
  - intros i a Ha. apply lookup_app_Some in Ha as [Ha|[Hge Ha]].
    + destruct (Hags i a Ha) as (a0 & Ha0 & Hcase).
      pose proof (lookup_lt_Some _ _ _ Ha0) as Hi. rewrite Hlen4 in Hi.
      pose proof (Forall_lookup_1 _ _ _ _ Hall Ha0) as Hp.
      pose proof (Forall_lookup_1 _ _ _ _ Hzero Ha0) as Hz.
      destruct a0 as [p0|f0]; [|done].
      rewrite decide_True in Hcase by lia.
      destruct Hcase as (c & -> & Hc). simpl.
      split; [done|]. split; [|done]. exists c. by split.
    + rewrite Hlen, Hlen4 in Hge, Ha.
      apply list_lookup_fmap_Some in Ha as (k & -> & Hk). by split.
Qed.

End Laboratory2Constructed.

(** * The second trend model: a placed population runs without raising *)

Section Laboratory2Safety.
Import Laboratory2.

#[local] Instance l2_same_places_preorder : PreOrder same_places.
Proof.
  split.
  - intros m. by repeat split.
  - intros m1 m2 m3 (H1 & H2 & H3) (H4 & H5 & H6).
    repeat split; congruence.
Qed.

Lemma l2_persons_nonempty ags :
  persons ags <> [] <-> exists j p, ags !! j = Some (RegularPerson p).
Proof.
  split.
  - intros Hne. destruct (persons ags) as [|[j p] l] eqn:E; [done|].
    exists j, p. apply l2_elem_of_persons. rewrite E. left.
  - intros (j & p & Hj) Hnil. apply l2_elem_of_persons in Hj.
    rewrite Hnil in Hj. by apply elem_of_nil in Hj.
Qed.

Lemma l2_standing_lookup (ags ags' : list Agent) (j : nat) p' :
  standing <$> ags' = standing <$> ags ->
  ags' !! j = Some (RegularPerson p') ->
  exists p, ags !! j = Some (RegularPerson p) /\ cell p' = cell p.
Proof.
  intros Hst Hj.
  assert ((standing <$> ags') !! j = Some (Some (cell p'))) as Hs
    by by rewrite list_lookup_fmap, Hj.
  rewrite Hst, list_lookup_fmap in Hs.
  destruct (ags !! j) as [[p|f]|]; try done.
  exists p. split; [done|]. simpl in Hs. congruence.
Qed.

Lemma l2_well_placed_same_places m m' :
  well_placed m -> same_places m m' -> well_placed m'.
Proof.
  intros (Hw & Hh & Hne & Hpl) (Hw' & Hh' & Hst).
  unfold well_placed. rewrite Hw', Hh'.
  split; [done|]. split; [done|]. split.
  - apply l2_persons_nonempty. apply l2_persons_nonempty in Hne
      as (j & p & Hj).
    destruct (l2_standing_lookup (agents m') (agents m) j p (eq_sym Hst) Hj)
      as (p' & Hj' & _).
    by exists j, p'.
  - intros j p' Hj. apply person_at_lookup in Hj.
    destruct (l2_standing_lookup _ _ j p' Hst Hj) as (p & Hp & Hc).
    apply person_at_lookup in Hp. destruct (Hpl j p Hp) as (c & Hcp & Hin).
    exists c. rewrite Hw', Hh', Hc. by split.
Qed.

Lemma l2_places_frame m m' :
  grid_width m' = grid_width m -> grid_height m' = grid_height m ->
  agents m' = agents m -> same_places m m'.
Proof. intros H1 H2 H3. repeat split; try done. by rewrite H3. Qed.

Lemma l2_places_random_random : respects same_places random_random.
Proof. intros m. by apply l2_places_frame. Qed.

Lemma l2_places_update_person i f :
  (forall p, cell (f p) = cell p) -> respects same_places (update_person i f).
Proof.
  intros Hf m. repeat split; try done. simpl. apply fmap_alter_same.
  intros [q|g]; simpl; [by rewrite Hf|done].
Qed.

Lemma l2_places_update_influencer i f :
  respects same_places (update_influencer i f).
Proof.
  intros m. repeat split; try done. simpl. apply fmap_alter_same.
  by intros [q|g].
Qed.

Ltac places :=
  repeat respects_step ltac:(
    first [ apply l2_places_random_random
          | apply l2_places_update_person; by intros ?
          | apply l2_places_update_influencer
          | apply l2_respects_on_person; [apply _|intros ?]
          | by apply l2_places_frame ]).

Lemma l2_places_learn_about_trend i d :
  respects same_places (learn_about_trend i d).
Proof. unfold learn_about_trend. places. Qed.

Lemma l2_places_gossip_to g j : respects same_places (gossip_to g j).
Proof.
  unfold gossip_to.
  repeat respects_step ltac:(
    first [ apply l2_places_random_random
          | apply l2_places_learn_about_trend
          | apply l2_respects_on_person; [apply _|intros ?]
          | by apply l2_places_frame ]).
Qed.

Lemma l2_places_spread_news_among_random_followers followers f :
  respects same_places (spread_news_among_random_followers followers f).
Proof.
  unfold spread_news_among_random_followers.
  repeat respects_step ltac:(
    first [ apply l2_places_random_random
          | apply l2_places_learn_about_trend
          | apply l2_places_update_influencer
          | by apply l2_places_frame ]).
Qed.

Lemma l2_raises_only_random_random P : raises_only P random_random.
Proof. intros m e m' H. discriminate H. Qed.

Lemma l2_never_raises_spread_news_among_random_followers followers f :
  raises_only (fun _ => False)
    (spread_news_among_random_followers followers f).
Proof.
  unfold spread_news_among_random_followers.
  apply raises_only_forM_. intros j.
  apply raises_only_bind; [apply l2_raises_only_random_random|]. intros u.
  destruct (Qltb _ _); [|apply raises_only_ret].
  apply raises_only_bind; [apply raises_only_modify|]. intros _.
  apply raises_only_bind; [apply raises_only_modify|]. intros _.
  apply l2_raises_only_learn_about_trend.
Qed.

Lemma l2_returns_gossip_to g j :
  returns well_placed (gossip_to g j) (fun _ => well_placed).
Proof.
  apply (returns_of_respects _ same_places).
  - apply l2_well_placed_same_places.
  - apply l2_places_gossip_to.
  - apply l2_raises_only_gossip_to.
Qed.

Lemma l2_returns_spread_news_among_random_followers followers f :
  returns well_placed (spread_news_among_random_followers followers f)
    (fun _ => well_placed).
Proof.
  apply (returns_of_respects _ same_places).
  - apply l2_well_placed_same_places.
  - apply l2_places_spread_news_among_random_followers.
  - apply l2_never_raises_spread_news_among_random_followers.
Qed.

Lemma l2_returns_spread_news i :
  returns well_placed (spread_news i) (fun _ => well_placed).
Proof.
  intros m Hm. destruct (person_at m i) as [self|] eqn:Hi.
  - destruct (proj2 (proj2 (proj2 Hm)) i self Hi) as (c & Hc & Hin).
    rewrite (l2_spread_news_eq m i self c Hi Hc).
    destruct (knows_about_trend self); [|by exists tt, m].
    eapply (returns_forM_ well_placed); [|done].
    intros j _. apply l2_returns_gossip_to.
  - exists tt, m. split; [|done]. unfold spread_news, on_person.
    unfold person_at in Hi. by destruct (agents m !! i) as [[p|f]|].
Qed.

Lemma l2_returns_move_around i :
  returns well_placed (move_around i) (fun _ => well_placed).
Proof.
  intros m Hm. destruct (person_at m i) as [self|] eqn:Hi.
  - destruct Hm as (Hw & Hh & Hne & Hpl).
    destruct (Hpl i self Hi) as (c & Hc & Hin).
    rewrite (l2_move_around_eq m i self c Hi Hc).
    destruct (choice_nonempty (neighborhood m c) (peek (random m)))
      as [t Ht].
    { by apply neighborhood_nonempty. }
    rewrite Ht. eexists tt, _. split; [reflexivity|].
    assert (Grid.in_grid (grid_width m) (grid_height m) t) as Htin.
    { eapply (neighborhood_in_grid _ _ c); [lia|lia|done|].
      by eapply choice_elem. }
    split; [done|]. split; [done|]. split.
    + apply l2_persons_nonempty. apply l2_persons_nonempty in Hne
        as (j & p & Hj). simpl.
      destruct (decide (i = j)) as [->|Hne].
      * exists j, (set_person_cell t p).
        rewrite list_lookup_alter_eq, Hj. done.
      * exists j, p. by rewrite list_lookup_alter_ne.
    + intros j p' Hj. apply person_at_lookup in Hj. simpl in Hj.
      rewrite list_lookup_alter in Hj.
      destruct (decide (i = j)) as [->|Hne'].
      * apply person_at_lookup in Hi. rewrite Hi in Hj. simpl in Hj.
        injection Hj as <-. by exists t.
      * apply person_at_lookup in Hj. by apply (Hpl j p').
  - exists tt, m. split; [|done]. unfold move_around, on_person.
    unfold person_at in Hi. by destruct (agents m !! i) as [[p|f]|].
Qed.

Lemma l2_returns_do (I : Model -> Prop) method :
  (forall i, returns I (method i) (fun _ => I)) ->
  returns I (do method) (fun _ => I).
Proof.
  intros H. unfold do. eapply returns_bind.
  - apply (returns_get I (fun _ => I)). auto.
  - intros m. apply returns_forM_. intros i _. apply H.
Qed.

Lemma l2_returns_influencer_agents_step :
  returns well_placed influencer_agents_step (fun _ => well_placed).
Proof.
  unfold influencer_agents_step. eapply returns_bind.
  - apply (returns_get well_placed (fun _ => well_placed)). auto.
  - intros m. apply returns_forM_. intros [[] l] _; simpl;
      apply returns_forM_; intros x _.
    + apply l2_returns_spread_news_among_random_followers.
    + apply l2_returns_move_around.
Qed.

Lemma l2_returns_step_body :
  returns well_placed step_body (fun _ => well_placed).
Proof.
  unfold step_body.
  eapply returns_bind.
  { apply l2_returns_do. apply l2_returns_move_around. }
  intros ?. simpl. eapply returns_bind.
  { apply l2_returns_do. apply l2_returns_spread_news. }
  intros ?. simpl. apply l2_returns_influencer_agents_step.
Qed.

Lemma l2_returns_step : returns well_placed step (fun _ => well_placed).
Proof.
  intros m Hm. unfold step, _stop_condition, bind, get.
  destruct (decide _).
  - eexists tt, _. split; [reflexivity|].
    eapply l2_well_placed_same_places; [exact Hm|]. by apply l2_places_frame.
  - by apply l2_returns_step_body.
Qed.

Lemma l2_returns_ticks n : returns well_placed (ticks n) (fun _ => well_placed).
Proof.
  induction n as [|n IH]; simpl.
  - apply returns_ret. auto.
  - eapply returns_bind; [apply l2_returns_step|]. intros ?. simpl. apply IH.
Qed.

Lemma l2_init_well_placed pop g sf w h rnd gen :
  3 <= w -> 3 <= h -> 1 <= pop ->
  exists m, __init__ pop g sf w h rnd gen = Ok tt m /\ well_placed m.
Proof.
  intros Hw Hh Hp.
  destruct (l2_init_returns pop g sf w h rnd gen)
    as (m & Hm & Hgw & Hgh & _ & _ & _ & _ & _ & _ & _ & Hlen & Hags);
    [lia..|].
  exists m. split; [done|]. unfold well_placed. rewrite Hgw, Hgh.
  split; [done|]. split; [done|]. split.
  - apply l2_persons_nonempty.
    destruct (lookup_lt_is_Some_2 (agents m) 0) as [a Ha]; [lia|].
    pose proof (Hags 0%nat a Ha) as H. destruct a as [p|f]; [by eauto|].
    destruct H as [H _]. lia.
  - intros i p Hi. apply person_at_lookup in Hi.
    by destruct (Hags i _ Hi) as (_ & H & _).
Qed.

End Laboratory2Safety.

Section Laboratory2Reachable.
Import Laboratory2.

Lemma l2_init_Ok_inv pop g sf w h rnd gen m :
  __init__ pop g sf w h rnd gen = Ok tt m -> 0 < w /\ 0 < h /\ 1 <= pop.
Proof.
  intros Hm.
  destruct (decide (0 < w /\ 0 < h)) as [[Hw Hh]|Hd].
  - split; [done|]. split; [done|].
    destruct (decide (1 <= pop)) as [|Hn]; [done|].
    pose proof (l2_init_empty_range pop g sf w h rnd gen Hw Hh ltac:(lia))
      as Hr.
    by rewrite Hm in Hr.
  - pose proof (l2_init_bad_dimensions pop g sf w h rnd gen Hd) as Hr.
    by rewrite Hm in Hr.
Qed.

Lemma sum_zero {A} (h : A -> Z) (l : list A) :
  Forall (fun a => h a = 0) l -> foldr Z.add 0 (h <$> l) = 0.
Proof.
  induction 1 as [|a l Ha _ IH]; [done|].
  rewrite fmap_cons. cbn [foldr]. lia.
Qed.

Lemma l2_init_no_encounters pop g sf w h rnd gen m :
  __init__ pop g sf w h rnd gen = Ok tt m ->
  trend_encounters m = 0 /\ followers_influenced m = 0 /\
  count_all_interactions m = 0 /\ indirect_interactions_count m = 0 /\
  direct_interactions_count m = 0 /\
  successful_direct_interactions_count m = 0 /\
  successful_indirect_interactions_count m = 0.
Proof.
  intros Hm. destruct (l2_init_Ok_inv _ _ _ _ _ _ _ _ Hm) as (Hw & Hh & Hp).
  destruct (l2_init_returns pop g sf w h rnd gen Hw Hh Hp)
    as (m0 & Hm0 & _ & _ & _ & _ & Hd & Hi & Hsd & Hsi & _ & _ & Hags).
  rewrite Hm in Hm0. injection Hm0 as <-.
  unfold count_all_interactions. rewrite Hd, Hi.
  split; [|split; [|done]].
  - apply sum_zero. apply Forall_forall. intros a Ha.
    apply list_elem_of_lookup in Ha as [i Ha].
    pose proof (Hags i a Ha) as H. destruct a as [p|f]; [|done].
    by destruct H as (_ & _ & H).
  - apply sum_zero. apply Forall_forall. intros a Ha.
    apply list_elem_of_lookup in Ha as [i Ha].
    pose proof (Hags i a Ha) as H. destruct a as [p|f]; [done|].
    by destruct H as (_ & H).
Qed.

Lemma l2_init_one_knows pop g sf w h rnd gen m :
  __init__ pop g sf w h rnd gen = Ok tt m ->
  count_agents_knowing_trend m = 1%nat.
Proof.
  intros Hm. rewrite l2_count_knowing.
  pose proof (length_filter_fmap informed (fun b => b = true)
                (HQ:=fun y => decide_rel eq y true) (agents m)) as H.
  etrans; [symmetry; apply H|].
  assert (informed <$> agents m =
          (fun b : option (bool * bool) =>
             match b with Some (_, k) => k | None => false end)
            <$> (bucket <$> agents m)) as ->.
  { rewrite <-list_fmap_compose. apply list_fmap_ext.
    intros i [p|f] _; done. }
  destruct (l2_init_buckets _ _ _ _ _ _ _ _ Hm) as [_ ->].
  rewrite !fmap_app, !fmap_replicate. simpl.
  rewrite !filter_app, !length_app, !length_filter_replicate.
  repeat case_decide; try done.
  rewrite filter_cons_True by done. rewrite length_cons.
  rewrite length_filter_replicate. by rewrite decide_False.
Qed.

Lemma l2_ratio_value m :
  direct_interaction_success_ration m =
    Ok (if direct_interactions_count m =? 0 then 0%Q
        else (inject_Z (successful_direct_interactions_count m)
              / inject_Z (direct_interactions_count m))%Q) m /\
  indirect_interaction_success_ration m =
    Ok (if indirect_interactions_count m =? 0 then 0%Q
        else (inject_Z (successful_indirect_interactions_count m)
              / inject_Z (indirect_interactions_count m))%Q) m.
Proof.
  unfold direct_interaction_success_ration,
    indirect_interaction_success_ration, bind, get, truediv.
  split.
  - by destruct (direct_interactions_count m =? 0).
  - by destruct (indirect_interactions_count m =? 0).
Qed.

End Laboratory2Reachable.

(** * The second trend model: further properties *)

(** X8.  What the constructor of the second trend model refuses and what it
    builds.  Grid dimensions that are not both positive raise a
    [ValueError], and so does a [population_size] below 1, from
    [randint(1, population_size)].  Otherwise the constructor returns:
    [population_size] has grown by one, for the informed person it adds; the
    persons are registered first and every one of them stands on a cell of
    the grid, the influencers after them; and every counter of the model
    and of its agents is zero. *)
Theorem X8_trend_constructor_places_every_person :
  forall pop g sf w h rnd gen,
    (~ (0 < w /\ 0 < h) ->
     exists msg,
       raised (Laboratory2.__init__ pop g sf w h rnd gen)
       = Some (ValueError msg)) /\
    (0 < w -> 0 < h -> pop < 1 ->
     exists msg,
       raised (Laboratory2.__init__ pop g sf w h rnd gen)
       = Some (ValueError msg)) /\
    (0 < w -> 0 < h -> 1 <= pop ->
     exists m,
       Laboratory2.__init__ pop g sf w h rnd gen = Ok tt m /\
       Laboratory2.grid_width m = w /\ Laboratory2.grid_height m = h /\
       Laboratory2.population_size m = pop + 1 /\
       Laboratory2.direct_interactions_count m = 0 /\
       Laboratory2.indirect_interactions_count m = 0 /\
       Laboratory2.successful_direct_interactions_count m = 0 /\
       Laboratory2.successful_indirect_interactions_count m = 0 /\
       Laboratory2.running m = true /\
       length (Laboratory2.agents m) = (Z.to_nat pop + 1 + Z.to_nat g)%nat /\
       (forall i a, Laboratory2.agents m !! i = Some a ->
          match a with
          | Laboratory2.RegularPerson p =>
              (i < Z.to_nat pop + 1)%nat /\ Laboratory2.placed m p /\
              Laboratory2.trend_gossip_counter p = 0
          | Laboratory2.SportInfluencer f =>
              (Z.to_nat pop + 1 <= i)%nat /\
              Laboratory2.reached_followers_counter f = 0
          end)).
Proof.
  intros pop g sf w h rnd gen. split; [|split].
  - intros Hd. eexists. by apply l2_init_bad_dimensions.
  - intros Hw Hh Hn. eexists. by apply l2_init_empty_range.
  - intros Hw Hh Hn.
    destruct (l2_init_returns pop g sf w h rnd gen Hw Hh Hn)
      as (m & Hm & Hgw & Hgh & Hp & _ & Hd & Hi & Hsd & Hsi & Hr & Hlen & Hags).
    exists m. do 10 (split; [done|]). done.
Qed.

Lemma X8_witness_trend_model_of_one :
  exists m,
    Laboratory2.__init__ 1 1 3 3 3 (Examples.constant_tape (1 # 10))
      (Examples.constant_tape (1 # 2)) = Ok tt m /\
    Laboratory2.population_size m = 2 /\
    length (Laboratory2.agents m) = 3%nat.
Proof.
  destruct (X8_trend_constructor_places_every_person
              1 1 3 3 3 (Examples.constant_tape (1 # 10))
              (Examples.constant_tape (1 # 2))) as (_ & _ & H).
  destruct H as (m & Hm & _ & _ & Hp & _ & _ & _ & _ & _ & Hlen & _);
    [lia|lia|lia|].
  exists m. split; [exact Hm|]. split; [exact Hp|exact Hlen].
Defined.

(** X9.  The second trend model runs without raising.  On a grid of at
    least 3 x 3 cells the constructor builds a model whose persons all
    stand on cells of the grid; from such a model every method of a person
    or an influencer, the influencers' part of a step, a step and any
    number of ticks return, and the persons still all stand on cells of
    the grid: the error of [check_grid_initialization] cannot occur in a
    run that starts from the constructor. *)
Theorem X9_trend_model_runs_without_raising :
  (forall pop g sf w h rnd gen,
     3 <= w -> 3 <= h -> 1 <= pop ->
     exists m,
       Laboratory2.__init__ pop g sf w h rnd gen = Ok tt m /\
       Laboratory2.well_placed m) /\
  (forall i : nat,
     returns Laboratory2.well_placed (Laboratory2.move_around i)
       (fun _ => Laboratory2.well_placed) /\
     returns Laboratory2.well_placed (Laboratory2.spread_news i)
       (fun _ => Laboratory2.well_placed)) /\
  (forall (followers : list nat) (f : nat),
     returns Laboratory2.well_placed
       (Laboratory2.spread_news_among_random_followers followers f)
       (fun _ => Laboratory2.well_placed)) /\
  returns Laboratory2.well_placed Laboratory2.influencer_agents_step
    (fun _ => Laboratory2.well_placed) /\
  returns Laboratory2.well_placed Laboratory2.step
    (fun _ => Laboratory2.well_placed) /\
  (forall (m : Laboratory2.Model) (n : nat),
     Laboratory2.well_placed m ->
     exists m', Laboratory2.ticks n m = Ok tt m' /\
                Laboratory2.well_placed m').
Proof.
  split; [|split; [|split; [|split; [|split]]]].
  - apply l2_init_well_placed.
  - intros i. split; [apply l2_returns_move_around|apply l2_returns_spread_news].
  - apply l2_returns_spread_news_among_random_followers.
  - apply l2_returns_influencer_agents_step.
  - apply l2_returns_step.
  - intros m n Hm. by apply (returns_unit _ _ _ m (l2_returns_ticks n)).
Qed.

Lemma X9_witness_trend_model_runs :
  exists m m',
    Laboratory2.__init__ 1 1 3 3 3 (Examples.constant_tape (1 # 10))
      (Examples.constant_tape (1 # 2)) = Ok tt m /\
    Laboratory2.ticks 5 m = Ok tt m' /\ Laboratory2.well_placed m'.
Proof.
  destruct (proj1 X9_trend_model_runs_without_raising
              1 1 3 3 3 (Examples.constant_tape (1 # 10))
              (Examples.constant_tape (1 # 2)))
    as (m & Hm & Hwp); [lia..|].
  destruct (proj2 (proj2 (proj2 (proj2 (proj2
              X9_trend_model_runs_without_raising)))) m 5%nat Hwp)
    as (m' & Hm' & Hwp').
  exists m, m'. split; [exact Hm|]. split; [exact Hm'|exact Hwp'].
Defined.

(** X10.  Successes never outnumber interactions.  Moving, spreading the
    news, the delivery by an influencer, a step and any run of ticks never
    lower a counter of the model and raise each success counter by no more
    than its interaction counter, also when the call raises; so in every
    state reached from the constructor both ratio reporters return a number
    between 0 and 1. *)
Theorem X10_success_ratios_stay_between_zero_and_one :
  (forall (i : nat) (m : Laboratory2.Model),
     Laboratory2.interactions_accounted m
       (state_of (Laboratory2.move_around i m)) /\
     Laboratory2.interactions_accounted m
       (state_of (Laboratory2.spread_news i m))) /\
  (forall (followers : list nat) (f : nat) (m : Laboratory2.Model),
     Laboratory2.interactions_accounted m
       (state_of (Laboratory2.spread_news_among_random_followers
                    followers f m))) /\
  (forall (n : nat) (m : Laboratory2.Model),
     Laboratory2.interactions_accounted m
       (state_of (Laboratory2.step m)) /\
     Laboratory2.interactions_accounted m
       (state_of (Laboratory2.ticks n m))) /\
  (forall pop g sf w h rnd gen (m : Laboratory2.Model) (n : nat),
     Laboratory2.__init__ pop g sf w h rnd gen = Ok tt m ->
     let m' := state_of (Laboratory2.ticks n m) in
     0 <= Laboratory2.successful_direct_interactions_count m'
       <= Laboratory2.direct_interactions_count m' /\
     0 <= Laboratory2.successful_indirect_interactions_count m'
       <= Laboratory2.indirect_interactions_count m' /\
     exists direct indirect : Q,
       Laboratory2.direct_interaction_success_ration m' = Ok direct m' /\
       Laboratory2.indirect_interaction_success_ration m' = Ok indirect m' /\
       (0 <= direct <= 1)%Q /\ (0 <= indirect <= 1)%Q).
Proof.
  split; [|split; [|split]].
  - intros i m. split; [apply ia_move_around|apply ia_spread_news].
  - intros followers f m. apply ia_spread_news_among_random_followers.
  - intros n m. split; [apply ia_step|apply ia_ticks].
  - intros pop g sf w h rnd gen m n Hm m'.
    destruct (l2_init_no_encounters _ _ _ _ _ _ _ _ Hm)
      as (_ & _ & _ & Hi & Hd & Hsd & Hsi).
    pose proof (ia_ticks n m) as Hacc. fold m' in Hacc.
    unfold Laboratory2.interactions_accounted in Hacc.
    rewrite Hi, Hd, Hsd, Hsi in Hacc.
    split; [lia|]. split; [lia|].
    destruct (l2_ratio_value m') as [-> ->]. eexists _, _.
    split; [reflexivity|]. split; [reflexivity|]. split.
    + destruct (Laboratory2.direct_interactions_count m' =? 0) eqn:E;
        [done|]. apply Z.eqb_neq in E. apply ratio_between_0_and_1; lia.
    + destruct (Laboratory2.indirect_interactions_count m' =? 0) eqn:E;
        [done|]. apply Z.eqb_neq in E. apply ratio_between_0_and_1; lia.
Qed.

Lemma X10_witness_trend_model_ratios :
  0 <= Laboratory2.successful_direct_interactions_count
         (state_of (Laboratory2.ticks 3 (Examples.trend_model (1 # 10))))
    <= Laboratory2.direct_interactions_count
         (state_of (Laboratory2.ticks 3 (Examples.trend_model (1 # 10)))).
Proof.
  apply (proj2 (proj2 (proj2 X10_success_ratios_stay_between_zero_and_one))
           1 1 3 3 3 (Examples.constant_tape (1 # 10))
           (Examples.constant_tape (1 # 2)) (Examples.trend_model (1 # 10))
           3%nat).
  vm_compute. reflexivity.
Defined.

(** X11.  The agents' counters add up to the model's.  Moving, spreading
    the news, the influencers' part of a step, a step and any run of ticks
    raise the sum of the persons' [trend_gossip_counter] by what the two
    interaction counters go up together, and the sum of the influencers'
    [reached_followers_counter] by what [indirect_interactions_count] goes
    up, also when the call raises; so in every state reached from the
    constructor the first sum is [count_all_interactions] and the second is
    [indirect_interactions_count]. *)
Theorem X11_agent_counters_add_up_to_the_model_counters :
  (forall (i : nat) (m : Laboratory2.Model),
     Laboratory2.encounters_accounted m
       (state_of (Laboratory2.move_around i m)) /\
     Laboratory2.encounters_accounted m
       (state_of (Laboratory2.spread_news i m))) /\
  (forall (n : nat) (m : Laboratory2.Model),
     Laboratory2.encounters_accounted m
       (state_of (Laboratory2.influencer_agents_step m)) /\
     Laboratory2.encounters_accounted m (state_of (Laboratory2.step m)) /\
     Laboratory2.encounters_accounted m
       (state_of (Laboratory2.ticks n m))) /\
  (forall pop g sf w h rnd gen (m : Laboratory2.Model) (n : nat),
     Laboratory2.__init__ pop g sf w h rnd gen = Ok tt m ->
     let m' := state_of (Laboratory2.ticks n m) in
     Laboratory2.trend_encounters m' = Laboratory2.count_all_interactions m' /\
     Laboratory2.followers_influenced m' =
       Laboratory2.indirect_interactions_count m').
Proof.
  split; [|split].
  - intros i m. split; [apply ea_move_around|apply ea_spread_news].
  - intros n m. split; [apply ea_influencer_agents_step|].
    split; [apply ea_step|apply ea_ticks].
  - intros pop g sf w h rnd gen m n Hm m'.
    destruct (l2_init_no_encounters _ _ _ _ _ _ _ _ Hm)
      as (Ht & Hf & Hc & Hi & _).
    destruct (ea_ticks n m) as (_ & H1 & H2). fold m' in H1, H2.
    rewrite Ht, Hc in H1. rewrite Hf, Hi in H2. lia.
Qed.

Lemma X11_witness_trend_model_encounters :
  Laboratory2.trend_encounters
    (state_of (Laboratory2.ticks 3 (Examples.trend_model (1 # 10))))
  = Laboratory2.count_all_interactions
      (state_of (Laboratory2.ticks 3 (Examples.trend_model (1 # 10)))).
Proof.
  apply (proj2 (proj2 X11_agent_counters_add_up_to_the_model_counters)
           1 1 3 3 3 (Examples.constant_tape (1 # 10))
           (Examples.constant_tape (1 # 2)) (Examples.trend_model (1 # 10))
           3%nat).
  vm_compute. reflexivity.
Defined.

(** X12.  New knowledge is covered by the success counters, which can
    count a person twice.  No operation lowers the number of persons who
    know the trend, and it grows by no more than the two success counters
    grow together, also when the call raises; after construction and any
    number of ticks it is at most one plus the two success counters.  The
    bound is not always met: with two influencers, the second one tells
    the person the first one has just informed, and the indirect success
    counter goes up by two for one person. *)
Theorem X12_success_counters_cover_new_knowledge :
  (forall (o : Laboratory2.Operation) (m : Laboratory2.Model),
     Laboratory2.knowledge_accounted m (state_of (Laboratory2.call o m))) /\
  (forall pop g sf w h rnd gen (m : Laboratory2.Model) (n : nat),
     Laboratory2.__init__ pop g sf w h rnd gen = Ok tt m ->
     let m' := state_of (Laboratory2.ticks n m) in
     1 <= Z.of_nat (Laboratory2.count_agents_knowing_trend m')
       <= 1 + Laboratory2.successful_direct_interactions_count m'
          + Laboratory2.successful_indirect_interactions_count m') /\
  (let m := Examples.two_influencers_model in
   let m' := state_of (Laboratory2.influencer_agents_step m) in
   Laboratory2.count_agents_knowing_trend m = 1%nat /\
   Laboratory2.count_agents_knowing_trend m' = 2%nat /\
   Laboratory2.successful_indirect_interactions_count m = 0 /\
   Laboratory2.successful_indirect_interactions_count m' = 2).
Proof.
  split; [|split].
  - intros o m. destruct o; simpl.
    + apply ka_move_around.
    + apply ka_spread_news.
    + apply ka_learn_about_trend.
    + apply ka_spread_news_among_random_followers.
    + apply ka_influencer_agents_step.
    + apply ka_step.
    + apply ka_ticks.
  - intros pop g sf w h rnd gen m n Hm m'.
    destruct (l2_init_no_encounters _ _ _ _ _ _ _ _ Hm)
      as (_ & _ & _ & _ & _ & Hsd & Hsi).
    pose proof (l2_init_one_knows _ _ _ _ _ _ _ _ Hm) as Hk.
    destruct (ka_ticks n m) as (H1 & H2). fold m' in H1, H2.
    rewrite Hk in H1, H2. rewrite Hsd, Hsi in H2. lia.
  - vm_compute. repeat split.
Qed.

Lemma X12_witness_trend_model_knowledge :
  1 <= Z.of_nat (Laboratory2.count_agents_knowing_trend
                   (state_of (Laboratory2.ticks 3
                                (Examples.trend_model (1 # 10)))))
    <= 1 + Laboratory2.successful_direct_interactions_count
             (state_of (Laboratory2.ticks 3 (Examples.trend_model (1 # 10))))
       + Laboratory2.successful_indirect_interactions_count
           (state_of (Laboratory2.ticks 3 (Examples.trend_model (1 # 10)))).
Proof.
  apply (proj1 (proj2 X12_success_counters_cover_new_knowledge)
           1 1 3 3 3 (Examples.constant_tape (1 # 10))
           (Examples.constant_tape (1 # 2)) (Examples.trend_model (1 # 10))
           3%nat).
  vm_compute. reflexivity.
Defined.

(** * The first trend model: construction *)

Section Laboratory1Construction.
Import Laboratory1.

Lemma l1_assign_fold (l : list (nat * Coord)) m :
  foldl (fun s ixy =>
           set_agents (alter (alter_person (set_person_pos ixy.2)) ixy.1
                             (agents s)) s) m l
  = set_agents
      (foldl (fun ags ixy =>
                alter (alter_person (set_person_pos ixy.2)) ixy.1 ags)
             (agents m) l) m.
Proof.
  revert m. induction l as [|x l IH]; intros m; simpl; [by destruct m|].
  by rewrite IH.
Qed.

Lemma l1_persons_all (ags : list Agent) :
  Forall (fun a => is_person a = true) ags ->
  (persons ags).*1 = seq 0 (length ags).
Proof.
  unfold persons.
  change (imap pair ags) with (imap (fun i a => (0 + i, a)%nat) ags).
  generalize 0%nat. induction ags as [|a ags IH]; intros k Ha; [done|].
  apply Forall_cons in Ha as [Ha Hags].
  rewrite imap_cons. destruct a as [p|f]; [|done]. simpl.
  rewrite Nat.add_0_r. f_equal.
  rewrite <-(IH (Datatypes.S k) Hags). do 2 f_equal.
  apply imap_ext. intros i x _. simpl. f_equal. lia.
Qed.

Lemma l1_place_agents_on_grid_eq m :
  0 < width (model_grid m) -> 0 < height (model_grid m) ->
  0 <= population_size m ->
  Forall (fun a => is_person a = true) (agents m) ->
  exists ags r,
    place_agents_on_grid m = Ok tt (set_agents ags (set_rng r m)) /\
    length ags = length (agents m) /\
    forall i a', ags !! i = Some a' ->
      exists a, agents m !! i = Some a /\
        if decide (i < Z.to_nat (population_size m))%nat
        then exists c, a' = alter_person (set_person_pos c) a /\
               Grid.in_grid (width (model_grid m)) (height (model_grid m)) c
        else a' = a.
Proof.
  intros Hw Hh Hn Hall.
  unfold place_agents_on_grid, bind, get, rng_integers.
  rewrite (proj2 (Z.leb_gt _ _) Hw), (proj2 (Z.ltb_ge _ _) Hn).
  pose proof (integers_spec (width (model_grid m))
                (Z.to_nat (population_size m)) (rng m) Hw) as [Hlx Hx].
  destruct (integers (width (model_grid m)) _ (rng m)) as [xs r1].
  simpl in Hlx, Hx.
  cbn [model_grid population_size set_rng rng].
  rewrite (proj2 (Z.leb_gt _ _) Hh).
  pose proof (integers_spec (height (model_grid m))
                (Z.to_nat (population_size m)) r1 Hh) as [Hly Hy].
  destruct (integers (height (model_grid m)) _ r1) as [ys r2].
  simpl in Hly, Hy.
  unfold place_agent, update_person. rewrite forM__modify, l1_assign_fold.
  eexists _, r2. split; [reflexivity|].
  cbn [agents set_rng]. rewrite (l1_persons_all _ Hall).
  split; [apply (assign_fold_length
                   (fun c => alter_person (set_person_pos c)))|].
  intros i a'.
  apply (assign_fold_drawn (fun c => alter_person (set_person_pos c))
           xs ys (agents m) _ _ _ i a' Hlx Hly Hx Hy).
Qed.

Lemma l1_init_empty_range pop g w h rnd gen :
  pop < 1 ->
  raised (__init__ pop g w h rnd gen) =
  Some (ValueError "empty range for randrange()").
Proof.
  intros Hn. unfold __init__.
  unfold bind at 1. unfold generate_person_agents.
  unfold bind at 1. unfold get at 1.
  unfold bind at 1. unfold random_randint at 1. cbn [population_size].
  by rewrite (proj2 (Z.ltb_lt _ _) Hn).
Qed.

End Laboratory1Construction.

Section Laboratory1Constructed.
Import Laboratory1.

Lemma l1_init_returns pop g w h rnd gen :
  0 < w -> 0 < h -> 1 <= pop ->
  exists m,
    __init__ pop g w h rnd gen = Ok tt m /\
    model_grid m = {| width := w; height := h |} /\
    population_size m = pop + 1 /\ influencer_group_size m = g /\
    running m = true /\
    length (agents m) = (Z.to_nat pop + 1 + Z.to_nat g)%nat /\
    (forall i a, agents m !! i = Some a ->
       match a with
       | RegularPerson p =>
           (i < Z.to_nat pop + 1)%nat /\ placed m p /\
           (knows_about_trend p = true <-> i = Z.to_nat pop)
       | SportInfluencer f =>
           (Z.to_nat pop + 1 <= i)%nat /\
           influencer_grid f = Some (model_grid m)
       end).
Proof.
  intros Hw Hh Hn. unfold __init__.
  unfold bind at 1. unfold generate_person_agents.
  unfold bind at 1. unfold get at 1.
  unfold bind at 1. unfold random_randint at 1. cbn [population_size].
  rewrite (proj2 (Z.ltb_ge _ _) Hn).
  pose proof (randbelow_range (pop - 1 + 1) (peek rnd) ltac:(lia)) as Hs.
  set (s := 1 + randbelow (pop - 1 + 1) (peek rnd)) in *.
  unfold bind at 1. unfold create_agents at 1. unfold modify at 1.
  unfold bind at 1. unfold create_agents at 1. unfold modify at 1.
  unfold bind at 1. unfold create_agents at 1. unfold modify at 1.
  unfold bind at 1. unfold modify at 1.
  match goal with
  | |- context [place_agents_on_grid ?m4] =>
      set (M4 := m4);
      assert (Hall : Forall (fun a => is_person a = true) (agents M4));
      [|assert (Hlen4 : length (agents M4) = (Z.to_nat pop + 1)%nat);
        [|assert (Hknow : forall i a, agents M4 !! i = Some a ->
                    exists p, a = RegularPerson p /\
                      grid p = Some {| width := w; height := h |} /\
                      (knows_about_trend p = true <-> i = Z.to_nat pop))]]
  end.
  { unfold M4. simpl. rewrite !Forall_app, !Forall_fmap.
    repeat split;
      first [ by repeat constructor
            | apply Forall_forall; intros x _; by simpl ]. }
  { unfold M4. simpl. rewrite !length_app, !length_fmap, !length_seq.
    simpl. lia. }
  { unfold M4. simpl. intros i a Ha.
    apply lookup_app_Some in Ha as [Ha|[Hge Ha]].
    - pose proof (lookup_lt_Some _ _ _ Ha) as Hlt.
      rewrite length_app, !length_fmap, !length_seq in Hlt.
      apply lookup_app_Some in Ha as [Ha|[_ Ha]];
        apply list_lookup_fmap_Some in Ha as (k & -> & Hk);
        (eexists; split; [reflexivity|]; split; [reflexivity|]);
        simpl; (split; [done|]); unfold s in *; lia.
    - rewrite length_app, !length_fmap, !length_seq in Hge, Ha.
      apply list_lookup_singleton_Some in Ha as [Hi <-].
      eexists; split; [reflexivity|]. split; [reflexivity|]. simpl.
      split; [unfold s in *; lia|done]. }
  destruct (l1_place_agents_on_grid_eq M4) as (ags & r & -> & Hlen & Hags);
    [unfold M4; simpl; lia..|done|].
  unfold generate_influencer_agents, create_influencers.
  eexists. split; [reflexivity|].
  assert (population_size M4 = pop + 1) as HpopM by done.
  assert (model_grid M4 = {| width := w; height := h |}) as HgM by done.
  assert (influencer_group_size M4 = g) as HiM by done.
  assert (running M4 = true) as H5 by done.
  rewrite HpopM, HgM in Hags. clearbody M4.
  unfold placed.
  cbn [model_grid population_size influencer_group_size running agents
       modify bind get state_of set_agents set_rng].
  rewrite HgM, HpopM, HiM. do 4 (split; [done|]). split.
  - rewrite length_app, length_fmap, length_seq, Hlen, Hlen4. done.
  - intros i a Ha. apply lookup_app_Some in Ha as [Ha|[Hge Ha]].
    + destruct (Hags i a Ha) as (a0 & Ha0 & Hcase).
      pose proof (lookup_lt_Some _ _ _ Ha0) as Hi. rewrite Hlen4 in Hi.
      destruct (Hknow i a0 Ha0) as (p0 & -> & Hg0 & Hk0).
      rewrite decide_True in Hcase by lia.
      destruct Hcase as (c & -> & Hc). simpl.
      split; [done|]. split; [|done]. split; [done|]. by exists c.
    + rewrite Hlen, Hlen4 in Hge, Ha.
      apply list_lookup_fmap_Some in Ha as (k & -> & Hk). by split.
Qed.

End Laboratory1Constructed.

(** * The first trend model: a placed population runs without raising *)

Section Laboratory1Safety.
Import Laboratory1.

#[local] Instance l1_same_places_preorder : PreOrder same_places.
Proof.
  split.
  - intros m. by split.
  - intros m1 m2 m3 [H1 H2] [H3 H4]. split; congruence.
Qed.

Lemma l1_elem_of_persons ags j p :
  (j, p) ∈ persons ags <-> ags !! j = Some (RegularPerson p).
Proof.
  unfold persons. rewrite list_elem_of_omap. split.
  - intros ([k a] & Hin & Hm). apply elem_of_lookup_imap in Hin
      as (k' & y & [= -> ->] & Hk). simpl in Hm.
    destruct y as [q|f]; [|done]. by injection Hm as -> ->.
  - intros Hj. exists (j, RegularPerson p). split; [|done].
    apply elem_of_lookup_imap. by exists j, (RegularPerson p).
Qed.

Lemma l1_persons_nonempty ags :
  persons ags <> [] <-> exists j p, ags !! j = Some (RegularPerson p).
Proof.
  split.
  - intros Hne. destruct (persons ags) as [|[j p] l] eqn:E; [done|].
    exists j, p. apply l1_elem_of_persons. rewrite E. left.
  - intros (j & p & Hj) Hnil. apply l1_elem_of_persons in Hj.
    rewrite Hnil in Hj. by apply elem_of_nil in Hj.
Qed.

Lemma l1_standing_lookup (ags ags' : list Agent) (j : nat) p' :
  standing <$> ags' = standing <$> ags ->
  ags' !! j = Some (RegularPerson p') ->
  exists p, ags !! j = Some (RegularPerson p) /\
            grid p' = grid p /\ pos p' = pos p.
Proof.
  intros Hst Hj.
  assert ((standing <$> ags') !! j = Some (Some (grid p', pos p'))) as Hs
    by by rewrite list_lookup_fmap, Hj.
  rewrite Hst, list_lookup_fmap in Hs.
  destruct (ags !! j) as [[p|f]|]; try done.
  exists p. split; [done|]. simpl in Hs. split; congruence.
Qed.

Lemma l1_well_placed_same_places m m' :
  well_placed m -> same_places m m' -> well_placed m'.
Proof.
  intros (Hw & Hh & Hne & Hpl) (Hg & Hst).
  unfold well_placed, placed. rewrite Hg.
  split; [done|]. split; [done|]. split.
  - apply l1_persons_nonempty. apply l1_persons_nonempty in Hne
      as (j & p & Hj).
    destruct (l1_standing_lookup (agents m') (agents m) j p (eq_sym Hst) Hj)
      as (p' & Hj' & _).
    by exists j, p'.
  - intros j p' Hj. apply l1_person_at_lookup in Hj.
    destruct (l1_standing_lookup _ _ j p' Hst Hj) as (p & Hp & Hgp & Hc).
    apply l1_person_at_lookup in Hp.
    destruct (Hpl j p Hp) as (Hgr & c & Hcp & Hin).
    rewrite Hgp, Hc. split; [done|]. by exists c.
Qed.

Lemma l1_places_frame m m' :
  model_grid m' = model_grid m -> agents m' = agents m -> same_places m m'.
Proof. intros H1 H2. split; [done|]. by rewrite H2. Qed.

Lemma l1_places_random_random : respects same_places random_random.
Proof. intros m. by apply l1_places_frame. Qed.

Lemma l1_places_update_person i f :
  (forall p, grid (f p) = grid p /\ pos (f p) = pos p) ->
  respects same_places (update_person i f).
Proof.
  intros Hf m. split; [done|]. simpl. apply fmap_alter_same.
  intros [q|g]; simpl; [|done]. by destruct (Hf q) as [-> ->].
Qed.

Lemma l1_places_learn_about_trend i :
  respects same_places (learn_about_trend i).
Proof.
  unfold learn_about_trend.
  repeat respects_step ltac:(
    first [ apply l1_places_random_random
          | apply l1_places_update_person; by intros ?
          | apply l1_respects_on_person; [apply _|intros ?] ]).
Qed.

Lemma l1_places_gossip_to g j : respects same_places (gossip_to g j).
Proof.
  unfold gossip_to.
  repeat respects_step ltac:(
    first [ apply l1_places_random_random
          | apply l1_places_learn_about_trend
          | apply l1_respects_on_person; [apply _|intros ?] ]).
Qed.

Lemma l1_returns_learn_about_trend i :
  returns well_placed (learn_about_trend i) (fun _ => well_placed).
Proof.
  apply (returns_of_respects _ same_places).
  - apply l1_well_placed_same_places.
  - apply l1_places_learn_about_trend.
  - apply l1_never_raises_learn_about_trend.
Qed.

Lemma l1_returns_gossip_to g j :
  returns well_placed (gossip_to g j) (fun _ => well_placed).
Proof.
  apply (returns_of_respects _ same_places).
  - apply l1_well_placed_same_places.
  - apply l1_places_gossip_to.
  - apply l1_never_raises_gossip_to.
Qed.

Lemma l1_returns_spread_news_among_followers followers f :
  returns well_placed (spread_news_among_followers followers f)
    (fun _ => well_placed).
Proof.
  unfold spread_news_among_followers. apply returns_forM_.
  intros j _. apply l1_returns_learn_about_trend.
Qed.

Lemma l1_returns_spread_news i :
  returns well_placed (spread_news i) (fun _ => well_placed).
Proof.
  intros m Hm. unfold spread_news, on_person.
  destruct (agents m !! i) as [[self|f]|] eqn:Hi;
    [|by exists tt, m..].
  apply l1_person_at_lookup in Hi.
  destruct (proj2 (proj2 (proj2 Hm)) i self Hi) as (Hg & c & Hc & Hin).
  unfold bind at 1. unfold check_grid_initialization. rewrite Hg.
  unfold ret at 1.
  destruct (knows_about_trend self); [|by exists tt, m].
  unfold get_cell_list_contents. rewrite Hc.
  unfold bind at 1. unfold bind at 1. unfold get at 1. unfold ret at 1.
  eapply (returns_forM_ well_placed); [|done].
  intros j _. apply l1_returns_gossip_to.
Qed.

Lemma l1_returns_move_around i :
  returns well_placed (move_around i) (fun _ => well_placed).
Proof.
  intros m Hm. destruct (person_at m i) as [self|] eqn:Hi.
  - destruct Hm as (Hw & Hh & Hne & Hpl).
    destruct (Hpl i self Hi) as (Hg & c & Hc & Hin).
    assert (Grid.neighborhood (width (model_grid m)) (height (model_grid m)) c
            <> []) as Hnb by by apply neighborhood_nonempty.
    rewrite (l1_move_around_eq m i self _ c Hi Hg Hc Hnb).
    destruct (choice_nonempty _ (peek (random m)) Hnb) as [t Ht].
    rewrite Ht. eexists tt, _. split; [reflexivity|].
    assert (Grid.in_grid (width (model_grid m)) (height (model_grid m)) t)
      as Htin.
    { eapply (neighborhood_in_grid _ _ c); [lia|lia|done|].
      by eapply choice_elem. }
    split; [done|]. split; [done|]. split.
    + apply l1_persons_nonempty. apply l1_persons_nonempty in Hne
        as (j & p & Hj). simpl.
      destruct (decide (i = j)) as [->|Hne].
      * exists j, (set_person_pos t p).
        rewrite list_lookup_alter_eq, Hj. done.
      * exists j, p. by rewrite list_lookup_alter_ne.
    + intros j p' Hj. apply l1_person_at_lookup in Hj. simpl in Hj.
      rewrite list_lookup_alter in Hj.
      destruct (decide (i = j)) as [->|Hne'].
      * apply l1_person_at_lookup in Hi. rewrite Hi in Hj. simpl in Hj.
        injection Hj as <-. split; [done|]. by exists t.
      * apply l1_person_at_lookup in Hj. by apply (Hpl j p').
  - exists tt, m. split; [|done]. unfold move_around, on_person.
    unfold person_at in Hi. by destruct (agents m !! i) as [[p|f]|].
Qed.

Lemma l1_returns_do (I : Model -> Prop) method :
  (forall i, returns I (method i) (fun _ => I)) ->
  returns I (do method) (fun _ => I).
Proof.
  intros H. unfold do. eapply returns_bind.
  - apply (returns_get I (fun _ => I)). auto.
  - intros m. apply returns_forM_. intros i _. apply H.
Qed.

Lemma l1_returns_step_body :
  returns well_placed step_body (fun _ => well_placed).
Proof.
  unfold step_body.
  eapply returns_bind.
  { apply l1_returns_do. apply l1_returns_move_around. }
  intros ?. simpl. eapply returns_bind.
  { apply l1_returns_do. apply l1_returns_spread_news. }
  intros ?. simpl. eapply returns_bind.
  { apply (returns_get well_placed (fun _ => well_placed)). auto. }
  intros m. apply returns_forM_. intros [[] l] _; simpl;
    apply returns_forM_; intros x _.
  - apply l1_returns_spread_news_among_followers.
  - apply l1_returns_move_around.
Qed.

Lemma l1_returns_step : returns well_placed step (fun _ => well_placed).
Proof.
  intros m Hm. unfold step, _stop_condition, bind, get.
  destruct (decide _).
  - eexists tt, _. split; [reflexivity|].
    eapply l1_well_placed_same_places; [exact Hm|]. by apply l1_places_frame.
  - by apply l1_returns_step_body.
Qed.

Lemma l1_returns_ticks n : returns well_placed (ticks n) (fun _ => well_placed).
Proof.
  induction n as [|n IH]; simpl.
  - apply returns_ret. auto.
  - eapply returns_bind; [apply l1_returns_step|]. intros ?. simpl. apply IH.
Qed.

Lemma l1_init_well_placed pop g w h rnd gen :
  3 <= w -> 3 <= h -> 1 <= pop ->
  exists m, __init__ pop g w h rnd gen = Ok tt m /\ well_placed m.
Proof.
  intros Hw Hh Hp.
  destruct (l1_init_returns pop g w h rnd gen)
    as (m & Hm & Hg & _ & _ & _ & Hlen & Hags); [lia..|].
  exists m. split; [done|]. unfold well_placed. rewrite Hg. simpl.
  split; [done|]. split; [done|]. split.
  - apply l1_persons_nonempty.
    destruct (lookup_lt_is_Some_2 (agents m) 0) as [a Ha]; [lia|].
    pose proof (Hags 0%nat a Ha) as H. destruct a as [p|f]; [by eauto|].
    destruct H as [H _]. lia.
  - intros i p Hi. apply l1_person_at_lookup in Hi.
    by destruct (Hags i _ Hi) as (_ & H & _).
Qed.

End Laboratory1Safety.

Section Laboratory1Reachable.
Import Laboratory1.

Lemma l1_persons_filter_length (P : PersonAgent -> Prop)
    {DP : forall p, Decision (P p)} (Q : Agent -> Prop)
    {DQ : forall a, Decision (Q a)} (ags : list Agent) :
  (forall p, Q (RegularPerson p) <-> P p) ->
  (forall f, ~ Q (SportInfluencer f)) ->
  length (filter (fun ip : nat * PersonAgent => P ip.2) (persons ags))
  = length (filter Q ags).
Proof.
  intros HP HQ. unfold persons.
  change (imap pair ags) with (imap (fun i a => (id i, a)) ags).
  generalize (@id nat). revert ags.
  induction ags as [|a ags IH]; intros g; [done|].
  rewrite imap_cons. simpl. rewrite filter_cons.
  destruct a as [p|f]; simpl.
  - rewrite filter_cons. simpl.
    destruct (decide (P p)) as [H1|H1],
             (decide (Q (RegularPerson p))) as [H2|H2];
      rewrite ?length_cons.
    + f_equal. apply (IH (g ∘ Datatypes.S)).
    + exfalso. apply H2. by apply HP.
    + exfalso. apply H1. by apply HP.
    + apply (IH (g ∘ Datatypes.S)).
  - destruct (decide (Q (SportInfluencer f))) as [H2|H2];
      [by destruct (HQ f)|]. apply (IH (g ∘ Datatypes.S)).
Qed.

Lemma l1_count_by_bucket (k : bool) (ags : list Agent) :
  length (filter (fun ip : nat * PersonAgent => knows_about_trend ip.2 = k)
                 (persons ags))
  = length (filter (fun b : option (bool * bool) =>
                      match b with
                      | Some (_, k') => Bool.eqb k' k
                      | None => false
                      end = true)
                   (bucket <$> ags)).
Proof.
  set (known := fun b : option (bool * bool) =>
                  match b with
                  | Some (_, k') => Bool.eqb k' k
                  | None => false
                  end).
  etrans.
  - apply (l1_persons_filter_length (fun p => knows_about_trend p = k)
             (DP:=fun p => decide_rel eq (knows_about_trend p) k)
             (fun a => known (bucket a) = true)
             (DQ:=fun a => decide_rel eq (known (bucket a)) true)).
    + intros p. unfold known. simpl. unfold knows_about_trend.
      by destruct (_knows_about_trend p), k.
    + by intros f.
  - symmetry.
    apply (length_filter_fmap bucket (fun b => known b = true)
             (HQ:=fun b => decide_rel eq (known b) true)).
Qed.

Lemma l1_init_counts pop g w h rnd gen m :
  __init__ pop g w h rnd gen = Ok tt m ->
  not_knowing_count m = Z.to_nat pop /\ knowing_count m = 1%nat.
Proof.
  intros Hm. unfold not_knowing_count, knowing_count.
  rewrite !l1_count_by_bucket.
  destruct (l1_init_buckets _ _ _ _ _ _ _ Hm) as [Hs ->].
  rewrite !filter_app, !length_app, !length_filter_replicate.
  rewrite !filter_cons, !filter_nil.
  repeat case_decide; try done; simpl; lia.
Qed.

End Laboratory1Reachable.

(** * The first trend model: further properties *)

(** X13.  What the constructor of the first trend model refuses and what it
    builds.  On a grid with positive dimensions a [population_size] below 1
    raises a [ValueError], from [randint(1, population_size)].  Otherwise
    the constructor returns: [population_size] has grown by one, for the
    informed person it adds; the persons are registered first, every one of
    them holds the grid of the model and stands on one of its positions,
    and the influencers come after them; the person registered last is the
    only one who knows about the trend, so that [population_size] persons
    do not know it. *)
Theorem X13_first_trend_constructor_places_every_person :
  forall pop g w h rnd gen,
    (0 < w -> 0 < h -> pop < 1 ->
     exists msg,
       raised (Laboratory1.__init__ pop g w h rnd gen)
       = Some (ValueError msg)) /\
    (0 < w -> 0 < h -> 1 <= pop ->
     exists m,
       Laboratory1.__init__ pop g w h rnd gen = Ok tt m /\
       Laboratory1.model_grid m
       = {| Laboratory1.width := w; Laboratory1.height := h |} /\
       Laboratory1.population_size m = pop + 1 /\
       Laboratory1.running m = true /\
       length (Laboratory1.agents m) = (Z.to_nat pop + 1 + Z.to_nat g)%nat /\
       Laboratory1.not_knowing_count m = Z.to_nat pop /\
       Laboratory1.knowing_count m = 1%nat /\
       (forall i a, Laboratory1.agents m !! i = Some a ->
          match a with
          | Laboratory1.RegularPerson p =>
              (i < Z.to_nat pop + 1)%nat /\ Laboratory1.placed m p /\
              (Laboratory1.knows_about_trend p = true <-> i = Z.to_nat pop)
          | Laboratory1.SportInfluencer f =>
              (Z.to_nat pop + 1 <= i)%nat /\
              Laboratory1.influencer_grid f
              = Some (Laboratory1.model_grid m)
          end)).
Proof.
  intros pop g w h rnd gen. split.
  - intros _ _ Hn. eexists. by apply l1_init_empty_range.
  - intros Hw Hh Hn.
    destruct (l1_init_returns pop g w h rnd gen Hw Hh Hn)
      as (m & Hm & Hg & Hp & _ & Hr & Hlen & Hags).
    destruct (l1_init_counts _ _ _ _ _ _ _ Hm) as [Hnk Hk].
    exists m. by do 7 (split; [done|]).
Qed.

Lemma X13_witness_first_trend_model_of_one :
  exists m,
    Laboratory1.__init__ 1 1 3 3 (Examples.constant_tape (1 # 10))
      (Examples.constant_tape (1 # 2)) = Ok tt m /\
    Laboratory1.population_size m = 2 /\
    Laboratory1.not_knowing_count m = 1%nat.
Proof.
  destruct (X13_first_trend_constructor_places_every_person
              1 1 3 3 (Examples.constant_tape (1 # 10))
              (Examples.constant_tape (1 # 2))) as (_ & H).
  destruct H as (m & Hm & _ & Hp & _ & _ & Hn & _); [lia|lia|lia|].
  exists m. split; [exact Hm|]. split; [exact Hp|exact Hn].
Defined.

(** X14.  The first trend model runs without raising.  Its agents guard
    [self.grid], which the constructor sets for every agent, and on a grid
    of at least 3 x 3 positions the constructor builds a model whose
    persons all stand on positions of the grid; from such a model every
    method of a person or an influencer, a step and any number of ticks
    return, and the persons still all hold the grid and stand on its
    positions: neither the error of [check_grid_initialization] nor an
    error of the grid can occur in a run that starts from the
    constructor. *)
Theorem X14_first_trend_model_runs_without_raising :
  (forall pop g w h rnd gen,
     3 <= w -> 3 <= h -> 1 <= pop ->
     exists m,
       Laboratory1.__init__ pop g w h rnd gen = Ok tt m /\
       Laboratory1.well_placed m) /\
  (forall i : nat,
     returns Laboratory1.well_placed (Laboratory1.move_around i)
       (fun _ => Laboratory1.well_placed) /\
     returns Laboratory1.well_placed (Laboratory1.spread_news i)
       (fun _ => Laboratory1.well_placed) /\
     returns Laboratory1.well_placed (Laboratory1.learn_about_trend i)
       (fun _ => Laboratory1.well_placed)) /\
  (forall (followers : list nat) (f : nat),
     returns Laboratory1.well_placed
       (Laboratory1.spread_news_among_followers followers f)
       (fun _ => Laboratory1.well_placed)) /\
  returns Laboratory1.well_placed Laboratory1.step
    (fun _ => Laboratory1.well_placed) /\
  (forall (m : Laboratory1.Model) (n : nat),
     Laboratory1.well_placed m ->
     exists m', Laboratory1.ticks n m = Ok tt m' /\
                Laboratory1.well_placed m').
Proof.
  split; [|split; [|split; [|split]]].
  - apply l1_init_well_placed.
  - intros i. split; [apply l1_returns_move_around|].
    split; [apply l1_returns_spread_news|apply l1_returns_learn_about_trend].
  - apply l1_returns_spread_news_among_followers.
  - apply l1_returns_step.
  - intros m n Hm. by apply (returns_unit _ _ _ m (l1_returns_ticks n)).
Qed.

Lemma X14_witness_first_trend_model_runs :
  exists m m',
    Laboratory1.__init__ 1 1 3 3 (Examples.constant_tape (1 # 10))
      (Examples.constant_tape (1 # 2)) = Ok tt m /\
    Laboratory1.ticks 2 m = Ok tt m' /\ Laboratory1.well_placed m'.
Proof.
  destruct X14_first_trend_model_runs_without_raising
    as (Hinit & _ & _ & _ & Hticks).
  destruct (Hinit 1 1 3 3 (Examples.constant_tape (1 # 10))
              (Examples.constant_tape (1 # 2))) as (m & Hm & Hwp);
    [lia|lia|lia|].
  destruct (Hticks m 2%nat Hwp) as (m' & Hm' & Hwp').
  exists m, m'. split; [exact Hm|]. split; [exact Hm'|exact Hwp'].
Defined.

(** * The disease model: no infection without a source *)

Section HomeworkHealthy.
Import Homework.

Lemma infected_count_zero m :
  infected_count m = 0%nat <->
  forall i a, agents m !! i = Some a -> is_infected a = false.
Proof.
  unfold infected_count. rewrite length_zero_iff_nil. split.
  - intros Hnil i a Hi. destruct (is_infected a) eqn:Ha; [|done].
    assert (a ∈ filter (fun a : PersonAgent => is_infected a = true)
                       (agents m)) as Hin.
    { apply list_elem_of_filter. split; [done|].
      by eapply list_elem_of_lookup_2. }
    rewrite Hnil in Hin. by apply elem_of_nil in Hin.
  - intros H.
    destruct (filter _ (agents m)) as [|a l] eqn:E; [done|].
    assert (a ∈ filter (fun a : PersonAgent => is_infected a = true)
                       (agents m)) as Hin by (rewrite E; left).
    apply list_elem_of_filter in Hin as [Ha Hin].
    apply list_elem_of_lookup in Hin as [i Hi].
    rewrite (H i a Hi) in Ha. done.
Qed.

Lemma healthy_frame m m' :
  Forall2 (fun a a' => is_infected a' = is_infected a) (agents m) (agents m') ->
  grid m' = grid m -> tape (random m') = tape (random m) ->
  healthy m -> healthy m'.
Proof.
  intros Hag Hg Hr (Hn & Hc & Hd). split; [|split].
  - apply infected_count_zero. intros i a' Hi.
    destruct (Forall2_lookup_r _ _ _ _ _ Hag Hi) as (a & Ha & Heq).
    rewrite Heq. by eapply (proj1 (infected_count_zero m)).
  - by rewrite Hg.
  - by rewrite Hr.
Qed.

Lemma healthy_same m m' :
  agents m' = agents m -> grid m' = grid m ->
  tape (random m') = tape (random m) -> healthy m -> healthy m'.
Proof.
  intros Hag. apply healthy_frame. rewrite Hag.
  apply Forall2_same_length_lookup_2; [done|].
  intros i x y Hx Hy. congruence.
Qed.

Lemma healthy_clean m c :
  healthy m -> prop_is_infected (grid m !!! c) = false.
Proof.
  intros (_ & Hc & _). rewrite lookup_total_alt.
  destruct (grid m !! c) as [p|] eqn:E; [by apply (Hc c p)|done].
Qed.

Lemma healthy_random_random : keeps healthy random_random.
Proof.
  intros m Hm. by apply (healthy_same m).
Qed.

Lemma healthy_select_random_cell cells :
  keeps healthy (select_random_cell cells).
Proof.
  intros m Hm. unfold select_random_cell.
  destruct (Grid.choice _ _); [|done].
  by apply (healthy_same m).
Qed.

Lemma healthy_move_to i c : keeps healthy (move_to i c).
Proof.
  intros m Hm. apply (healthy_frame m); [|done|done|done]. simpl.
  apply Forall2_same_length_lookup_2; [by rewrite length_alter|].
  intros j a a' Ha Ha'.
  destruct (decide (i = j)) as [->|Hne].
  - rewrite list_lookup_alter_eq, Ha in Ha'. by injection Ha' as <-.
  - rewrite list_lookup_alter_ne, Ha in Ha' by done. by injection Ha' as <-.
Qed.

Lemma healthy_check self msg :
  keeps healthy (check_grid_initialization self msg).
Proof.
  unfold check_grid_initialization.
  destruct (cell self); [apply keeps_ret|apply keeps_raise].
Qed.

Lemma healthy_on_agent i method :
  (forall a, keeps healthy (method a)) -> keeps healthy (on_agent i method).
Proof.
  intros H m Hm. unfold on_agent. destruct (agents m !! i); [by apply H|done].
Qed.

Lemma healthy_move_around i : keeps healthy (move_around i).
Proof.
  unfold move_around. apply healthy_on_agent. intros self.
  apply keeps_bind; [apply healthy_check|intros c].
  apply keeps_bind; [apply healthy_random_random|intros u].
  destruct (Qltb _ _); [|apply keeps_ret].
  apply keeps_bind; [apply keeps_get|intros m'].
  apply keeps_bind; [apply healthy_select_random_cell|intros t].
  apply healthy_move_to.
Qed.

Lemma healthy_spread_virus i : keeps healthy (spread_virus i).
Proof.
  intros m Hm. unfold spread_virus, on_agent.
  destruct (agents m !! i) as [self|] eqn:Hi; [|done].
  unfold bind at 1. unfold check_grid_initialization.
  destruct (cell self); [|done]. unfold ret at 1.
  by rewrite (proj1 (infected_count_zero m) (proj1 Hm) i self Hi).
Qed.

Lemma healthy_draw m : healthy m -> Qltb (peek (random m)) 0 = false.
Proof.
  intros (_ & _ & Hd). unfold Qltb, peek.
  apply negb_false_iff, Qle_bool_iff, Hd.
Qed.

Lemma healthy_get_infected_from_cell i :
  keeps healthy (get_infected_from_cell i).
Proof.
  intros m Hm. unfold get_infected_from_cell, on_agent.
  destruct (agents m !! i) as [self|] eqn:Hi; [|done].
  unfold bind at 1. unfold check_grid_initialization.
  destruct (cell self) as [c|] eqn:Hc; [|done]. unfold ret at 1.
  destruct (is_infected self); [done|].
  unfold bind at 1. unfold random_random at 1.
  pose proof (healthy_random_random m Hm) as Hm1. simpl in Hm1.
  set (m1 := set_random (advance (random m)) m) in *.
  unfold bind at 1. unfold _get_infection_probabilty.
  unfold bind at 1. unfold check_grid_initialization. rewrite Hc.
  unfold ret at 1. unfold bind at 1. unfold get at 1.
  rewrite (healthy_clean m1 c Hm1).
  unfold bind at 1. unfold _in_neighbourhood_of_infection.
  unfold bind at 1. unfold check_grid_initialization. rewrite Hc.
  unfold ret at 1. unfold bind at 1. unfold get at 1. unfold ret at 1.
  assert (existsb (fun d => prop_is_infected (grid m1 !!! d))
                  (neighborhood m1 c) = false) as ->.
  { apply not_true_is_false. intros H.
    apply existsb_exists in H as (d & _ & Hd).
    by rewrite (healthy_clean m1 d Hm1) in Hd. }
  unfold ret at 1. by rewrite (healthy_draw m Hm).
Qed.

Lemma healthy_decay_cell c : keeps healthy (modify (decay_cell c)).
Proof.
  intros m Hm. simpl. unfold decay_cell.
  by rewrite (healthy_clean m c Hm).
Qed.

Lemma healthy_decay : keeps healthy decay.
Proof.
  unfold decay. apply keeps_bind; [apply keeps_get|intros m].
  apply keeps_forM_. intros c. apply healthy_decay_cell.
Qed.

Lemma healthy_collect : keeps healthy collect.
Proof.
  intros m Hm. by apply (healthy_same m).
Qed.

Lemma healthy_step_body : keeps healthy step_body.
Proof.
  unfold step_body.
  apply keeps_bind; [apply healthy_collect|intros _].
  apply keeps_bind; [apply hw_keeps_do, healthy_move_around|intros _].
  apply keeps_bind; [apply hw_keeps_do, healthy_spread_virus|intros _].
  apply keeps_bind;
    [apply hw_keeps_do, healthy_get_infected_from_cell|intros _].
  apply healthy_decay.
Qed.

Lemma healthy_step : keeps healthy step.
Proof.
  unfold step, _stop_condition.
  apply keeps_bind; [apply keeps_get|intros m].
  destruct (decide _); [|apply healthy_step_body].
  apply keeps_modify. intros s Hs. by apply (healthy_same s).
Qed.

Lemma healthy_ticks n : keeps healthy (ticks n).
Proof.
  induction n as [|n IH]; simpl; [apply keeps_ret|].
  apply keeps_bind; [apply healthy_step|intros _; apply IH].
Qed.

Lemma healthy_counters m m' :
  healthy m -> healthy m' -> infections_accounted m m' ->
  direct_infections m' = direct_infections m /\
  location_infections m' = location_infections m.
Proof.
  intros (Hn & _) (Hn' & _) (H1 & H2 & H3). rewrite Hn, Hn' in H3. lia.
Qed.

Lemma healthy_never_stops n : forall m,
  healthy m -> well_placed m ->
  exists m', ticks n m = Ok tt m' /\ running m' = running m.
Proof.
  induction n as [|n IH]; intros m Hm Hwp; simpl; [by exists m|].
  destruct (returns_unit _ _ _ m hw_returns_step Hwp) as (m1 & Hs & Hwp1).
  pose proof (healthy_step m Hm) as Hm1. rewrite Hs in Hm1. simpl in Hm1.
  destruct (IH m1 Hm1 Hwp1) as (m' & Ht & Hr).
  exists m'. unfold bind. rewrite Hs. split; [done|]. rewrite Hr.
  assert (not_infected_count m <> 0%nat) as Hne.
  { destruct Hwp as (_ & _ & _ & Hag & _).
    destruct (agents m) as [|a l] eqn:E; [done|].
    apply (hw_not_infected_count_pos m 0 a); [by rewrite E|].
    apply (proj1 (infected_count_zero m) (proj1 Hm) 0%nat). by rewrite E. }
  unfold step, _stop_condition, bind, get in Hs.
  rewrite decide_False in Hs by done.
  pose proof (hw_running_step_body m) as Hb. by rewrite Hs in Hb.
Qed.

Lemma hw_init_healthy pop inf com p w h rnd gen m :
  __init__ pop inf com p w h rnd gen = Ok tt m ->
  inf <= 0 -> (forall k, (0 <= tape rnd k)%Q) -> healthy m.
Proof.
  intros Hm Hinf Hd.
  destruct (hw_init_Ok_inv _ _ _ _ _ _ _ _ _ Hm) as (Hw & Hh & Hp).
  destruct (hw_init_returns pop inf com p w h rnd gen Hw Hh Hp)
    as (m0 & Hm0 & _ & _ & _ & _ & _ & _ & Hr & Hg & _).
  rewrite Hm in Hm0. injection Hm0 as <-.
  split; [|split].
  - rewrite (hw_init_infected_count _ _ _ _ _ _ _ _ _ Hm). lia.
  - intros c q. rewrite Hg. case_decide; [|done]. by intros [= <-].
  - by rewrite Hr.
Qed.

End HomeworkHealthy.

(** X15.  No infection without a source.  Call a model of the disease
    variant healthy when none of its agents is infected, no cell of its
    grid is contaminated and no draw of its generator is negative.  Moving,
    spreading the virus, the passive acquisition, the decay, a step and any
    run of ticks keep a healthy model healthy, also when the call raises,
    and a run of ticks leaves both infection counters as they were.  A
    healthy model that can run is therefore never stopped by its stop
    condition: any number of ticks return and [running] is as it was.  The
    constructor builds a healthy model when [infected_population_size] is
    zero or negative. *)
Theorem X15_healthy_population_stays_healthy :
  (forall i : nat,
     keeps Homework.healthy (Homework.move_around i) /\
     keeps Homework.healthy (Homework.spread_virus i) /\
     keeps Homework.healthy (Homework.get_infected_from_cell i)) /\
  keeps Homework.healthy Homework.decay /\
  keeps Homework.healthy Homework.step /\
  (forall (n : nat) (m : Homework.Model),
     Homework.healthy m ->
     Homework.healthy (state_of (Homework.ticks n m)) /\
     Homework.direct_infections (state_of (Homework.ticks n m))
     = Homework.direct_infections m /\
     Homework.location_infections (state_of (Homework.ticks n m))
     = Homework.location_infections m) /\
  (forall (n : nat) (m : Homework.Model),
     Homework.healthy m -> Homework.well_placed m ->
     exists m', Homework.ticks n m = Ok tt m' /\
                Homework.running m' = Homework.running m) /\
  (forall pop inf com p w h rnd gen m,
     Homework.__init__ pop inf com p w h rnd gen = Ok tt m ->
     inf <= 0 -> (forall k, (0 <= tape rnd k)%Q) -> Homework.healthy m).
Proof.
  split; [|split; [|split; [|split; [|split]]]].
  - intros i. split; [apply healthy_move_around|].
    split; [apply healthy_spread_virus|apply healthy_get_infected_from_cell].
  - apply healthy_decay.
  - apply healthy_step.
  - intros n m Hm. pose proof (healthy_ticks n m Hm) as Hm'.
    split; [done|].
    apply (healthy_counters m _ Hm Hm'), accounted_ticks.
  - intros n m. apply healthy_never_stops.
  - apply hw_init_healthy.
Qed.

Lemma X15_witness_model_without_infected_agents :
  exists m m',
    Homework.__init__ 2 0 1 (1 # 2) 3 3 (Examples.constant_tape (9 # 10))
      (Examples.constant_tape (1 # 2)) = Ok tt m /\
    Homework.ticks 3 m = Ok tt m' /\
    Homework.running m' = Homework.running m /\
    Homework.direct_infections m' = Homework.direct_infections m.
Proof.
  destruct X15_healthy_population_stays_healthy
    as (_ & _ & _ & Hticks & Hruns & Hinit).
  destruct (hw_init_well_placed 2 0 1 (1 # 2) 3 3
              (Examples.constant_tape (9 # 10))
              (Examples.constant_tape (1 # 2)))
    as (m & Hm & Hwp); [lia|lia|lia|lia|lia|lia|].
  assert (Homework.healthy m) as Hh.
  { apply (Hinit _ _ _ _ _ _ _ _ _ Hm); [lia|].
    intros k. simpl. unfold Qle. simpl. lia. }
  destruct (Hruns 3%nat m Hh Hwp) as (m' & Hm' & Hr).
  exists m, m'. split; [exact Hm|]. split; [exact Hm'|].
  split; [exact Hr|].
  destruct (Hticks 3%nat m Hh) as (_ & Hd & _).
  rewrite Hm' in Hd. exact Hd.
Defined.

(** * The second trend model: whom the influencers reach *)

Section ForEachMember.
Context {S : Type} (R : relation S) `{!PreOrder R}.

Lemma respects_forM__elem {A} (l : list A) (body : A -> M S unit) :
  (forall x, x ∈ l -> respects R (body x)) -> respects R (forM_ l body).
Proof.
  induction l as [|x l IH]; intros Hb; simpl.
  - apply respects_ret. apply _.
  - apply respects_bind; [apply _|apply Hb; left|].
    intros _. apply IH. intros y Hy. apply Hb. by right.
Qed.

End ForEachMember.

Section Laboratory2Reach.
Import Laboratory2.
Context (hearers movers : nat -> Prop).

#[local] Instance reaches_only_preorder :
  PreOrder (reaches_only hearers movers).
Proof.
  split.
  - intros m. split; [done|]. split; [done|]. split; [done|].
    intros j p Hj. exists p. by repeat split.
  - intros m1 m2 m3 (Hd & Hs & Hi & Hp) (Hd' & Hs' & Hi' & Hp').
    split; [congruence|]. split; [congruence|]. split.
    + intros Hno. destruct (Hi Hno), (Hi' Hno). split; congruence.
    + intros j p Hj.
      destruct (Hp j p Hj) as (p2 & Hj2 & Hh2 & Hm2 & He2).
      destruct (Hp' j p2 Hj2) as (p3 & Hj3 & Hh3 & Hm3 & He3).
      exists p3. split; [done|]. split; [|split].
      * intros Hn. destruct (Hh2 Hn), (Hh3 Hn). split; congruence.
      * intros Hn. rewrite (Hm3 Hn). by apply Hm2.
      * intros Hn1 Hn2. rewrite (He3 Hn1 Hn2). by apply He2.
Qed.

Lemma ro_frame m m' :
  agents m' = agents m ->
  direct_interactions_count m' = direct_interactions_count m ->
  successful_direct_interactions_count m'
  = successful_direct_interactions_count m ->
  indirect_interactions_count m' = indirect_interactions_count m ->
  successful_indirect_interactions_count m'
  = successful_indirect_interactions_count m ->
  reaches_only hearers movers m m'.
Proof.
  intros Ha H1 H2 H3 H4. do 3 (split; [done|]).
  intros j p Hj. exists p. unfold person_at in *. rewrite Ha.
  by repeat split.
Qed.

Lemma ro_random_random : respects (reaches_only hearers movers) random_random.
Proof. intros m. by apply ro_frame. Qed.

Lemma ro_select_random_cell cells :
  respects (reaches_only hearers movers) (select_random_cell cells).
Proof.
  intros m. unfold select_random_cell.
  destruct (Grid.choice _ _); [by apply ro_frame|reflexivity].
Qed.

Lemma ro_check self msg :
  respects (reaches_only hearers movers)
    (check_grid_initialization self msg).
Proof.
  unfold check_grid_initialization.
  destruct (cell self); [apply respects_ret|apply respects_raise]; apply _.
Qed.

Lemma ro_update_influencer f g :
  respects (reaches_only hearers movers) (update_influencer f g).
Proof.
  intros m. do 3 (split; [done|]). intros j p Hj. exists p.
  split; [|by repeat split].
  apply person_at_lookup in Hj. apply person_at_lookup. simpl.
  destruct (decide (f = j)) as [->|Hne].
  - by rewrite list_lookup_alter_eq, Hj.
  - by rewrite list_lookup_alter_ne.
Qed.

Lemma ro_update_person i f :
  (hearers i \/
   forall p, knows_about_trend (f p) = knows_about_trend p /\
             trend_gossip_counter (f p) = trend_gossip_counter p) ->
  (movers i \/ forall p, cell (f p) = cell p) ->
  hearers i \/ movers i ->
  respects (reaches_only hearers movers) (update_person i f).
Proof.
  intros Hh Hm He m. do 3 (split; [done|]). intros j p Hj.
  apply person_at_lookup in Hj.
  destruct (decide (i = j)) as [->|Hne].
  - exists (f p). split.
    { apply person_at_lookup. simpl. by rewrite list_lookup_alter_eq, Hj. }
    split; [|split].
    + intros Hn. destruct Hh as [?|Hh]; [done|]. apply Hh.
    + intros Hn. destruct Hm as [?|Hm]; [done|]. apply Hm.
    + intros Hn1 Hn2. by destruct He.
  - exists p. split; [|by repeat split].
    apply person_at_lookup. simpl. by rewrite list_lookup_alter_ne.
Qed.

Lemma ro_count_indirect j g :
  hearers j ->
  respects (reaches_only hearers movers)
    (modify (fun m => set_indirect_interactions_count (g m) m)).
Proof.
  intros Hj m. split; [done|]. split; [done|]. split.
  - intros Hno. by destruct (Hno j).
  - intros k p Hk. exists p. by repeat split.
Qed.

Lemma ro_count_successful_indirect j g :
  hearers j ->
  respects (reaches_only hearers movers)
    (modify (fun m => set_successful_indirect_interactions_count (g m) m)).
Proof.
  intros Hj m. split; [done|]. split; [done|]. split.
  - intros Hno. by destruct (Hno j).
  - intros k p Hk. exists p. by repeat split.
Qed.

Lemma ro_learn_about_trend j :
  hearers j ->
  respects (reaches_only hearers movers) (learn_about_trend j false).
Proof.
  intros Hj. unfold learn_about_trend.
  apply l2_respects_on_person; [apply _|intros self].
  apply respects_bind; [apply _| |intros _].
  { apply ro_update_person; [by left|by right|by left]. }
  apply respects_bind; [apply _|apply ro_random_random|intros u].
  destruct (Qltb _ _); [|apply respects_ret; apply _].
  apply respects_bind; [apply _| |intros _].
  { apply ro_update_person; [by left|by right|by left]. }
  by apply (ro_count_successful_indirect j).
Qed.

Lemma ro_move_around j :
  movers j -> respects (reaches_only hearers movers) (move_around j).
Proof.
  intros Hj. unfold move_around.
  apply l2_respects_on_person; [apply _|intros self].
  apply respects_bind; [apply _|apply ro_check|intros c].
  apply respects_bind; [apply _|apply respects_get; apply _|intros m].
  apply respects_bind; [apply _|apply ro_select_random_cell|intros t].
  apply ro_update_person; [by right|by left|by right].
Qed.

Lemma ro_spread_news_among_random_followers followers f :
  (forall j, j ∈ followers -> hearers j) ->
  respects (reaches_only hearers movers)
    (spread_news_among_random_followers followers f).
Proof.
  intros Hf. unfold spread_news_among_random_followers.
  apply respects_forM__elem; [apply _|]. intros j Hj%Hf.
  apply respects_bind; [apply _|apply ro_random_random|intros u].
  destruct (Qltb _ _); [|apply respects_ret; apply _].
  apply respects_bind; [apply _|apply ro_update_influencer|intros _].
  apply respects_bind; [apply _|by apply (ro_count_indirect j)|intros _].
  by apply ro_learn_about_trend.
Qed.

End Laboratory2Reach.

Section Laboratory2InfluencerStep.
Import Laboratory2.

#[local] Existing Instance reaches_only_preorder.

Lemma l2_groupby_member l g j :
  g ∈ groupby l -> j ∈ g.2 ->
  exists p, (j, p) ∈ l /\ sport_enthusiast p = g.1.
Proof.
  unfold groupby. destruct l as [|ip l]; [by intros ?%elem_of_nil|].
  set (L := ip :: l). intros Hg Hj.
  apply elem_of_cons in Hg as [->|Hg].
  - simpl in Hj. apply list_elem_of_fmap in Hj as ([k p] & -> & Hx).
    apply list_elem_of_filter in Hx as [Hs Hx]. by exists p.
  - destruct (filter _ L) as [|x xs] eqn:E in Hg; [by apply elem_of_nil in Hg|].
    apply list_elem_of_singleton in Hg as ->. cbn [fst snd] in *.
    change (j ∈ (x :: xs).*1) in Hj.
    apply list_elem_of_fmap in Hj as ([k p] & -> & Hy).
    rewrite <-E in Hy. apply list_elem_of_filter in Hy as [Hs Hy].
    exists p. split; [done|]. simpl in Hs.
    by destruct (sport_enthusiast p), (sport_enthusiast ip.2).
Qed.

Lemma ro_influencer_agents_step m :
  reaches_only (follower m) (bystander m) m
    (state_of (influencer_agents_step m)).
Proof.
  unfold influencer_agents_step, bind, get.
  match goal with
  | |- reaches_only _ _ _ (state_of (?c m)) =>
      cut (respects (reaches_only (follower m) (bystander m)) c);
        [intros H; apply H|]
  end.
  apply respects_forM__elem; [apply _|].
  intros [b l] Hg. cbn [fst snd].
  assert (forall j, j ∈ l -> exists p, person_at m j = Some p /\
            knows_about_trend p = false /\ sport_enthusiast p = b) as Hl.
  { intros j Hj.
    destruct (l2_groupby_member _ _ j Hg Hj) as (p & Hp & Hs).
    apply list_elem_of_filter in Hp as [Hk Hp].
    apply l2_elem_of_persons, person_at_lookup in Hp. by exists p. }
  destruct b.
  - apply respects_forM__elem; [apply _|]. intros f Hf.
    apply ro_spread_news_among_random_followers. intros j Hj.
    split; [|by apply Hl]. intros Hnil. rewrite Hnil in Hf.
    by apply elem_of_nil in Hf.
  - apply respects_forM__elem; [apply _|]. intros j Hj.
    apply ro_move_around. by apply Hl.
Qed.

End Laboratory2InfluencerStep.

(** X16.  Whom the influencers reach.  [influencer_agents_step], from any
    state and also when it raises, leaves the two direct counters as they
    were, and every person registered in place.  A person who knew about
    the trend is untouched by it; a sport enthusiast is not moved; a person
    who is no sport enthusiast hears and learns nothing (it is only moved),
    and without influencers nobody hears or learns anything and the two
    indirect counters are as they were. *)
Theorem X16_influencers_reach_only_uninformed_enthusiasts :
  forall m : Laboratory2.Model,
    Laboratory2.direct_interactions_count
      (state_of (Laboratory2.influencer_agents_step m))
    = Laboratory2.direct_interactions_count m /\
    Laboratory2.successful_direct_interactions_count
      (state_of (Laboratory2.influencer_agents_step m))
    = Laboratory2.successful_direct_interactions_count m /\
    (Laboratory2.influencers (Laboratory2.agents m) = [] ->
     Laboratory2.indirect_interactions_count
       (state_of (Laboratory2.influencer_agents_step m))
     = Laboratory2.indirect_interactions_count m /\
     Laboratory2.successful_indirect_interactions_count
       (state_of (Laboratory2.influencer_agents_step m))
     = Laboratory2.successful_indirect_interactions_count m) /\
    (forall (j : nat) (p : Laboratory2.PersonAgent),
       Laboratory2.person_at m j = Some p ->
       exists p',
         Laboratory2.person_at
           (state_of (Laboratory2.influencer_agents_step m)) j = Some p' /\
         (Laboratory2.knows_about_trend p = true -> p' = p) /\
         (Laboratory2.sport_enthusiast p = true ->
          Laboratory2.cell p' = Laboratory2.cell p) /\
         (Laboratory2.sport_enthusiast p = false \/
          Laboratory2.influencers (Laboratory2.agents m) = [] ->
          Laboratory2.knows_about_trend p' = Laboratory2.knows_about_trend p /\
          Laboratory2.trend_gossip_counter p'
          = Laboratory2.trend_gossip_counter p)).
Proof.
  intros m.
  destruct (ro_influencer_agents_step m) as (Hd & Hs & Hi & Hp).
  split; [done|]. split; [done|]. split.
  - intros Hnil. apply Hi. intros j [Hne _]. done.
  - intros j p Hj. destruct (Hp j p Hj) as (p' & Hj' & Hh & Hm & He).
    exists p'. split; [done|]. split; [|split].
    + intros Hk. apply He.
      * intros (_ & q & Hq & Hkq & _). congruence.
      * intros (q & Hq & Hkq & _). congruence.
    + intros Hsp. apply Hm. intros (q & Hq & _ & Hsq). congruence.
    + intros Hcase. apply Hh. intros (Hne & q & Hq & _ & Hsq).
      destruct Hcase as [Hsp|Hnil]; [congruence|done].
Qed.

Lemma X16_witness_informed_person_is_untouched :
  exists p,
    Laboratory2.person_at Examples.two_influencers_model 1 = Some p /\
    Laboratory2.person_at
      (state_of (Laboratory2.influencer_agents_step
                   Examples.two_influencers_model)) 1 = Some p.
Proof.
  destruct (Laboratory2.person_at Examples.two_influencers_model 1)
    as [p|] eqn:Hp; [|vm_compute in Hp; discriminate Hp].
  exists p. split; [reflexivity|].
  destruct (X16_influencers_reach_only_uninformed_enthusiasts
              Examples.two_influencers_model) as (_ & _ & _ & H).
  destruct (H 1%nat p Hp) as (p' & Hp' & Hk & _).
  rewrite Hp'. f_equal. apply Hk.
  vm_compute in Hp. injection Hp as <-. reflexivity.
Defined.
